(** * MedVerify: the parser of the model output and the PubMed retriever

    A shallow embedding of [medgemma_analyzer.py] and [pubmed_search.py].

    Text is a list of Unicode code points.  The whitespace and line-break
    classes are the interpreter's; the decimal-digit table and [str.lower]
    are taken from a [Runtime] that fixes them on ASCII only, so every
    general statement holds whatever the interpreter's Unicode tables are. *)

From Stdlib Require Import Strings.Byte String Ascii Bool NArith ZArith.
From Stdlib Require Import DecimalString Lia List.
Import ListNotations.

Set Warnings "-register-all".

Local Open Scope N_scope.

(** ** Text *)

Definition char := N.
Definition str := list char.

(** A source literal, character by character (ASCII literals only). *)
Definition lit (s : string) : str :=
  List.map N_of_ascii (list_ascii_of_string s).

Definition between (lo hi c : char) : bool := (lo <=? c) && (c <=? hi).

(** [str.isspace] on one code point. *)
Definition isspace (c : char) : bool :=
  between 9 13 c || between 28 32 c || (c =? 133) || (c =? 160)
  || (c =? 5760) || between 8192 8202 c || (c =? 8232) || (c =? 8233)
  || (c =? 8239) || (c =? 8287) || (c =? 12288).

(** The line boundaries of [str.splitlines]. *)
Definition islinebreak (c : char) : bool :=
  between 10 13 c || between 28 30 c || (c =? 133) || (c =? 8232)
  || (c =? 8233).

Fixpoint str_eqb (a b : str) : bool :=
  match a, b with
  | [], [] => true
  | x :: a', y :: b' => (x =? y) && str_eqb a' b'
  | _, _ => false
  end.

(** [s.startswith(p)], returning what follows the prefix. *)
Fixpoint strip_prefix (p s : str) : option str :=
  match p, s with
  | [], _ => Some s
  | x :: p', y :: s' => if x =? y then strip_prefix p' s' else None
  | _ :: _, [] => None
  end.

Definition startswith (p s : str) : bool :=
  match strip_prefix p s with Some _ => true | None => false end.

(** [p in s] *)
Fixpoint contains (p s : str) : bool :=
  startswith p s || match s with [] => false | _ :: s' => contains p s' end.

Fixpoint lstrip_by (p : char -> bool) (s : str) : str :=
  match s with
  | c :: s' => if p c then lstrip_by p s' else s
  | [] => []
  end.

Fixpoint rstrip_by (p : char -> bool) (s : str) : str :=
  match s with
  | c :: s' =>
      match rstrip_by p s' with
      | [] => if p c then [] else [c]
      | r => c :: r
      end
  | [] => []
  end.

Definition lstrip := lstrip_by isspace.
Definition rstrip := rstrip_by isspace.
Definition strip (s : str) : str := rstrip (lstrip s).

(** Truth value of a string: [if s], [not s], [s or d]. *)
Definition truthy (s : str) : bool :=
  match s with [] => false | _ :: _ => true end.

Definition py_or (a b : str) : str := if truthy a then a else b.

(** [s[:n]] *)
Definition slice_to (n : nat) (s : str) : str := firstn n s.

(** [sep.join(parts)] *)
Fixpoint join (sep : str) (parts : list str) : str :=
  match parts with
  | [] => []
  | [x] => x
  | x :: rest => x ++ sep ++ join sep rest
  end.

(** [s.splitlines()]: the current line is accumulated in [cur] (reversed);
    a carriage return directly followed by a line feed is one boundary, and
    no empty last line is produced. *)
Fixpoint splitlines_aux (cur : str) (s : str) : list str :=
  match s with
  | [] => match cur with [] => [] | _ => [rev cur] end
  | c :: s' =>
      if islinebreak c then
        rev cur ::
          match s' with
          | d :: s'' =>
              if (c =? 13) && (d =? 10) then splitlines_aux [] s''
              else splitlines_aux [] s'
          | [] => []
          end
      else splitlines_aux (c :: cur) s'
  end.

Definition splitlines (s : str) : list str := splitlines_aux [] s.

(** ** The fragment of [re] the program uses

    Patterns are data; matching is the backtracking search of [re]: the
    alternatives are tried in the order of the pattern, a greedy repetition
    tries the longest run first and a lazy one the shortest, a lookahead is
    atomic and consumes nothing.  A continuation receives the text that is
    left and the text of group 1. *)

Inductive regex : Type :=
| Lit (s : str)
| Star (greedy : bool) (p : char -> bool)
| Plus (p : char -> bool)
| Cat (r1 r2 : regex)
| Alt (r1 r2 : regex)
| Ahead (r : regex)
| Eos
| Group (r : regex).

Section Matcher.
Context {A : Type}.

Fixpoint star_greedy (p : char -> bool) (s : str) (k : str -> option A)
  : option A :=
  match s with
  | c :: s' =>
      if p c then
        match star_greedy p s' k with
        | Some x => Some x
        | None => k s
        end
      else k s
  | [] => k []
  end.

Fixpoint star_lazy (p : char -> bool) (s : str) (k : str -> option A)
  : option A :=
  match k s with
  | Some x => Some x
  | None =>
      match s with
      | c :: s' => if p c then star_lazy p s' k else None
      | [] => None
      end
  end.
End Matcher.

(** [$] without MULTILINE: the end of the text, or just before a line feed
    that ends the text. *)
Definition at_eos (s : str) : bool :=
  match s with
  | [] => true
  | [c] => c =? 10
  | _ => false
  end.

Fixpoint run {A : Type} (r : regex) (s : str) (g : option str)
  (k : str -> option str -> option A) : option A :=
  match r with
  | Lit l =>
      match strip_prefix l s with
      | Some s' => k s' g
      | None => None
      end
  | Star true p => star_greedy p s (fun s' => k s' g)
  | Star false p => star_lazy p s (fun s' => k s' g)
  | Plus p =>
      match s with
      | c :: s' => if p c then star_greedy p s' (fun s'' => k s'' g) else None
      | [] => None
      end
  | Cat r1 r2 => run r1 s g (fun s' g' => run r2 s' g' k)
  | Alt r1 r2 =>
      match run r1 s g k with
      | Some x => Some x
      | None => run r2 s g k
      end
  | Ahead r1 =>
      match run r1 s g (fun _ g' => Some g') with
      | Some g' => k s g'
      | None => None
      end
  | Eos => if at_eos s then k s g else None
  | Group r1 =>
      run r1 s g (fun s' _ => k s' (Some (firstn (length s - length s') s)))
  end.

(** A match: the whole matched text, group 1, and the text after the match. *)
Record rmatch : Type := MkMatch
  { group0 : str; group1 : option str; after : str }.

(** [re.match]: a match that starts at the head of [s]. *)
Definition re_match (r : regex) (s : str) : option rmatch :=
  run r s None
    (fun s' g => Some (MkMatch (firstn (length s - length s') s) g s')).

(** [re.search]: the leftmost start at which the pattern matches. *)
Fixpoint re_search (r : regex) (s : str) : option rmatch :=
  match re_match r s with
  | Some m => Some m
  | None =>
      match s with
      | [] => None
      | _ :: s' => re_search r s'
      end
  end.

(** [re.findall] for a pattern without groups: the matched texts, left to
    right, none overlapping; after an empty match the scan moves on by one
    character. *)
Fixpoint findall_fuel (fuel : nat) (r : regex) (s : str) : list str :=
  match fuel with
  | O => []
  | S fuel' =>
      match re_search r s with
      | None => []
      | Some m =>
          group0 m ::
            match group0 m, after m with
            | [], [] => []
            | [], _ :: rest => findall_fuel fuel' r rest
            | _ :: _, rest => findall_fuel fuel' r rest
            end
      end
  end.

Definition re_findall (r : regex) (s : str) : list str :=
  findall_fuel (S (length s)) r s.

(** ** Exceptions *)

Inductive exn : Type :=
| ValueError
| TypeError
| AttributeError
| LookupError
| UnicodeEncodeError
| ParseError
| OtherException (name : str).

Inductive outcome (A : Type) : Type :=
| Return (a : A)
| Raise (e : exn).
Arguments Return {A} a.
Arguments Raise {A} e.

Definition obind {A B : Type} (c : outcome A) (f : A -> outcome B)
  : outcome B :=
  match c with
  | Return a => f a
  | Raise e => Raise e
  end.

Declare Scope outcome_scope.
Delimit Scope outcome_scope with outcome.
Notation "x <- c ;; k" := (obind c (fun x => k))
  (at level 61, c at next level, right associativity) : outcome_scope.

(** ** The interpreter's Unicode tables

    [todecimal] is the decimal value of a code point (what [\d] recognises
    and [int] converts) and [lower] is [str.lower].  Both are fixed on
    ASCII, where every interpreter agrees; a decimal digit is never white
    space. *)

Definition ascii_lower (c : char) : char :=
  if between 65 90 c then c + 32 else c.

Definition ascii_decimal (c : char) : option Z :=
  if between 48 57 c then Some (Z.of_N (c - 48)) else None.

Definition isascii (s : str) : bool := forallb (fun c => c <? 128) s.

Class Runtime : Type := {
  todecimal : char -> option Z;
  lower : str -> str;
  todecimal_ascii : forall c, c < 128 -> todecimal c = ascii_decimal c;
  todecimal_space : forall c, isspace c = true -> todecimal c = None;
  lower_ascii : forall s, isascii s = true -> lower s = List.map ascii_lower s
}.

(** ** medgemma_analyzer.py: parser utility functions *)

Definition any_char (c : char) : bool := true.
Definition not_rbracket (c : char) : bool := negb (c =? 93).

(** [\[[^\]]+\]|$], the body of the lookahead *)
Definition stop_pattern : regex :=
  Alt (Cat (Lit (lit "[")) (Cat (Plus not_rbracket) (Lit (lit "]")))) Eos.

(** [rf'\[{re.escape(tag)}\]\s*(.*?)(?=\[[^\]]+\]|$)'] with [re.DOTALL] *)
Definition section_pattern (tag : str) : regex :=
  Cat (Lit (lit "[")) (Cat (Lit tag) (Cat (Lit (lit "]"))
    (Cat (Star true isspace)
      (Cat (Group (Star false any_char)) (Ahead stop_pattern))))).

Definition extract_section (text tag : str) : str :=
  match re_search (section_pattern tag) text with
  | Some m =>
      match group1 m with
      | Some g => strip g
      | None => []
      end
  | None => []
  end.

(** The tuple [("none", "n/a", "na")] *)
Definition negation_sentinels : list str := [lit "none"; lit "n/a"; lit "na"].

Definition str_in (x : str) (l : list str) : bool := existsb (str_eqb x) l.

(** The prefixes ['-'], ['•'], ['·'], ['*'] of [startswith], and the
    characters of [lstrip('-•·* ')]. *)
Definition bullet_prefixes : list str := [[45]; [8226]; [183]; [42]].
Definition bullet_chars : list char := [45; 8226; 183; 42; 32].

Definition is_bullet_char (c : char) : bool := existsb (N.eqb c) bullet_chars.

Definition startswith_any (ps : list str) (s : str) : bool :=
  existsb (fun p => startswith p s) ps.

Section Analyzer.
Context {rt : Runtime}.

(** One turn of the loop of [extract_list_items]. *)
Definition list_items_step (items : list str) (line : str) : list str :=
  let line := strip line in
  if startswith_any bullet_prefixes line then
    let cleaned := strip (lstrip_by is_bullet_char line) in
    if truthy cleaned && negb (str_in (lower cleaned) negation_sentinels)
    then items ++ [cleaned]
    else items
  else items.

Definition extract_list_items (section_text : str) : list str :=
  let items := fold_left list_items_step (splitlines section_text) [] in
  match items with
  | [] =>
      if truthy (strip section_text)
         && negb (str_in (lower (strip section_text)) negation_sentinels)
      then items ++ [strip section_text]
      else items
  | _ :: _ => items
  end.

Definition isdecimal (c : char) : bool :=
  match todecimal c with Some _ => true | None => false end.

(** [sys.get_int_max_str_digits()] as the interpreter starts: a decimal
    string of more digits is refused by [int] with a [ValueError]. *)
Definition int_max_str_digits : nat := 4300.

(** [int(token)]: blanks around, an optional sign, then decimal digits in
    which single underscores may separate digits.  [count] is the number
    of digits read so far; the sign and the underscores are not counted.
    A string of more than [int_max_str_digits] digits is a [ValueError],
    like a string that is not a number. *)
Fixpoint int_digits (acc : Z) (count : nat) (after_digit : bool) (s : str)
  : outcome Z :=
  match s with
  | [] =>
      if after_digit then
        if (int_max_str_digits <? count)%nat then Raise ValueError
        else Return acc
      else Raise ValueError
  | c :: s' =>
      if c =? 95 then
        if after_digit then int_digits acc count false s'
        else Raise ValueError
      else
        match todecimal c with
        | Some d => int_digits (10 * acc + d)%Z (S count) true s'
        | None => Raise ValueError
        end
  end.

Definition int (token : str) : outcome Z :=
  match strip token with
  | c :: s =>
      if c =? 45 then
        obind (int_digits 0 0 false s) (fun v => Return (- v)%Z)
      else if c =? 43 then int_digits 0 0 false s
      else int_digits 0 0 false (c :: s)
  | [] => Raise ValueError
  end.

(** The loop of [extract_score] over the tokens of [re.findall]. *)
Fixpoint score_loop (tokens : list str) : outcome Z :=
  match tokens with
  | [] => Return 50%Z
  | token :: rest =>
      (val <- int token ;;
       if (0 <=? val)%Z && (val <=? 100)%Z then Return val
       else score_loop rest)%outcome
  end.

Definition extract_score (score_text : str) : outcome Z :=
  score_loop (re_findall (Plus isdecimal) score_text).

(** The result dict.  [_parse_error] is [None] where the dict has no such
    key. *)
Record analysis : Type := MkAnalysis {
  credibility_score : Z;
  risk_level : str;
  risk_reason : str;
  medical_accuracy : str;
  logical_fallacies : list str;
  evidence_summary : str;
  key_misconceptions : list str;
  rebuttal : str;
  recommendation : str;
  _parse_error : option bool;
  _raw_output : str
}.

(** [result.get("_parse_error")] as a condition *)
Definition parse_error_flag (r : analysis) : bool :=
  match _parse_error r with Some b => b | None => false end.

Definition risk_levels : list str :=
  [lit "Safe"; lit "Misleading"; lit "Dangerous"].

Definition resolve_risk_level (risk_level_text : str) : str :=
  match List.find (fun level => contains (lower level) (lower risk_level_text))
          risk_levels with
  | Some level => level
  | None => lit "Misleading"
  end.

Definition failure_record : analysis :=
  {| credibility_score := 0;
     risk_level := lit "Misleading";
     risk_reason :=
       lit "Model produced no output; check HF token and GPU memory.";
     medical_accuracy := lit "Analysis failed; please try again.";
     logical_fallacies := [];
     evidence_summary :=
       lit "Please verify against medical literature manually.";
     key_misconceptions := [];
     rebuttal := lit "This claim needs further verification; consult a healthcare professional.";
     recommendation := lit "For health-related information, consult a qualified healthcare provider.";
     _parse_error := Some true;
     _raw_output := lit "(empty)" |}.

Definition parse_model_output (raw_text : str) : outcome analysis :=
  if negb (truthy raw_text) || negb (truthy (strip raw_text)) then
    Return failure_record
  else
    let score_text := extract_section raw_text (lit "Credibility Score") in
    let risk_level_text := extract_section raw_text (lit "Risk Level") in
    let risk_reason := extract_section raw_text (lit "Risk Reason") in
    let medical_acc := extract_section raw_text (lit "Medical Accuracy") in
    let fallacies_text := extract_section raw_text (lit "Logical Fallacies") in
    let evidence := extract_section raw_text (lit "Evidence Summary") in
    let misconceptions := extract_section raw_text (lit "Key Misconceptions") in
    let rebuttal := extract_section raw_text (lit "Scientific Rebuttal") in
    let recommendation :=
      extract_section raw_text (lit "Expert Recommendation") in
    let risk_level := resolve_risk_level risk_level_text in
    (** the dict display evaluates [extract_score(score_text)] first; what
        it raises leaves the function *)
    (score <- extract_score score_text ;;
     Return
       {| credibility_score := score;
          risk_level := risk_level;
          risk_reason := py_or risk_reason (lit "Not provided");
          medical_accuracy := py_or medical_acc (slice_to 500 raw_text);
          logical_fallacies := extract_list_items fallacies_text;
          evidence_summary :=
            py_or evidence (lit "No evidence description found");
          key_misconceptions := extract_list_items misconceptions;
          rebuttal := py_or rebuttal (lit "Consult a healthcare professional for more information.");
          recommendation := py_or recommendation (lit "For health-related information, consult a qualified healthcare provider.");
          _parse_error := None;
          _raw_output := raw_text |})%outcome.
End Analyzer.

(** ** medgemma_analyzer.py: the streaming generator *)

Record part : Type := MkPart { ptype : str; ptext : str }.
Record message : Type := MkMessage { role : str; content : list part }.

Definition dquote : str := [34].

Definition system_text : str :=
  lit "You are an expert medical fact-checker and practicing physician. "
  ++ lit "Your task is to analyze health claims and identify medical misinformation. "
  ++ lit "You must always respond in English. "
  ++ lit "Use professional but accessible language for the general public.".

Definition user_text (health_claim : str) : str :=
  lit "Perform a professional medical fact-check on the following health claim:

" ++ [12304] ++ lit "Claim to verify" ++ [12305; 10] ++ health_claim ++ lit "

Respond in the following format (keep each bracketed tag):

[Credibility Score] An integer 0-100 (0=completely false, 100=fully credible)

[Risk Level] Exactly one of: Safe, Misleading, Dangerous

[Risk Reason] 1-2 sentences explaining why this risk level was assigned

[Medical Accuracy] Assess the claim's accuracy from a medical science perspective (2-4 sentences)

[Logical Fallacies] List any logical errors in the claim (each item starting with "
  ++ dquote ++ lit "-" ++ dquote ++ lit ", or " ++ dquote ++ lit "None" ++ dquote
  ++ lit " if none)

[Evidence Summary] How current medical evidence supports or contradicts the claim (2-3 sentences)

[Key Misconceptions] The most important misconceptions in the claim (each item starting with "
  ++ dquote ++ lit "-" ++ dquote ++ lit ", or " ++ dquote ++ lit "None" ++ dquote
  ++ lit " if none)

[Scientific Rebuttal] A science-based rebuttal suitable for social media (100-150 words, clear language)

[Expert Recommendation] Practical health advice for the general user (1-2 sentences)".

Definition build_messages (health_claim : str) : list message :=
  [ {| role := lit "system";
       content := [ {| ptype := lit "text"; ptext := system_text |} ] |};
    {| role := lit "user";
       content := [ {| ptype := lit "text";
                       ptext := user_text health_claim |} ] |} ].

(** The generation capability: [load_model] returns or raises, and the
    streamer delivers a finite sequence of fragments for the messages. *)
Record engine : Type := MkEngine {
  load_model : outcome unit;
  fragments : list message -> list str
}.

(** What the generator has done, in order. *)
Inductive work : Type :=
| LoadModel
| BuildMessages (health_claim : str)
| ApplyChatTemplate (messages : list message)
| CreateStreamer
| ThreadStart
| ThreadJoin.

(** A generator object: calling the function only creates it; its body
    runs when it is resumed. *)
Inductive generator : Type :=
| Created (health_claim : str)
| Suspended (pending : list str)
| Finished.

Inductive resumption : Type :=
| Yield (token_text : str)
| StopIteration
| Throw (e : exn).

Definition analyze_health_claim_stream (health_claim : str) : generator :=
  Created health_claim.

(** The loop over the streamer, then the join. *)
Definition stream_step (pending : list str)
  : list work * resumption * generator :=
  match pending with
  | token_text :: rest => ([], Yield token_text, Suspended rest)
  | [] => ([ThreadJoin], StopIteration, Finished)
  end.

(** [next(g)]: the work done until the generator yields, returns or
    raises. *)
Definition next (eng : engine) (g : generator)
  : list work * resumption * generator :=
  match g with
  | Created health_claim =>
      if negb (truthy health_claim) || negb (truthy (strip health_claim))
      then ([], Throw ValueError, Finished)
      else
        match load_model eng with
        | Raise e => ([LoadModel], Throw e, Finished)
        | Return _ =>
            let messages := build_messages (strip health_claim) in
            let '(w, r, g') := stream_step (fragments eng messages) in
            ([LoadModel; BuildMessages (strip health_claim);
              ApplyChatTemplate messages; CreateStreamer; ThreadStart] ++ w,
             r, g')
        end
  | Suspended pending => stream_step pending
  | Finished => ([], StopIteration, Finished)
  end.

(** ** pubmed_search.py: the XML of a detail-fetch response *)

(** An [xml.etree.ElementTree.Element]: tag, text, children, tail. *)
Inductive element : Type :=
| Element (tag : str) (text : option str) (children : list element)
    (tail : option str).

Definition etag (e : element) : str := let 'Element t _ _ _ := e in t.
Definition etext (e : element) : option str := let 'Element _ t _ _ := e in t.
Definition echildren (e : element) : list element :=
  let 'Element _ _ c _ := e in c.
Definition etail (e : element) : option str := let 'Element _ _ _ t := e in t.

(** All elements below [e], in document order. *)
Fixpoint descendants (e : element) : list element :=
  match e with
  | Element _ _ cs _ => flat_map (fun c => c :: descendants c) cs
  end.

Definition named (tag : str) (l : list element) : list element :=
  filter (fun e => str_eqb (etag e) tag) l.

(** [e.findall(".//tag")] *)
Definition findall_deep (tag : str) (e : element) : list element :=
  named tag (descendants e).

(** [e.findall(".//outer/inner")] *)
Definition findall_deep2 (outer inner : str) (e : element) : list element :=
  flat_map (fun o => named inner (echildren o)) (findall_deep outer e).

(** [e.findall("tag")] *)
Definition findall_child (tag : str) (e : element) : list element :=
  named tag (echildren e).

Definition text_or_empty (el : element) : str :=
  match etext el with Some t => t | None => [] end.

(** [findtext(path, default)]: of the first element found, its text, an
    absent text read as the empty string; the default where nothing is
    found. *)
Definition findtext (found : list element) (default : str) : str :=
  match found with
  | el :: _ => text_or_empty el
  | [] => default
  end.

(** [findtext(path)]: [None] where nothing is found. *)
Definition findtext_opt (found : list element) : option str :=
  match found with
  | el :: _ => Some (text_or_empty el)
  | [] => None
  end.

Definition some_text (t : option str) : list str :=
  match t with
  | Some (c :: s) => [c :: s]
  | _ => []
  end.

(** [e.itertext()] *)
Fixpoint itertext (e : element) : list str :=
  match e with
  | Element _ t cs _ =>
      some_text t ++ flat_map (fun c => itertext c ++ some_text (etail c)) cs
  end.

(** One article dict; [pmid] is [None] where the PMID element has no
    text. *)
Record paper : Type := MkPaper {
  title : str;
  authors : str;
  journal : str;
  year : str;
  pmid : option str;
  abstract : str;
  url : str
}.

(** One turn of the loop over the first three authors. *)
Definition authors_step (authors : list str) (author : element) : list str :=
  let last := findtext (findall_child (lit "LastName") author) [] in
  let initials := findtext (findall_child (lit "Initials") author) [] in
  if truthy last then authors ++ [strip (last ++ lit " " ++ initials)]
  else authors.

Definition article_authors (article : element) : list str :=
  let authors :=
    fold_left authors_step (firstn 3 (findall_deep (lit "Author") article)) []
  in
  if (3 <? length (findall_deep (lit "Author") article))%nat
  then authors ++ [lit "et al."]
  else authors.

(** The body of the [try] of one article. *)
Definition article_record (article : element) : outcome paper :=
  let title_el := hd_error (findall_deep (lit "ArticleTitle") article) in
  let title :=
    match title_el with
    | Some el => etext el
    | None => Some (lit "N/A")
    end in
  let title :=
    match title_el with
    | Some el => concat (itertext el)
    | None => lit "N/A"
    end in
  let authors := article_authors article in
  let journal :=
    findtext (findall_deep2 (lit "Journal") (lit "Title") article)
      (lit "Unknown Journal") in
  let year :=
    match findtext_opt (findall_deep2 (lit "PubDate") (lit "Year") article) with
    | Some (c :: y) => c :: y
    | _ =>
        py_or
          (slice_to 4
             (findtext (findall_deep2 (lit "PubDate") (lit "MedlineDate")
                          article) []))
          (lit "N/A")
    end in
  let pmid_el := hd_error (findall_deep (lit "PMID") article) in
  let pmid :=
    match pmid_el with
    | Some el => etext el
    | None => Some []
    end in
  let abstract_texts := findall_deep (lit "AbstractText") article in
  let abstract :=
    slice_to 300
      (join (lit " ") (List.map (fun el => concat (itertext el)) abstract_texts))
  in
  let abstract :=
    if (length abstract =? 300)%nat then abstract ++ lit "..." else abstract in
  Return
    {| title := title;
       authors :=
         match authors with
         | [] => lit "Unknown"
         | _ :: _ => join (lit ", ") authors
         end;
       journal := journal;
       year := year;
       pmid := pmid;
       abstract := abstract;
       url :=
         match pmid with
         | Some (c :: s) =>
             lit "https://pubmed.ncbi.nlm.nih.gov/" ++ (c :: s) ++ lit "/"
         | _ => []
         end |}.

(** The loop of [parse_pubmed_xml]: an article whose body raises is
    skipped. *)
Definition collect_article (results : list paper) (article : element)
  : list paper :=
  match article_record article with
  | Return r => results ++ [r]
  | Raise _ => results
  end.

Definition parse_articles (root : element) : list paper :=
  fold_left collect_article (findall_deep (lit "PubmedArticle") root) [].

(** The records of the articles whose body does not raise, in order. *)
Definition kept_records (articles : list element) : list paper :=
  flat_map
    (fun article =>
       match article_record article with
       | Return r => [r]
       | Raise _ => []
       end)
    articles.

(** ** pubmed_search.py: the two-phase search *)

(** A value decoded by [json.loads]; of a float only its truth value is
    kept, and a dict is the list of its items. *)
Inductive json : Type :=
| JNull
| JBool (b : bool)
| JInt (z : Z)
| JFloat (nonzero : bool)
| JStr (s : str)
| JList (l : list json)
| JDict (items : list (str * json)).

Definition json_truthy (v : json) : bool :=
  match v with
  | JNull => false
  | JBool b => b
  | JInt z => negb (z =? 0)%Z
  | JFloat nz => nz
  | JStr s => truthy s
  | JList l => match l with [] => false | _ => true end
  | JDict kv => match kv with [] => false | _ => true end
  end.

(** [v.get(key, default)]: only a dict has the method. *)
Definition json_get (v : json) (key : str) (default : json) : outcome json :=
  match v with
  | JDict kv =>
      match List.find (fun it => str_eqb (fst it) key) kv with
      | Some it => Return (snd it)
      | None => Return default
      end
  | _ => Raise AttributeError
  end.

Fixpoint all_strings (l : list json) : outcome (list str) :=
  match l with
  | [] => Return []
  | JStr s :: rest =>
      obind (all_strings rest) (fun r => Return (s :: r))
  | _ :: _ => Raise TypeError
  end.

(** [sep.join(v)]: the items of a string are its characters and those of a
    dict its keys; a number, a boolean, or a list with an item that is not
    a string is a [TypeError]. *)
Definition join_json (sep : str) (v : json) : outcome str :=
  match v with
  | JStr s => Return (join sep (List.map (fun c => [c]) s))
  | JList l => obind (all_strings l) (fun parts => Return (join sep parts))
  | JDict kv => Return (join sep (List.map fst kv))
  | _ => Raise TypeError
  end.

Inductive param : Type :=
| PStr (s : str)
| PInt (z : Z).

(** The libraries and the network, as this module sees them.  Each call
    may raise: [urlencode] a [UnicodeEncodeError] on a value that has no
    UTF-8 encoding (a lone surrogate), [ET.fromstring] an [ET.ParseError]
    on a document that is not well formed, and a [LookupError] or a
    [ValueError] on some encoding declarations. *)
Record services : Type := MkServices {
  (** [urllib.parse.urlencode] *)
  urlencode : list (str * param) -> outcome str;
  (** [urlopen(url, timeout=t)] and [response.read()] *)
  urlopen_read : str -> Z -> outcome (list Byte.byte);
  (** [json.loads(body.decode())] *)
  decode_loads : list Byte.byte -> outcome json;
  (** [ET.fromstring] *)
  fromstring : list Byte.byte -> outcome element
}.

(** [except ET.ParseError] is the only handler around [ET.fromstring]:
    any other exception leaves the function. *)
Definition parse_pubmed_xml (sv : services) (xml_data : list Byte.byte)
  : outcome (list paper) :=
  match fromstring sv xml_data with
  | Raise ParseError => Return []
  | Raise e => Raise e
  | Return root => Return (parse_articles root)
  end.

Inductive net_event : Type :=
| Urlopen (url : str) (timeout : Z)
| Sleep (milliseconds : Z).

(** Computations that log their calls and may raise. *)
Definition io (A : Type) : Type :=
  list net_event -> outcome A * list net_event.

Definition io_ret {A : Type} (a : A) : io A := fun log => (Return a, log).

Definition io_bind {A B : Type} (c : io A) (f : A -> io B) : io B :=
  fun log =>
    match c log with
    | (Return a, log') => f a log'
    | (Raise e, log') => (Raise e, log')
    end.

Definition io_lift {A : Type} (c : outcome A) : io A := fun log => (c, log).

Definition io_emit (e : net_event) : io unit :=
  fun log => (Return tt, log ++ [e]).

(** [try: c  except Exception: ...]: [None] where the handler runs. *)
Definition io_try {A : Type} (c : io A) : io (option A) :=
  fun log =>
    match c log with
    | (Return a, log') => (Return (Some a), log')
    | (Raise _, log') => (Return None, log')
    end.

Declare Scope io_scope.
Delimit Scope io_scope with io.
Notation "x <- c ;; k" := (io_bind c (fun x => k))
  (at level 61, c at next level, right associativity) : io_scope.
Notation "c ;; k" := (io_bind c (fun _ => k))
  (at level 61, right associativity) : io_scope.

Definition ESEARCH_URL : str :=
  lit "https://eutils.ncbi.nlm.nih.gov/entrez/eutils/esearch.fcgi".
Definition EFETCH_URL : str :=
  lit "https://eutils.ncbi.nlm.nih.gov/entrez/eutils/efetch.fcgi".
Definition MAX_RESULTS : Z := 5.

Definition urlopen (sv : services) (url : str) (timeout : Z)
  : io (list Byte.byte) :=
  (io_emit (Urlopen url timeout) ;; io_lift (urlopen_read sv url timeout))%io.

(** The dict given to the first [urlencode] *)
Definition search_fields (query : str) (max_results : Z)
  : list (str * param) :=
  [ (lit "db", PStr (lit "pubmed"));
    (lit "term", PStr query);
    (lit "retmax", PInt max_results);
    (lit "retmode", PStr (lit "json"));
    (lit "sort", PStr (lit "relevance"));
    (lit "datetype", PStr (lit "pdat"));
    (lit "reldate", PInt 1825) ].

(** The dict given to the second [urlencode] *)
Definition fetch_fields (ids : str) : list (str * param) :=
  [ (lit "db", PStr (lit "pubmed"));
    (lit "id", PStr ids);
    (lit "retmode", PStr (lit "xml"));
    (lit "rettype", PStr (lit "abstract")) ].

(** [f"{ESEARCH_URL}?{search_params}"] and [f"{EFETCH_URL}?{fetch_params}"] *)
Definition esearch_url (search_params : str) : str :=
  ESEARCH_URL ++ lit "?" ++ search_params.

Definition efetch_url (fetch_params : str) : str :=
  EFETCH_URL ++ lit "?" ++ fetch_params.

(** Only the two [urlopen] blocks stand in a [try]: the two [urlencode]
    calls, the join of the identifiers and the final [parse_pubmed_xml]
    raise to the caller. *)
Definition search_pubmed (sv : services) (query : str) (max_results : Z)
  : io (list paper) :=
  (search_params <- io_lift (urlencode sv (search_fields query max_results)) ;;
   found <- io_try
      (body <- urlopen sv (esearch_url search_params) 10 ;;
       data <- io_lift (decode_loads sv body) ;;
       result <- io_lift (json_get data (lit "esearchresult") (JDict [])) ;;
       io_lift (json_get result (lit "idlist") (JList []))) ;;
   match found with
   | None => io_ret []
   | Some pmid_list =>
       if negb (json_truthy pmid_list) then io_ret []
       else
         io_emit (Sleep 400) ;;
         ids <- io_lift (join_json (lit ",") pmid_list) ;;
         fetch_params <- io_lift (urlencode sv (fetch_fields ids)) ;;
         fetched <- io_try (urlopen sv (efetch_url fetch_params) 15) ;;
         match fetched with
         | None => io_ret []
         | Some xml_data => io_lift (parse_pubmed_xml sv xml_data)
         end
   end)%io.

(** The tables restricted to ASCII: no other code point is a digit or has
    a lower-case form. *)
#[local, refine] Instance ascii_tables : Runtime :=
  {| todecimal := ascii_decimal; lower := List.map ascii_lower |}.
Proof.
  - reflexivity.
  - intros c Hc. unfold ascii_decimal, between.
    destruct ((48 <=? c) && (c <=? 57)) eqn:E; [|reflexivity].
    apply andb_true_iff in E. destruct E as [E1 E2].
    apply N.leb_le in E1, E2.
    unfold isspace, between in Hc.
    repeat (apply orb_true_iff in Hc; destruct Hc as [Hc|Hc]);
      repeat match goal with
        | H : (_ && _) = true |- _ => apply andb_true_iff in H; destruct H
        | H : (_ <=? _) = true |- _ => apply N.leb_le in H
        | H : (_ =? _) = true |- _ => apply N.eqb_eq in H
        end; lia.
  - reflexivity.
Defined.


(** ** The contracts, in the words of the specification *)

(** A bracketed tag of any name starts here: an opening bracket, a name of
    at least one character, none of them a closing bracket, and a closing
    bracket. *)
Definition marker_at (s : str) : bool :=
  match s with
  | b :: c :: rest => (b =? 91) && negb (c =? 93) && existsb (N.eqb 93) rest
  | _ => false
  end.

(** The text before the next bracketed tag, or all of it. *)
Fixpoint until_marker (s : str) : str :=
  if marker_at s then []
  else
    match s with
    | [] => []
    | c :: s' => c :: until_marker s'
    end.

(** What follows the first occurrence of [pat]. *)
Fixpoint find_after (pat s : str) : option str :=
  match strip_prefix pat s with
  | Some r => Some r
  | None =>
      match s with
      | [] => None
      | _ :: s' => find_after pat s'
      end
  end.

Definition bracketed (tag : str) : str := lit "[" ++ tag ++ lit "]".

Definition section_by_contract (text tag : str) : str :=
  match find_after (bracketed tag) text with
  | Some r => strip (until_marker r)
  | None => []
  end.

(** Where the lazy group of the section pattern ends: at the first
    position where a bracketed tag starts or where [$] holds. *)
Definition stops_at (s : str) : bool := marker_at s || at_eos s.

Fixpoint lazy_prefix (s : str) : str :=
  if stops_at s then []
  else
    match s with
    | [] => []
    | c :: s' => c :: lazy_prefix s'
    end.

Fixpoint lazy_rest (s : str) : str :=
  if stops_at s then s
  else
    match s with
    | [] => []
    | _ :: s' => lazy_rest s'
    end.

(** Well-formed tagged text: a preamble, then sections, each a bracketed
    tag followed by its content.  A tag name is not empty and holds no
    bracket; the preamble and the contents hold no opening bracket; no tag
    occurs twice. *)
Definition has (c : char) (s : str) : bool := existsb (N.eqb c) s.

Definition tag_name (t : str) : bool :=
  truthy t && negb (has 91 t) && negb (has 93 t).

Fixpoint distinct (l : list str) : bool :=
  match l with
  | [] => true
  | x :: rest => negb (str_in x rest) && distinct rest
  end.

Definition render (sec : str * str) : str := bracketed (fst sec) ++ snd sec.

Definition tagged_text (preamble : str) (secs : list (str * str)) : str :=
  preamble ++ concat (List.map render secs).

Definition section_ok (sec : str * str) : bool :=
  tag_name (fst sec) && negb (has 91 (snd sec)).

Definition well_formed (preamble : str) (secs : list (str * str)) : bool :=
  negb (has 91 preamble) && forallb section_ok secs
  && distinct (List.map fst secs).

(** The longest prefix of [s] whose characters satisfy [p]. *)
Fixpoint takewhile (p : char -> bool) (s : str) : str :=
  match s with
  | c :: s' => if p c then c :: takewhile p s' else []
  | [] => []
  end.

Definition notp (p : char -> bool) (c : char) : bool := negb (p c).

Section ScoreContract.
Context {rt : Runtime}.

(** A token of the scan: at least one character, all decimal digits. *)
Definition digit_token (t : str) : Prop :=
  t <> [] /\ forallb isdecimal t = true.

(** The integer tokens of a text, in encounter order: the maximal runs of
    decimal digits.  [cur] is the run being read, reversed. *)
Fixpoint integer_tokens_from (cur : str) (s : str) : list str :=
  match s with
  | [] => match cur with [] => [] | _ :: _ => [rev cur] end
  | c :: s' =>
      if isdecimal c then integer_tokens_from (c :: cur) s'
      else
        match cur with
        | [] => integer_tokens_from [] s'
        | _ :: _ => rev cur :: integer_tokens_from [] s'
        end
  end.

Definition integer_tokens (s : str) : list str := integer_tokens_from [] s.

Definition digit_value (c : char) : Z :=
  match todecimal c with Some d => d | None => 0%Z end.

(** The number a run of decimal digits denotes. *)
Definition token_value (t : str) : Z :=
  fold_left (fun acc c => (10 * acc + digit_value c)%Z) t 0%Z.

Definition in_range (v : Z) : bool := ((0 <=? v) && (v <=? 100))%Z.

(** A token that [int] converts: no more digits than the interpreter's
    limit. *)
Definition convertible (t : str) : bool :=
  (length t <=? int_max_str_digits)%nat.

(** The scan of the tokens in encounter order: it stops at the first token
    that is too long to convert, with a [ValueError], or whose value is
    within [0,100], with that value; the default is 50. *)
Fixpoint scan_tokens (tokens : list str) : outcome Z :=
  match tokens with
  | [] => Return 50%Z
  | t :: rest =>
      if convertible t then
        if in_range (token_value t) then Return (token_value t)
        else scan_tokens rest
      else Raise ValueError
  end.

(** Every integer token of the text is short enough to convert. *)
Definition all_convertible (s : str) : bool :=
  forallb convertible (integer_tokens s).

(** The record built from a reply that is not blank, the score apart. *)
Definition reply_record (raw_text : str) (score : Z) : analysis :=
  {| credibility_score := score;
     risk_level :=
       resolve_risk_level (extract_section raw_text (lit "Risk Level"));
     risk_reason :=
       py_or (extract_section raw_text (lit "Risk Reason"))
         (lit "Not provided");
     medical_accuracy :=
       py_or (extract_section raw_text (lit "Medical Accuracy"))
         (slice_to 500 raw_text);
     logical_fallacies :=
       extract_list_items
         (extract_section raw_text (lit "Logical Fallacies"));
     evidence_summary :=
       py_or (extract_section raw_text (lit "Evidence Summary"))
         (lit "No evidence description found");
     key_misconceptions :=
       extract_list_items
         (extract_section raw_text (lit "Key Misconceptions"));
     rebuttal :=
       py_or (extract_section raw_text (lit "Scientific Rebuttal"))
         (lit "Consult a healthcare professional for more information.");
     recommendation :=
       py_or (extract_section raw_text (lit "Expert Recommendation"))
         (lit "For health-related information, consult a qualified healthcare provider.");
     _parse_error := None;
     _raw_output := raw_text |}.

(** The text of the score section of a reply. *)
Definition score_section (raw_text : str) : str :=
  extract_section raw_text (lit "Credibility Score").

(** The first value within [0,100], else the default 50. *)
Definition first_in_range (vals : list Z) : Z :=
  match List.find in_range vals with
  | Some v => v
  | None => 50%Z
  end.
End ScoreContract.

(** A section's text, or the fallback where it is empty. *)
Definition with_fallback (sec fallback : str) : str :=
  match sec with
  | [] => fallback
  | _ :: _ => sec
  end.

(** The nine sections of a reply, in an order that is not the canonical
    one. *)
Definition sample_sections : list (str * str) :=
  [ (lit "Risk Level", lit " Dangerous
");
    (lit "Credibility Score", lit " 12/100
");
    (lit "Risk Reason", lit " It delays treatment.

");
    (lit "Medical Accuracy", lit " No trial supports it. ");
    (lit "Logical Fallacies", lit "
- appeal to nature
- anecdote
");
    (lit "Evidence Summary", lit " Reviews found no benefit.
");
    (lit "Key Misconceptions", lit " None
");
    (lit "Scientific Rebuttal", lit " Tumours do not respond to pH of drinks.
");
    (lit "Expert Recommendation", lit " See an oncologist.") ].

(** The authors field, in the words of the claim: of the first three
    authors listed, those with a surname, each as surname and initials. *)
Definition surname (author : element) : str :=
  findtext (findall_child (lit "LastName") author) [].

Definition initials_of (author : element) : str :=
  findtext (findall_child (lit "Initials") author) [].

Definition formatted_name (author : element) : str :=
  strip (surname author ++ lit " " ++ initials_of author).

Definition listed_authors (article : element) : list element :=
  findall_deep (lit "Author") article.

Definition contributed_names (article : element) : list str :=
  List.map formatted_name
    (filter (fun a => truthy (surname a)) (firstn 3 (listed_authors article))).

Definition authors_field (article : element) : str :=
  if (3 <? length (listed_authors article))%nat
  then join (lit ", ") (contributed_names article ++ [lit "et al."])
  else
    match contributed_names article with
    | [] => lit "Unknown"
    | _ :: _ => join (lit ", ") (contributed_names article)
    end.

(** ** Sample inputs *)

Definition leaf (tag text : string) : element :=
  Element (lit tag) (Some (lit text)) [] None.

Definition node (tag : string) (children : list element) : element :=
  Element (lit tag) None children None.

(** A record with a title and two authors. *)
Definition titled_article : element :=
  node "PubmedArticle"
    [ node "MedlineCitation"
        [ leaf "PMID" "111";
          node "Article"
            [ node "Journal" [ leaf "Title" "The Lancet" ];
              leaf "ArticleTitle" "Alkaline water and cancer";
              node "AuthorList"
                [ node "Author" [ leaf "LastName" "Smith"; leaf "Initials" "J" ];
                  node "Author" [ leaf "LastName" "Lee"; leaf "Initials" "K" ] ]
            ] ] ].

(** A record with no ArticleTitle element, and four authors, none of the
    first three with a LastName. *)
Definition untitled_article : element :=
  node "PubmedArticle"
    [ node "MedlineCitation"
        [ leaf "PMID" "222";
          node "Article"
            [ node "AuthorList"
                [ node "Author" [ leaf "CollectiveName" "Study Group" ];
                  node "Author" [ leaf "Initials" "Q" ];
                  node "Author" [];
                  node "Author" [ leaf "LastName" "Zed"; leaf "Initials" "Z" ] ]
            ] ] ].

Definition sample_response : element :=
  node "PubmedArticleSet" [titled_article; untitled_article].

Definition text_of (t : option str) : str :=
  match t with Some s => s | None => [] end.

(** An element written out as XML, with nothing between the tags but the
    texts (for text that needs no escaping). *)
Fixpoint to_xml (e : element) : str :=
  match e with
  | Element tag text children tail =>
      lit "<" ++ tag ++ lit ">" ++ text_of text
      ++ concat (List.map to_xml children)
      ++ lit "</" ++ tag ++ lit ">" ++ text_of tail
  end.

Definition encode_ascii (s : str) : list Byte.byte :=
  List.map (fun c => match Byte.of_N c with
                     | Some b => b
                     | None => Byte.x3f
                     end) s.

Fixpoint bytes_eqb (a b : list Byte.byte) : bool :=
  match a, b with
  | [], [] => true
  | x :: a', y :: b' => Byte.eqb x y && bytes_eqb a' b'
  | _, _ => false
  end.

(** The detail-fetch document: [sample_response] written out, a
    PubmedArticleSet of two PubmedArticle elements on one line, the first
    with PMID 111, a Journal Title, an ArticleTitle and two Authors, the
    second with PMID 222, no ArticleTitle and four Authors. *)
Definition sample_xml : list Byte.byte := encode_ascii (to_xml sample_response).

Definition decimal_text (z : Z) : str :=
  lit (DecimalString.NilZero.string_of_int (Z.to_int z)).

(** [urlencode] on keys and values that need no quoting. *)
Definition plain_urlencode (params : list (str * param)) : str :=
  join (lit "&")
    (List.map
       (fun kv =>
          fst kv ++ lit "="
          ++ match snd kv with PStr s => s | PInt z => decimal_text z end)
       params).

(** A surrogate code point has no UTF-8 encoding: [urlencode] raises on a
    value that holds one. *)
Definition is_surrogate (c : char) : bool := between 55296 57343 c.

Definition encodable (params : list (str * param)) : bool :=
  forallb
    (fun kv =>
       negb (existsb is_surrogate (fst kv))
       && match snd kv with
          | PStr s => negb (existsb is_surrogate s)
          | PInt _ => true
          end)
    params.

Definition sample_urlencode (params : list (str * param)) : outcome str :=
  if encodable params then Return (plain_urlencode params)
  else Raise UnicodeEncodeError.

(** Services whose id-search answers with the body [esearch_body], which
    decodes to [reply], and whose detail-fetch answers with [sample_xml],
    which parses to [sample_response]. *)
Definition canned_services (esearch_body : list Byte.byte) (reply : json)
  : services :=
  {| urlencode := sample_urlencode;
     urlopen_read := fun url _ =>
       if startswith ESEARCH_URL url then Return esearch_body
       else if startswith EFETCH_URL url then Return sample_xml
       else Raise (OtherException (lit "URLError"));
     decode_loads := fun body =>
       if bytes_eqb body esearch_body then Return reply
       else Raise (OtherException (lit "JSONDecodeError"));
     fromstring := fun data =>
       if bytes_eqb data sample_xml then Return sample_response
       else Raise ParseError |}.

(** An id-search reply with the two identifiers as strings, and one in
    which the one identifier is the number 1. *)
Definition string_idlist_body : list Byte.byte :=
  encode_ascii
    (lit "{" ++ dquote ++ lit "esearchresult" ++ dquote ++ lit ": {"
     ++ dquote ++ lit "idlist" ++ dquote ++ lit ": [" ++ dquote ++ lit "111"
     ++ dquote ++ lit ", " ++ dquote ++ lit "222" ++ dquote ++ lit "]}}").

Definition string_idlist : json :=
  JDict [(lit "esearchresult",
          JDict [(lit "idlist", JList [JStr (lit "111"); JStr (lit "222")])])].

Definition numeric_idlist_body : list Byte.byte :=
  encode_ascii
    (lit "{" ++ dquote ++ lit "esearchresult" ++ dquote ++ lit ": {"
     ++ dquote ++ lit "idlist" ++ dquote ++ lit ": [1]}}").

Definition numeric_idlist : json :=
  JDict [(lit "esearchresult", JDict [(lit "idlist", JList [JInt 1])])].

Definition long_claim : str := repeat 97 (N.to_nat 5001).

(** A reply whose score is a run of 4301 nines, alone and among the nine
    sections, and a reply of three spaces. *)
Definition long_number : str := repeat 57 (N.to_nat 4301).

Definition long_score_reply : str := lit "[Credibility Score] " ++ long_number.

Definition long_score_sections : list (str * str) :=
  List.map
    (fun sec =>
       if str_eqb (fst sec) (lit "Credibility Score")
       then (fst sec, lit " " ++ long_number)
       else sec)
    sample_sections.

Definition spaces_reply : str := lit "   ".

Definition echo_engine : engine :=
  {| load_model := Return tt; fragments := fun _ => [lit "ok"] |}.

(** The item a line contributes to the list, if any. *)
Definition line_item {rt : Runtime} (line : str) : list str :=
  let line := strip line in
  if startswith_any bullet_prefixes line then
    let cleaned := strip (lstrip_by is_bullet_char line) in
    if truthy cleaned && negb (str_in (lower cleaned) negation_sentinels)
    then [cleaned]
    else []
  else [].

(** Empty or whitespace-only. *)
Definition blank (s : str) : bool := forallb isspace s.

(** ** medgemma_analyzer.py and app.py: draining the generator *)

(** How a loop over the generator ends. *)
Inductive ending : Type :=
| Completed
| Failed (e : exn)
| Unfinished.

(** [for token_text in g]: resume until the generator stops or raises,
    collecting the work done and the fragments yielded; [fuel] bounds the
    number of resumptions. *)
Fixpoint consume (fuel : nat) (eng : engine) (g : generator)
  : list work * list str * ending :=
  match fuel with
  | O => ([], [], Unfinished)
  | S fuel' =>
      let '(w, r, g') := next eng g in
      match r with
      | Yield token_text =>
          let '(w', tokens, e) := consume fuel' eng g' in
          (w ++ w', token_text :: tokens, e)
      | StopIteration => (w, [], Completed)
      | Throw e => (w, [], Failed e)
      end
  end.

(** The number of fragments a generator has still to yield. *)
Definition remaining (eng : engine) (g : generator) : nat :=
  match g with
  | Created health_claim =>
      length (fragments eng (build_messages (strip health_claim)))
  | Suspended pending => length pending
  | Finished => O
  end.

Definition exhaust (eng : engine) (g : generator)
  : list work * list str * ending :=
  consume (S (remaining eng g)) eng g.

(** What the page shows after the Analyze button (app.py, "Run analysis"):
    the warning for an empty input, the error of a failed stream, or the
    parsed result. *)
Inductive page : Type :=
| Warned
| AnalysisFailed (e : exn) (done : list work)
| Interrupted
| Crashed (e : exn)
| Parsed (result : analysis) (done : list work).

(** [st.write_stream(analyze_health_claim_stream(user_input))] returns the
    fragments concatenated; the result goes to [parse_model_output]. *)
Definition analysis_run {rt : Runtime} (eng : engine) (user_input : str)
  : page :=
  if negb (truthy (strip user_input)) then Warned
  else
    let '(w, tokens, e) := exhaust eng (analyze_health_claim_stream user_input)
    in
    match e with
    | Failed e => AnalysisFailed e w
    | Unfinished => Interrupted
    | Completed =>
        match parse_model_output (concat tokens) with
        | Return result => Parsed result w
        | Raise e => Crashed e
        end
    end.

(** The nine tags that [parse_model_output] extracts, in its order. *)
Definition section_tags : list str :=
  [ lit "Credibility Score"; lit "Risk Level"; lit "Risk Reason";
    lit "Medical Accuracy"; lit "Logical Fallacies"; lit "Evidence Summary";
    lit "Key Misconceptions"; lit "Scientific Rebuttal";
    lit "Expert Recommendation" ].

(** The record of a reply in which no section is found. *)
Definition fallback_record (raw_text : str) : analysis :=
  {| credibility_score := 50;
     risk_level := lit "Misleading";
     risk_reason := lit "Not provided";
     medical_accuracy := firstn 500 raw_text;
     logical_fallacies := [];
     evidence_summary := lit "No evidence description found";
     key_misconceptions := [];
     rebuttal := lit "Consult a healthcare professional for more information.";
     recommendation := lit "For health-related information, consult a qualified healthcare provider.";
     _parse_error := None;
     _raw_output := raw_text |}.

(** ** pubmed_search.py: keywords *)

(** The stopword set. *)
Definition stopwords : list str :=
  [ [30340]; [20102]; [21644]; [26159]; [22312]; [25105]; [26377]; [20182];
    [36825]; [20010]; [20204]; [20013]; [26469]; [19978]; [22823]; [20026];
    [19982]; [20250]; [23545]; [21487];
    lit "the"; lit "a"; lit "an"; lit "is"; lit "are"; lit "was"; lit "were";
    lit "be"; lit "been"; lit "can"; lit "could"; lit "will"; lit "would";
    lit "should"; lit "may"; lit "might"; lit "to"; lit "of"; lit "in";
    lit "for"; lit "on"; lit "with"; lit "at"; lit "by"; lit "from" ].

(** [[a-zA-Z]] and [[一-鿿]] *)
Definition is_letter (c : char) : bool := between 97 122 c || between 65 90 c.
Definition is_cjk (c : char) : bool := between 19968 40959 c.

(** A greedy repetition [c{lo,hi}] of a character class with nothing after
    it in its alternative: the longest run within the bounds, or no match
    where the run is shorter than [lo].  The result is the match and the
    text after it. *)
Definition bounded_run (p : char -> bool) (lo : nat) (hi : option nat)
  (s : str) : option (str * str) :=
  let run := takewhile p s in
  let m := match hi with Some h => firstn h run | None => run end in
  if (lo <=? length m)%nat then Some (m, skipn (length m) s) else None.

(** [[a-zA-Z]{3,}|[一-鿿]{2,4}] at the head of [s] *)
Definition keyword_match (s : str) : option (str * str) :=
  match bounded_run is_letter 3%nat None s with
  | Some r => Some r
  | None => bounded_run is_cjk 2%nat (Some 4%nat) s
  end.

(** The leftmost match. *)
Fixpoint keyword_search (s : str) : option (str * str) :=
  match keyword_match s with
  | Some r => Some r
  | None =>
      match s with
      | [] => None
      | _ :: s' => keyword_search s'
      end
  end.

(** [re.findall] of the pattern: a match is never empty, so the scan goes
    on right after it. *)
Fixpoint keyword_findall (fuel : nat) (s : str) : list str :=
  match fuel with
  | O => []
  | S fuel' =>
      match keyword_search s with
      | Some (w, rest) => w :: keyword_findall fuel' rest
      | None => []
      end
  end.

Definition keyword_tokens (text : str) : list str :=
  keyword_findall (S (length text)) text.

Definition extract_keywords {rt : Runtime} (text : str) : str :=
  let words := keyword_tokens text in
  let keywords := filter (fun w => negb (str_in (lower w) stopwords)) words in
  let selected := firstn 5 keywords in
  match selected with
  | [] => slice_to 50 text
  | _ :: _ => join (lit " ") selected
  end.

Definition get_evidence_for_claim {rt : Runtime} (sv : services)
  (health_claim : str) : io (list paper) :=
  search_pubmed sv (extract_keywords health_claim) MAX_RESULTS.

(** The shape of a token of the keyword pattern. *)
Definition keyword_shape (w : str) : Prop :=
  ((3 <= length w)%nat /\ forallb is_letter w = true)
  \/ ((2 <= length w <= 4)%nat /\ forallb is_cjk w = true).

(** The tokens that are kept: those whose lower-case form is no
    stopword. *)
Definition kept_keywords {rt : Runtime} (text : str) : list str :=
  filter (fun w => negb (str_in (lower w) stopwords)) (keyword_tokens text).

(** The first, and the last, character of a text is in a class. *)
Definition head_in (p : char -> bool) (s : str) : bool :=
  match s with
  | c :: _ => p c
  | [] => false
  end.

Definition last_in (p : char -> bool) (s : str) : bool := head_in p (rev s).

(** [w], between [pre] and [post], is a word of the text: a run of at
    least three ASCII letters with no letter right before or after it. *)
Definition word_between (pre w post : str) : Prop :=
  (3 <= length w)%nat
  /\ forallb is_letter w = true
  /\ last_in is_letter pre = false
  /\ head_in is_letter post = false.

(** The pieces occur in the text in this order, one after the other. *)
Inductive in_order : list str -> str -> Prop :=
| in_order_nil (s : str) : in_order [] s
| in_order_cons (pre w rest : str) (ws : list str) :
    in_order ws rest -> in_order (w :: ws) (pre ++ w ++ rest).

(** A claim with four keywords among six words. *)
Definition water_claim : str := lit "The alkaline water can cure cancer".

(** What the first [try] of [search_pubmed] computes from the answer of the
    id-search, the request apart. *)
Definition idlist_phase (sv : services) (search_params : str)
  : outcome json :=
  (body <- urlopen_read sv (esearch_url search_params) 10 ;;
   data <- decode_loads sv body ;;
   result <- json_get data (lit "esearchresult") (JDict []) ;;
   json_get result (lit "idlist") (JList []))%outcome.

(** Services whose detail-fetch fails. *)
Definition offline_fetch (sv : services) : services :=
  {| urlencode := urlencode sv;
     urlopen_read := fun url timeout =>
       if startswith EFETCH_URL url
       then Raise (OtherException (lit "URLError"))
       else urlopen_read sv url timeout;
     decode_loads := decode_loads sv;
     fromstring := fromstring sv |}.

(** An engine that yields nothing, and one whose model fails to load. *)
Definition silent_engine : engine :=
  {| load_model := Return tt; fragments := fun _ => [] |}.

Definition broken_engine : engine :=
  {| load_model := Raise (OtherException (lit "OSError"));
     fragments := fun _ => [lit "ok"] |}.

(** An engine whose reply is [long_score_reply], in two fragments. *)
Definition long_number_engine : engine :=
  {| load_model := Return tt;
     fragments := fun _ => [lit "[Credibility Score] "; long_number] |}.

(** The work of a stream that ran to its end. *)
Definition stream_work (user_input : str) : list work :=
  [LoadModel; BuildMessages (strip user_input);
   ApplyChatTemplate (build_messages (strip user_input));
   CreateStreamer; ThreadStart; ThreadJoin].

(** The text [st.write_stream] returns for a stream that ran to its end. *)
Definition streamed_text (eng : engine) (user_input : str) : str :=
  concat (fragments eng (build_messages (strip user_input))).

(** A PubmedArticle with nothing in it, and one with a long abstract in two
    parts and a MedlineDate. *)
Definition empty_article : element := node "PubmedArticle" [].

Definition dated_article : element :=
  node "PubmedArticle"
    [ leaf "PMID" "333";
      node "PubDate" [ leaf "MedlineDate" "2021 Jan-Feb" ];
      Element (lit "AbstractText") (Some (repeat 97 200)) [] None;
      Element (lit "AbstractText") (Some (repeat 98 200)) [] None ].


(** The texts of the AbstractText elements of an article, flattened and
    joined by spaces, before the cap. *)
Definition abstract_text (article : element) : str :=
  join (lit " ")
    (List.map (fun el => concat (itertext el))
       (findall_deep (lit "AbstractText") article)).

(** The requests of the two phases. *)
Definition esearch_request (search_params : str) : net_event :=
  Urlopen (esearch_url search_params) 10.

Definition efetch_request (fetch_params : str) : net_event :=
  Urlopen (efetch_url fetch_params) 15.

(** Services whose detail-fetch answers with [doc] written out. *)
Definition document_services (doc : element) : services :=
  {| urlencode := sample_urlencode;
     urlopen_read := fun _ _ => Return (encode_ascii (to_xml doc));
     decode_loads := fun _ => Raise (OtherException (lit "JSONDecodeError"));
     fromstring := fun data =>
       if bytes_eqb data (encode_ascii (to_xml doc)) then Return doc
       else Raise ParseError |}.

(** Services whose detail-fetch answers with a document that declares an
    encoding the parser does not know. *)
Definition unknown_encoding (sv : services) : services :=
  {| urlencode := urlencode sv;
     urlopen_read := urlopen_read sv;
     decode_loads := decode_loads sv;
     fromstring := fun _ => Raise LookupError |}.

(** A query made of one lone surrogate. *)
Definition surrogate_query : str := [55296].

Definition dated_response : element :=
  node "PubmedArticleSet" [dated_article; empty_article].

(** * Proofs *)

(** ** Text *)

Lemma strip_prefix_app (a b s : str) :
  strip_prefix (a ++ b) s =
  match strip_prefix a s with
  | Some s' => strip_prefix b s'
  | None => None
  end.
Proof.
  revert s. induction a as [|x a IH]; intros s; simpl; [reflexivity|].
  destruct s as [|y s]; [reflexivity|].
  destruct (x =? y); [apply IH | reflexivity].
Qed.

Lemma strip_prefix_sound (p s r : str) :
  strip_prefix p s = Some r -> s = p ++ r.
Proof.
  revert s. induction p as [|x p IH]; intros s H; simpl in *.
  - congruence.
  - destruct s as [|y s]; [discriminate|].
    destruct (x =? y) eqn:E; [|discriminate].
    apply N.eqb_eq in E. subst y. f_equal. apply IH, H.
Qed.

Lemma strip_prefix_complete (p r : str) : strip_prefix p (p ++ r) = Some r.
Proof.
  induction p as [|x p IH]; simpl; [reflexivity|].
  rewrite N.eqb_refl. apply IH.
Qed.

Lemma rstrip_by_app_drop (p : char -> bool) (s : str) (c : char) :
  p c = true -> rstrip_by p (s ++ [c]) = rstrip_by p s.
Proof.
  intros Hc. induction s as [|x s IH]; simpl.
  - rewrite Hc. reflexivity.
  - rewrite IH. reflexivity.
Qed.

Lemma lstrip_by_app_drop (p : char -> bool) (s : str) (c : char) :
  p c = true ->
  rstrip_by p (lstrip_by p (s ++ [c])) = rstrip_by p (lstrip_by p s).
Proof.
  intros Hc. induction s as [|x s IH]; simpl.
  - rewrite Hc. reflexivity.
  - destruct (p x); [exact IH|].
    change (x :: s ++ [c]) with ((x :: s) ++ [c]).
    apply rstrip_by_app_drop, Hc.
Qed.

Lemma strip_app_space (s : str) (c : char) :
  isspace c = true -> strip (s ++ [c]) = strip s.
Proof. intros Hc. apply lstrip_by_app_drop, Hc. Qed.

Lemma strip_cons_space (s : str) (c : char) :
  isspace c = true -> strip (c :: s) = strip s.
Proof. intros Hc. unfold strip, lstrip. simpl. rewrite Hc. reflexivity. Qed.

Lemma rstrip_by_nil_iff (p : char -> bool) (s : str) :
  rstrip_by p s = [] <-> forallb p s = true.
Proof.
  induction s as [|c s IH]; simpl; [tauto|].
  destruct (rstrip_by p s) eqn:E.
  - destruct (p c); simpl.
    + rewrite <- IH. tauto.
    + split; discriminate.
  - split; [discriminate|].
    intros H. apply andb_true_iff in H. destruct H as [_ H].
    apply IH in H. discriminate.
Qed.

Lemma strip_nil_iff (s : str) : strip s = [] <-> blank s = true.
Proof.
  unfold strip, rstrip, lstrip, blank.
  induction s as [|c s IH]; simpl; [tauto|].
  destruct (isspace c) eqn:E; simpl; [exact IH|].
  split; [|discriminate].
  destruct (rstrip_by isspace s); rewrite ?E; discriminate.
Qed.

(** ** The matcher on the section pattern *)

Lemma star_greedy_longest {A : Type} (p : char -> bool) (s : str)
  (k : str -> option A) (x : A) :
  k (lstrip_by p s) = Some x -> star_greedy p s k = Some x.
Proof.
  induction s as [|c s IH]; simpl; [auto|].
  destruct (p c); [|auto].
  intros H. rewrite (IH H). reflexivity.
Qed.

(** The closing bracket is found after a run of other characters exactly
    when there is one. *)
Lemma star_greedy_rbracket {A : Type} (s : str) (x : A) :
  star_greedy not_rbracket s
    (fun s' => match strip_prefix (lit "]") s' with
               | Some _ => Some x
               | None => None
               end)
  = if existsb (N.eqb 93) s then Some x else None.
Proof.
  induction s as [|c s IH]; [reflexivity|].
  cbn [star_greedy existsb]. unfold not_rbracket at 1.
  rewrite (N.eqb_sym 93 c).
  destruct (c =? 93) eqn:E; cbn [negb orb].
  - apply N.eqb_eq in E. subst c. reflexivity.
  - rewrite IH. destruct (existsb (N.eqb 93) s); [reflexivity|].
    change (lit "]") with [93]. cbn [strip_prefix].
    rewrite (N.eqb_sym 93 c), E. reflexivity.
Qed.

Lemma run_stop_pattern (s : str) (g : option str) :
  run stop_pattern s g (fun _ g' => Some g')
  = if stops_at s then Some g else None.
Proof.
  unfold stop_pattern, stops_at. cbn [run]. change (lit "[") with [91].
  destruct s as [|b s]; [reflexivity|].
  cbn [strip_prefix]. rewrite (N.eqb_sym 91 b).
  destruct (N.eqb_spec b 91) as [->|Hb].
  - destruct s as [|c s]; [reflexivity|].
    cbn [marker_at]. rewrite N.eqb_refl. cbn [andb].
    unfold not_rbracket at 1.
    destruct (c =? 93) eqn:Ec; cbn [negb andb orb].
    + destruct s; reflexivity.
    + rewrite star_greedy_rbracket.
      destruct (existsb (N.eqb 93) s); [reflexivity|].
      destruct s; reflexivity.
  - apply N.eqb_neq in Hb. unfold marker_at.
    destruct s as [|c s]; [reflexivity|].
    rewrite Hb. reflexivity.
Qed.

Lemma star_lazy_ext {A : Type} (p : char -> bool) (s : str)
  (k k' : str -> option A) :
  (forall s', k s' = k' s') -> star_lazy p s k = star_lazy p s k'.
Proof.
  intros H. induction s as [|c s IH]; cbn; rewrite H; [reflexivity|].
  rewrite IH. reflexivity.
Qed.

Lemma star_lazy_shortest {A : Type} (F : str -> option str -> A) (s : str) :
  forall pre : str,
    star_lazy any_char s
      (fun s' =>
         if stops_at s'
         then Some (F s' (Some (firstn (length (pre ++ s) - length s')
                                  (pre ++ s))))
         else None)
    = Some (F (lazy_rest s) (Some (pre ++ lazy_prefix s))).
Proof.
  induction s as [|c s IH]; intros pre.
  - cbn. rewrite app_nil_r, Nat.sub_0_r, firstn_all. reflexivity.
  - cbn [star_lazy lazy_rest lazy_prefix].
    destruct (stops_at (c :: s)) eqn:E.
    + rewrite length_app, Nat.add_sub, firstn_app, Nat.sub_diag, firstn_all.
      cbn [firstn]. reflexivity.
    + cbn [any_char].
      specialize (IH (pre ++ [c])). rewrite <- !app_assoc in IH.
      exact IH.
Qed.

Lemma re_match_section (tag s : str) :
  re_match (section_pattern tag) s =
  match strip_prefix (bracketed tag) s with
  | Some r =>
      Some (MkMatch
              (firstn (length s - length (lazy_rest (lstrip r))) s)
              (Some (lazy_prefix (lstrip r)))
              (lazy_rest (lstrip r)))
  | None => None
  end.
Proof.
  unfold re_match, section_pattern, bracketed. cbn [run].
  rewrite strip_prefix_app.
  destruct (strip_prefix (lit "[") s) as [s1|]; [|reflexivity].
  rewrite strip_prefix_app.
  destruct (strip_prefix tag s1) as [s2|]; [|reflexivity].
  destruct (strip_prefix (lit "]") s2) as [r|]; [|reflexivity].
  apply star_greedy_longest. fold lstrip.
  erewrite star_lazy_ext.
  - rewrite (star_lazy_shortest
               (fun s' g => MkMatch (firstn (length s - length s') s) g s')
               (lstrip r) []).
    reflexivity.
  - intros s'. cbn beta. rewrite run_stop_pattern.
    destruct (stops_at s'); reflexivity.
Qed.

Lemma re_search_section (tag s : str) :
  match re_search (section_pattern tag) s with
  | Some m =>
      exists r, find_after (bracketed tag) s = Some r
                /\ group1 m = Some (lazy_prefix (lstrip r))
  | None => find_after (bracketed tag) s = None
  end.
Proof.
  induction s as [|c s IH]; cbn [re_search find_after];
    rewrite re_match_section.
  - destruct (strip_prefix (bracketed tag) []) as [r|]; [|reflexivity].
    exists r. split; reflexivity.
  - destruct (strip_prefix (bracketed tag) (c :: s)) as [r|]; [|exact IH].
    exists r. split; reflexivity.
Qed.

Lemma marker_at_space (c : char) (s : str) :
  isspace c = true -> marker_at (c :: s) = false.
Proof.
  intros Hc. unfold marker_at. destruct s as [|d s]; [reflexivity|].
  destruct (N.eqb_spec c 91) as [->|_]; [discriminate|reflexivity].
Qed.

Lemma strip_until_marker_lstrip (r : str) :
  strip (until_marker r) = strip (until_marker (lstrip r)).
Proof.
  induction r as [|c r IH]; [reflexivity|].
  unfold lstrip. cbn [lstrip_by]. fold lstrip.
  destruct (isspace c) eqn:E; [|reflexivity].
  cbn [until_marker]. rewrite (marker_at_space c r E).
  rewrite strip_cons_space by exact E. exact IH.
Qed.

Lemma until_marker_lazy_prefix (s : str) :
  until_marker s = lazy_prefix s \/ until_marker s = lazy_prefix s ++ [10].
Proof.
  induction s as [|c s IH]; [left; reflexivity|].
  cbn [until_marker lazy_prefix]. unfold stops_at.
  destruct (marker_at (c :: s)) eqn:Em; [left; reflexivity|].
  cbn [orb]. destruct (at_eos (c :: s)) eqn:Ee.
  - destruct s as [|d s]; [|discriminate].
    cbn in Ee. apply N.eqb_eq in Ee. subst c. right. reflexivity.
  - destruct IH as [IH|IH]; rewrite IH; [left|right]; reflexivity.
Qed.

Lemma strip_lazy_prefix (r : str) :
  strip (lazy_prefix (lstrip r)) = strip (until_marker r).
Proof.
  rewrite strip_until_marker_lstrip.
  destruct (until_marker_lazy_prefix (lstrip r)) as [H|H]; rewrite H;
    [reflexivity|].
  symmetry. apply strip_app_space. reflexivity.
Qed.

Lemma extract_section_contract (text tag : str) :
  extract_section text tag = section_by_contract text tag.
Proof.
  unfold extract_section, section_by_contract.
  pose proof (re_search_section tag text) as H.
  destruct (re_search (section_pattern tag) text) as [m|].
  - destruct H as (r & Hf & Hg). rewrite Hf, Hg. apply strip_lazy_prefix.
  - rewrite H. reflexivity.
Qed.

(** ** Well-formed tagged text *)

Lemma str_eqb_eq (a b : str) : str_eqb a b = true <-> a = b.
Proof.
  revert b. induction a as [|x a IH]; intros [|y b]; cbn;
    try (split; [discriminate|congruence]); [tauto|].
  rewrite andb_true_iff, N.eqb_eq, IH. split.
  - intros [-> ->]. reflexivity.
  - intros H. injection H as -> ->. tauto.
Qed.

Lemma str_eqb_refl (a : str) : str_eqb a a = true.
Proof. apply str_eqb_eq. reflexivity. Qed.

Lemma str_in_In (x : str) (l : list str) : str_in x l = true <-> In x l.
Proof.
  unfold str_in. rewrite existsb_exists. split.
  - intros (y & Hy & E). apply str_eqb_eq in E. subst y. exact Hy.
  - intros H. exists x. split; [exact H | apply str_eqb_refl].
Qed.

Lemma has_app (c : char) (a b : str) : has c (a ++ b) = has c a || has c b.
Proof. apply existsb_app. Qed.

Lemma has_cons (c x : char) (s : str) : has c (x :: s) = (c =? x) || has c s.
Proof. reflexivity. Qed.

Lemma find_after_skip (p pre s : str) :
  has 91 pre = false ->
  find_after (91 :: p) (pre ++ s) = find_after (91 :: p) s.
Proof.
  induction pre as [|c pre IH]; intros H; [reflexivity|].
  rewrite has_cons in H. apply orb_false_iff in H. destruct H as [Hc H].
  cbn [app find_after strip_prefix]. rewrite Hc. apply IH, H.
Qed.

Lemma strip_prefix_tag (t t' rest : str) :
  has 93 t = false -> has 93 t' = false ->
  strip_prefix (t ++ [93]) (t' ++ 93 :: rest)
  = if str_eqb t t' then Some rest else None.
Proof.
  revert t'. induction t as [|x t IH]; intros [|y t'] Ht Ht'; cbn -[N.eqb].
  - rewrite N.eqb_refl. reflexivity.
  - rewrite has_cons in Ht'. apply orb_false_iff in Ht'.
    destruct Ht' as [-> _]. reflexivity.
  - rewrite has_cons in Ht. apply orb_false_iff in Ht.
    destruct Ht as [Hx _]. rewrite N.eqb_sym in Hx. rewrite Hx. reflexivity.
  - rewrite has_cons in Ht, Ht'.
    apply orb_false_iff in Ht. apply orb_false_iff in Ht'.
    destruct (x =? y); [apply IH; tauto | reflexivity].
Qed.

Lemma tag_name_inv (t : str) :
  tag_name t = true ->
  has 91 t = false /\ has 93 t = false
  /\ exists c t', t = c :: t' /\ (c =? 93) = false.
Proof.
  unfold tag_name. rewrite !andb_true_iff, !negb_true_iff.
  intros [[Hn H1] H2]. repeat split; try assumption.
  destruct t as [|c t']; [discriminate|].
  exists c, t'. split; [reflexivity|].
  rewrite has_cons in H2. apply orb_false_iff in H2.
  rewrite N.eqb_sym. tauto.
Qed.

Lemma marker_at_render (sec : str * str) (rest : str) :
  tag_name (fst sec) = true -> marker_at (render sec ++ rest) = true.
Proof.
  intros H. apply tag_name_inv in H.
  destruct H as (_ & _ & c & t' & Ht & Hc).
  unfold render, bracketed. rewrite Ht. change (lit "[") with [91].
  cbn [app marker_at]. rewrite Hc. cbn.
  rewrite <- !app_assoc.
  change (existsb (N.eqb 93) ?l) with (has 93 l).
  rewrite has_app. change (lit "]") with [93]. cbn.
  apply orb_true_r.
Qed.

Lemma until_marker_body (body : str) (later : list (str * str)) :
  has 91 body = false -> forallb section_ok later = true ->
  until_marker (body ++ concat (List.map render later)) = body.
Proof.
  intros Hb Hl. induction body as [|c body IH].
  - destruct later as [|sec later]; [reflexivity|].
    cbn in Hl. apply andb_true_iff in Hl. destruct Hl as [Hs _].
    apply andb_true_iff in Hs. destruct Hs as [Hs _].
    cbn [app List.map concat].
    pose proof (marker_at_render sec (concat (List.map render later)) Hs) as M.
    destruct (render sec ++ concat (List.map render later)); cbn in *;
      [reflexivity|].
    cbn [until_marker]. rewrite M. reflexivity.
  - rewrite has_cons in Hb. apply orb_false_iff in Hb. destruct Hb as [Hc Hb].
    cbn [app until_marker].
    assert (M : marker_at (c :: body ++ concat (List.map render later)) = false).
    { unfold marker_at. destruct (body ++ concat (List.map render later));
        [reflexivity|]. rewrite N.eqb_sym, Hc. reflexivity. }
    rewrite M, (IH Hb). reflexivity.
Qed.

Lemma find_after_section (secs : list (str * str)) (tag body : str) :
  forallb section_ok secs = true ->
  distinct (List.map fst secs) = true ->
  In (tag, body) secs ->
  exists later,
    find_after (bracketed tag) (concat (List.map render secs))
    = Some (body ++ concat (List.map render later))
    /\ forallb section_ok later = true.
Proof.
  induction secs as [|[t0 b0] secs IH]; intros Hok Hd Hin; [destruct Hin|].
  cbn in Hok. apply andb_true_iff in Hok. destruct Hok as [H0 Hok].
  cbn in Hd. apply andb_true_iff in Hd. destruct Hd as [Hn Hd].
  apply negb_true_iff in Hn.
  unfold section_ok in H0. cbn in H0. apply andb_true_iff in H0.
  destruct H0 as [Ht0 Hb0]. apply negb_true_iff in Hb0.
  pose proof (tag_name_inv t0 Ht0) as (Ht091 & Ht093 & _).
  assert (Htag : has 93 tag = false /\ has 91 tag = false).
  { destruct Hin as [E|Hin].
    - injection E as <- _. tauto.
    - rewrite forallb_forall in Hok. specialize (Hok _ Hin).
      unfold section_ok in Hok. cbn in Hok. apply andb_true_iff in Hok.
      destruct Hok as [Hok _]. apply tag_name_inv in Hok. tauto. }
  cbn [List.map concat]. unfold render at 1. cbn [fst snd].
  unfold bracketed. change (lit "[") with [91]. change (lit "]") with [93].
  cbn [app find_after strip_prefix]. rewrite N.eqb_refl.
  rewrite <- !app_assoc. cbn [app].
  rewrite strip_prefix_tag by tauto.
  destruct (str_eqb tag t0) eqn:E.
  - apply str_eqb_eq in E. subst t0.
    destruct Hin as [E|Hin].
    + injection E as <-. exists secs. split; [reflexivity | exact Hok].
    + exfalso. assert (In tag (List.map fst secs)).
      { apply in_map_iff. exists (tag, body). split; [reflexivity | exact Hin]. }
      apply str_in_In in H. congruence.
  - destruct Hin as [E'|Hin].
    { injection E' as -> _. rewrite str_eqb_refl in E. discriminate. }
    destruct (IH Hok Hd Hin) as (later & Hf & Hl).
    exists later. split; [|exact Hl].
    rewrite <- Hf. unfold bracketed.
    change (lit "[") with [91]. change (lit "]") with [93]. cbn [app].
    transitivity
      (find_after (91 :: tag ++ [93])
         ((t0 ++ 93 :: b0) ++ concat (List.map render secs))).
    { f_equal. exact (app_assoc t0 (93 :: b0) _). }
    apply find_after_skip.
    rewrite has_app, has_cons, Ht091. exact Hb0.
Qed.

Lemma extract_section_well_formed (preamble : str) (secs : list (str * str))
  (tag body : str) :
  well_formed preamble secs = true ->
  In (tag, body) secs ->
  extract_section (tagged_text preamble secs) tag = strip body.
Proof.
  unfold well_formed. rewrite !andb_true_iff, negb_true_iff.
  intros [[Hp Hok] Hd] Hin.
  rewrite extract_section_contract. unfold section_by_contract, tagged_text.
  destruct (find_after_section secs tag body Hok Hd Hin) as (later & Hf & Hl).
  assert (E : find_after (bracketed tag)
                 (preamble ++ concat (List.map render secs))
               = find_after (bracketed tag) (concat (List.map render secs)))
    by (apply (find_after_skip (tag ++ lit "]")); exact Hp).
  rewrite E, Hf.
  rewrite until_marker_body; [reflexivity| |exact Hl].
  rewrite forallb_forall in Hok. specialize (Hok _ Hin).
  unfold section_ok in Hok. cbn in Hok. apply andb_true_iff in Hok.
  apply negb_true_iff. tauto.
Qed.

(** ** The tokens of [\d+] *)

Lemma lstrip_by_length (p : char -> bool) (s : str) :
  (length (lstrip_by p s) <= length s)%nat.
Proof.
  induction s as [|c s IH]; cbn; [lia|]. destruct (p c); cbn; lia.
Qed.

Lemma firstn_takewhile (p : char -> bool) (s : str) :
  firstn (length s - length (lstrip_by p s)) s = takewhile p s.
Proof.
  induction s as [|c s IH]; [reflexivity|]. cbn [lstrip_by takewhile].
  destruct (p c).
  - pose proof (lstrip_by_length p s).
    replace (length (c :: s) - length (lstrip_by p s))%nat
      with (S (length s - length (lstrip_by p s))) by (cbn [length]; lia).
    cbn [firstn]. rewrite IH. reflexivity.
  - rewrite Nat.sub_diag. reflexivity.
Qed.

Lemma re_match_plus (p : char -> bool) (s : str) :
  re_match (Plus p) s =
  match s with
  | c :: s' =>
      if p c then Some (MkMatch (c :: takewhile p s') None (lstrip_by p s'))
      else None
  | [] => None
  end.
Proof.
  unfold re_match. cbn [run]. destruct s as [|c s]; [reflexivity|].
  destruct (p c) eqn:E; [|reflexivity].
  apply star_greedy_longest. do 2 f_equal.
  pose proof (firstn_takewhile p (c :: s)) as H.
  cbn [lstrip_by takewhile] in H. rewrite E in H. exact H.
Qed.

Lemma re_search_plus (p : char -> bool) (s : str) :
  re_search (Plus p) s =
  match lstrip_by (notp p) s with
  | c :: t => Some (MkMatch (c :: takewhile p t) None (lstrip_by p t))
  | [] => None
  end.
Proof.
  induction s as [|c s IH]; [reflexivity|].
  cbn [re_search lstrip_by]. rewrite re_match_plus. unfold notp at 1.
  destruct (p c); [reflexivity | exact IH].
Qed.

Section ScoreProofs.
Context {rt : Runtime}.

Lemma tokens_from_run (s cur : str) :
  cur <> [] ->
  integer_tokens_from cur s
  = (rev cur ++ takewhile isdecimal s)
      :: integer_tokens_from [] (lstrip_by isdecimal s).
Proof.
  revert cur. induction s as [|c s IH]; intros cur Hc.
  - cbn. rewrite app_nil_r. destruct cur; [congruence | reflexivity].
  - cbn [integer_tokens_from takewhile lstrip_by].
    destruct (isdecimal c) eqn:E.
    + rewrite IH by discriminate. cbn [rev]. rewrite <- app_assoc.
      reflexivity.
    + rewrite app_nil_r. cbn [integer_tokens_from]. rewrite E.
      destruct cur; [congruence | reflexivity].
Qed.

Lemma tokens_from_nil (s : str) :
  integer_tokens_from [] s =
  match lstrip_by (notp isdecimal) s with
  | c :: t =>
      (c :: takewhile isdecimal t)
        :: integer_tokens_from [] (lstrip_by isdecimal t)
  | [] => []
  end.
Proof.
  induction s as [|c s IH]; [reflexivity|].
  cbn [integer_tokens_from lstrip_by]. unfold notp at 1.
  destruct (isdecimal c) eqn:E; cbn [negb].
  - rewrite tokens_from_run by discriminate. reflexivity.
  - exact IH.
Qed.

Lemma findall_fuel_digits (fuel : nat) :
  forall s : str,
    (length s < fuel)%nat ->
    findall_fuel fuel (Plus isdecimal) s = integer_tokens s.
Proof.
  induction fuel as [|fuel IH]; intros s Hs; [lia|].
  unfold integer_tokens. rewrite tokens_from_nil.
  cbn [findall_fuel]. rewrite re_search_plus.
  pose proof (lstrip_by_length (notp isdecimal) s) as L1.
  destruct (lstrip_by (notp isdecimal) s) as [|c t]; [reflexivity|].
  cbn [group0 after]. f_equal.
  apply IH. pose proof (lstrip_by_length isdecimal t). cbn in L1. lia.
Qed.

Lemma re_findall_digits (s : str) :
  re_findall (Plus isdecimal) s = integer_tokens s.
Proof. apply findall_fuel_digits. lia. Qed.

Lemma takewhile_all (p : char -> bool) (s : str) :
  forallb p (takewhile p s) = true.
Proof.
  induction s as [|c s IH]; [reflexivity|]. cbn.
  destruct (p c) eqn:E; [|reflexivity]. cbn. rewrite E. exact IH.
Qed.

Lemma integer_tokens_digits (s : str) : Forall digit_token (integer_tokens s).
Proof.
  unfold integer_tokens.
  remember (length s) as n eqn:Hn.
  assert (Hle : (length s <= n)%nat) by lia. clear Hn.
  revert s Hle. induction n as [|n IH]; intros s Hle.
  - destruct s; [constructor | cbn in Hle; lia].
  - rewrite tokens_from_nil.
    pose proof (lstrip_by_length (notp isdecimal) s) as L1.
    destruct (lstrip_by (notp isdecimal) s) as [|c t] eqn:E;
      [constructor|].
    constructor.
    + split; [discriminate|]. cbn. rewrite takewhile_all, andb_true_r.
      assert (H : notp isdecimal c = false).
      { clear -E. induction s as [|x s IHs]; [discriminate|].
        cbn in E. destruct (notp isdecimal x) eqn:Ex; [auto|].
        injection E as -> _. exact Ex. }
      unfold notp in H. apply negb_false_iff in H. exact H.
    + apply IH. pose proof (lstrip_by_length isdecimal t).
      cbn in L1. lia.
Qed.

Lemma isdecimal_not_space (c : char) :
  isdecimal c = true -> isspace c = false.
Proof.
  unfold isdecimal. intros H. destruct (isspace c) eqn:E; [|reflexivity].
  rewrite (todecimal_space c E) in H. discriminate.
Qed.

Lemma isdecimal_not_ascii (c x : char) :
  isdecimal c = true -> x < 128 -> ascii_decimal x = None -> (c =? x) = false.
Proof.
  intros H Hx Hn. apply N.eqb_neq. intros ->.
  unfold isdecimal in H. rewrite (todecimal_ascii x Hx), Hn in H.
  discriminate.
Qed.

Lemma rstrip_by_none (p : char -> bool) (s : str) :
  forallb (notp p) s = true -> rstrip_by p s = s.
Proof.
  induction s as [|c s IH]; [reflexivity|]. cbn.
  intros H. apply andb_true_iff in H. destruct H as [Hc H].
  rewrite (IH H). unfold notp in Hc. apply negb_true_iff in Hc. rewrite Hc.
  destruct s; reflexivity.
Qed.

Lemma strip_digit_token (t : str) : digit_token t -> strip t = t.
Proof.
  intros [Hne Hall]. unfold strip, lstrip, rstrip.
  destruct t as [|c t]; [congruence|].
  cbn in Hall. apply andb_true_iff in Hall. destruct Hall as [Hc Hall].
  cbn [lstrip_by]. rewrite (isdecimal_not_space c Hc).
  apply rstrip_by_none. cbn. unfold notp at 1.
  rewrite (isdecimal_not_space c Hc). cbn.
  apply forallb_forall. intros x Hx.
  rewrite forallb_forall in Hall. unfold notp.
  rewrite (isdecimal_not_space x (Hall x Hx)). reflexivity.
Qed.

Lemma int_digits_run (t : str) :
  forall (acc : Z) (n : nat) (b : bool),
    forallb isdecimal t = true ->
    t <> [] \/ b = true ->
    int_digits acc n b t
    = if (int_max_str_digits <? n + length t)%nat then Raise ValueError
      else Return (fold_left (fun a c => (10 * a + digit_value c)%Z) t acc).
Proof.
  induction t as [|c t IH]; intros acc n b Hall Hb.
  - destruct Hb as [Hb | ->]; [congruence|].
    cbn [int_digits length fold_left]. rewrite Nat.add_0_r. reflexivity.
  - cbn in Hall. apply andb_true_iff in Hall. destruct Hall as [Hc Hall].
    cbn [int_digits fold_left length].
    rewrite (isdecimal_not_ascii c 95 Hc) by (reflexivity || lia).
    unfold digit_value at 2. unfold isdecimal in Hc.
    destruct (todecimal c) as [d|]; [|discriminate].
    rewrite IH; [|exact Hall | right; reflexivity].
    replace (S n + length t)%nat with (n + S (length t))%nat by lia.
    reflexivity.
Qed.

(** [int] on a token of the scan: its value, unless it has more digits
    than the limit. *)
Lemma int_digit_token (t : str) :
  digit_token t ->
  int t = if convertible t then Return (token_value t) else Raise ValueError.
Proof.
  intros H. unfold int. rewrite (strip_digit_token t H).
  destruct H as [Hne Hall]. destruct t as [|c t]; [congruence|].
  assert (Hc : isdecimal c = true).
  { cbn in Hall. apply andb_true_iff in Hall. tauto. }
  rewrite (isdecimal_not_ascii c 45 Hc) by (reflexivity || lia).
  rewrite (isdecimal_not_ascii c 43 Hc) by (reflexivity || lia).
  rewrite int_digits_run; [|exact Hall | left; discriminate].
  unfold convertible. rewrite Nat.add_0_l.
  rewrite Nat.ltb_antisym.
  destruct (length (c :: t) <=? int_max_str_digits)%nat; reflexivity.
Qed.

Lemma score_loop_tokens (tokens : list str) :
  Forall digit_token tokens -> score_loop tokens = scan_tokens tokens.
Proof.
  induction 1 as [|t tokens Ht _ IH]; [reflexivity|].
  cbn [score_loop scan_tokens]. rewrite (int_digit_token t Ht).
  destruct (convertible t); [|reflexivity].
  cbn [obind]. unfold in_range.
  destruct ((0 <=? token_value t)%Z && (token_value t <=? 100)%Z);
    [reflexivity | exact IH].
Qed.

(** [extract_score] is the scan of the integer tokens of the text. *)
Lemma extract_score_scan (s : str) :
  extract_score s = scan_tokens (integer_tokens s).
Proof.
  unfold extract_score. rewrite re_findall_digits.
  apply score_loop_tokens, integer_tokens_digits.
Qed.

Lemma scan_tokens_convertible (tokens : list str) :
  forallb convertible tokens = true ->
  scan_tokens tokens
  = Return (first_in_range (List.map token_value tokens)).
Proof.
  induction tokens as [|t tokens IH]; [reflexivity|].
  cbn [forallb scan_tokens List.map]. intros H.
  apply andb_true_iff in H. destruct H as [Ht H]. rewrite Ht.
  unfold first_in_range. cbn [List.find].
  destruct (in_range (token_value t)); [reflexivity | exact (IH H)].
Qed.


(** The only exception of the scan is the [ValueError] of [int]. *)
Lemma scan_tokens_raises (tokens : list str) (e : exn) :
  scan_tokens tokens = Raise e ->
  e = ValueError /\ forallb convertible tokens = false.
Proof.
  induction tokens as [|t tokens IH]; cbn [scan_tokens forallb];
    [discriminate|].
  destruct (convertible t); [|intros [= <-]; split; reflexivity].
  destruct (in_range (token_value t)); [discriminate|].
  intros H. apply IH in H. cbn [andb]. exact H.
Qed.

Lemma extract_score_contract (s : str) :
  all_convertible s = true ->
  extract_score s
  = Return (first_in_range (List.map token_value (integer_tokens s))).
Proof.
  intros H. rewrite extract_score_scan.
  apply scan_tokens_convertible. exact H.
Qed.


Lemma extract_score_returns (s : str) :
  all_convertible s = true -> exists v, extract_score s = Return v.
Proof. intros H. rewrite (extract_score_contract s H). eauto. Qed.

Lemma first_in_range_bounds (vals : list Z) :
  (0 <= first_in_range vals <= 100)%Z.
Proof.
  unfold first_in_range.
  destruct (List.find in_range vals) as [v|] eqn:E; [|lia].
  apply find_some in E. destruct E as [_ E]. unfold in_range in E.
  apply andb_true_iff in E. destruct E as [E1 E2].
  apply Z.leb_le in E1, E2. lia.
Qed.
End ScoreProofs.

(** ** Any runtime agrees with the ASCII tables on ASCII text *)

Lemma isascii_In (s : str) : isascii s = true <-> forall c, In c s -> c < 128.
Proof.
  unfold isascii. rewrite forallb_forall. split; intros H c Hc.
  - apply N.ltb_lt, H, Hc.
  - apply N.ltb_lt, H, Hc.
Qed.

Lemma In_lstrip_by (p : char -> bool) (s : str) (c : char) :
  In c (lstrip_by p s) -> In c s.
Proof.
  induction s as [|x s IH]; [auto|]. cbn. destruct (p x); cbn; tauto.
Qed.

Lemma In_rstrip_by (p : char -> bool) (s : str) (c : char) :
  In c (rstrip_by p s) -> In c s.
Proof.
  induction s as [|x s IH]; [auto|]. cbn.
  destruct (rstrip_by p s) as [|y r].
  - destruct (p x); cbn; tauto.
  - cbn in *. tauto.
Qed.

Lemma isascii_strip (s : str) : isascii s = true -> isascii (strip s) = true.
Proof.
  rewrite !isascii_In. intros H c Hc. apply H.
  apply In_lstrip_by with isspace, In_rstrip_by with isspace, Hc.
Qed.

Lemma isascii_lstrip_by (p : char -> bool) (s : str) :
  isascii s = true -> isascii (lstrip_by p s) = true.
Proof.
  rewrite !isascii_In. intros H c Hc. apply H, In_lstrip_by with p, Hc.
Qed.

Lemma isascii_rev (s : str) : isascii s = true -> isascii (rev s) = true.
Proof.
  rewrite !isascii_In. intros H c Hc. apply H, in_rev, Hc.
Qed.

Lemma isascii_splitlines_aux (n : nat) :
  forall s cur : str,
    (length s <= n)%nat ->
    isascii cur = true -> isascii s = true ->
    Forall (fun line => isascii line = true) (splitlines_aux cur s).
Proof.
  induction n as [|n IH]; intros s cur Hn Hcur Hs.
  - destruct s; [|cbn in Hn; lia].
    cbn. destruct cur; constructor; [|constructor].
    apply isascii_rev, Hcur.
  - destruct s as [|c s].
    + cbn. destruct cur; constructor; [|constructor].
      apply isascii_rev, Hcur.
    + cbn in Hs. apply andb_true_iff in Hs. destruct Hs as [Hc Hs].
      cbn in Hn. cbn [splitlines_aux]. destruct (islinebreak c).
      * constructor; [apply isascii_rev, Hcur|].
        destruct s as [|d s']; [constructor|].
        destruct ((c =? 13) && (d =? 10)).
        -- cbn in Hs. apply andb_true_iff in Hs. destruct Hs as [_ Hs].
           apply IH; [cbn in Hn; lia | reflexivity | exact Hs].
        -- apply IH; [lia | reflexivity | exact Hs].
      * apply IH; [lia | | exact Hs]. cbn. rewrite Hc. exact Hcur.
Qed.

Lemma isascii_splitlines (s : str) :
  isascii s = true ->
  Forall (fun line => isascii line = true) (splitlines s).
Proof.
  intros H. apply (isascii_splitlines_aux (length s)); auto.
Qed.

Section AsciiAgreement.
Context {rt : Runtime}.

Lemma isdecimal_ascii (c : char) :
  c < 128 -> isdecimal c = isdecimal (rt := ascii_tables) c.
Proof.
  intros H. unfold isdecimal. rewrite (todecimal_ascii c H). reflexivity.
Qed.

Lemma token_value_ascii (t : str) :
  isascii t = true -> token_value t = token_value (rt := ascii_tables) t.
Proof.
  unfold token_value. generalize 0%Z.
  induction t as [|c t IH]; intros acc H; [reflexivity|].
  cbn in H. apply andb_true_iff in H. destruct H as [Hc H].
  apply N.ltb_lt in Hc. cbn [fold_left].
  unfold digit_value at 2 4. rewrite (todecimal_ascii c Hc).
  apply IH, H.
Qed.

Lemma integer_tokens_ascii (s : str) :
  forall cur : str,
    isascii s = true ->
    integer_tokens_from cur s
    = integer_tokens_from (rt := ascii_tables) cur s.
Proof.
  induction s as [|c s IH]; intros cur Hs; [reflexivity|].
  cbn in Hs. apply andb_true_iff in Hs. destruct Hs as [Hc Hs].
  cbn [integer_tokens_from].
  rewrite (isdecimal_ascii c) by (apply N.ltb_lt, Hc).
  destruct (isdecimal (rt := ascii_tables) c); [apply IH, Hs|].
  destruct cur; rewrite (IH [] Hs); reflexivity.
Qed.

Lemma integer_tokens_isascii (s : str) :
  forall cur : str,
    isascii cur = true -> isascii s = true ->
    Forall (fun t => isascii t = true) (integer_tokens_from cur s).
Proof.
  induction s as [|c s IH]; intros cur Hcur Hs.
  - cbn. destruct cur; constructor; [|constructor].
    apply (isascii_rev _ Hcur).
  - cbn in Hs. apply andb_true_iff in Hs. destruct Hs as [Hc Hs].
    cbn [integer_tokens_from]. destruct (isdecimal c).
    + apply IH; [|exact Hs]. cbn. rewrite Hc. exact Hcur.
    + destruct cur as [|x cur]; [apply IH; auto|].
      constructor; [apply (isascii_rev _ Hcur) | apply IH; auto].
Qed.

Lemma scan_tokens_ascii (tokens : list str) :
  Forall (fun t => isascii t = true) tokens ->
  scan_tokens tokens = scan_tokens (rt := ascii_tables) tokens.
Proof.
  induction 1 as [|t tokens Ht _ IH]; [reflexivity|].
  cbn [scan_tokens]. rewrite (token_value_ascii t Ht), IH. reflexivity.
Qed.

Lemma extract_score_ascii (s : str) :
  isascii s = true ->
  extract_score s = extract_score (rt := ascii_tables) s.
Proof.
  intros H. rewrite !extract_score_scan. unfold integer_tokens.
  rewrite scan_tokens_ascii by (apply integer_tokens_isascii; auto).
  rewrite (integer_tokens_ascii s [] H). reflexivity.
Qed.

Lemma list_items_step_ascii (items : list str) (line : str) :
  isascii line = true ->
  list_items_step items line
  = list_items_step (rt := ascii_tables) items line.
Proof.
  intros H. unfold list_items_step.
  destruct (startswith_any bullet_prefixes (strip line)); [|reflexivity].
  rewrite lower_ascii; [reflexivity|].
  apply isascii_strip, isascii_lstrip_by, isascii_strip, H.
Qed.

Lemma list_items_fold_ascii (lines : list str) :
  Forall (fun line => isascii line = true) lines ->
  forall items,
    fold_left list_items_step lines items
    = fold_left (list_items_step (rt := ascii_tables)) lines items.
Proof.
  induction 1 as [|line lines Hl _ IH]; intros items; [reflexivity|].
  cbn [fold_left]. rewrite (list_items_step_ascii items line Hl).
  apply IH.
Qed.

Lemma extract_list_items_ascii (s : str) :
  isascii s = true ->
  extract_list_items s = extract_list_items (rt := ascii_tables) s.
Proof.
  intros H. unfold extract_list_items.
  rewrite (list_items_fold_ascii _ (isascii_splitlines s H)).
  rewrite (lower_ascii (strip s) (isascii_strip s H)). reflexivity.
Qed.
End AsciiAgreement.

(** ** The normalizer *)

Lemma blank_condition (s : str) :
  negb (truthy s) || negb (truthy (strip s)) = blank s.
Proof.
  destruct (blank s) eqn:E.
  - apply strip_nil_iff in E. rewrite E. apply orb_true_r.
  - assert (H : strip s <> []).
    { intros H. apply strip_nil_iff in H. congruence. }
    destruct (strip s); [congruence|].
    destruct s; [discriminate | reflexivity].
Qed.

Section Normalizer.
Context {rt : Runtime}.

Lemma parse_model_output_blank (raw_text : str) :
  blank raw_text = true -> parse_model_output raw_text = Return failure_record.
Proof.
  intros H. unfold parse_model_output. rewrite blank_condition, H.
  reflexivity.
Qed.

Lemma parse_model_output_text (raw_text : str) :
  blank raw_text = false ->
  parse_model_output raw_text =
  obind (extract_score (score_section raw_text))
    (fun score => Return (reply_record raw_text score)).
Proof.
  intros H. unfold parse_model_output. rewrite blank_condition, H.
  reflexivity.
Qed.

(** A reply that is not blank: the record, where the score converts. *)
Lemma parse_model_output_record (raw_text : str) (r : analysis) :
  blank raw_text = false ->
  parse_model_output raw_text = Return r ->
  exists score,
    extract_score (score_section raw_text) = Return score
    /\ r = reply_record raw_text score.
Proof.
  intros H. rewrite (parse_model_output_text raw_text H).
  destruct (extract_score (score_section raw_text)) as [v|e];
    [|discriminate].
  cbn [obind]. intros [= <-]. eauto.
Qed.

Lemma parse_model_output_converts (raw_text : str) :
  blank raw_text = false ->
  all_convertible (score_section raw_text) = true ->
  parse_model_output raw_text
  = Return
      (reply_record raw_text
         (first_in_range
            (List.map token_value
               (integer_tokens (score_section raw_text))))).
Proof.
  intros H Hc. rewrite (parse_model_output_text raw_text H).
  rewrite (extract_score_contract _ Hc). reflexivity.
Qed.

(** The only exception of [parse_model_output] is the [ValueError] of
    [int] on a number of the score section. *)
Lemma parse_model_output_exception (raw_text : str) (e : exn) :
  parse_model_output raw_text = Raise e ->
  e = ValueError
  /\ blank raw_text = false
  /\ all_convertible (score_section raw_text) = false.
Proof.
  destruct (blank raw_text) eqn:H.
  - rewrite (parse_model_output_blank raw_text H). discriminate.
  - rewrite (parse_model_output_text raw_text H), extract_score_scan.
    destruct (scan_tokens (integer_tokens (score_section raw_text)))
      as [v|e'] eqn:E; [discriminate|].
    cbn [obind]. intros [= <-]. apply scan_tokens_raises in E.
    destruct E as [-> E]. repeat split. exact E.
Qed.


Lemma py_or_nonempty (a b : str) : b <> [] -> py_or a b <> [].
Proof. intros H. destruct a; [exact H | discriminate]. Qed.
End Normalizer.

(** ** The contract of the field extractor, spelled out *)


Lemma find_after_first (p s r : str) :
  find_after p s = Some r ->
  exists b, s = b ++ p ++ r
            /\ forall b' r', s = b' ++ p ++ r' -> (length b <= length b')%nat.
Proof.
  revert r. induction s as [|c s IH]; cbn [find_after]; intros r H.
  - destruct (strip_prefix p []) eqn:Ep; [|discriminate].
    injection H as ->. exists []. split; [exact (strip_prefix_sound _ _ _ Ep)|].
    intros; cbn; lia.
  - destruct (strip_prefix p (c :: s)) eqn:Ep.
    + injection H as ->. exists []. split; [exact (strip_prefix_sound _ _ _ Ep)|].
      intros; cbn; lia.
    + destruct (IH r H) as (b & E & Hmin). exists (c :: b). split.
      * cbn. rewrite <- E. reflexivity.
      * intros [|x b'] r' E'.
        -- cbn in E'. rewrite E', strip_prefix_complete in Ep. discriminate.
        -- injection E' as _ E'. specialize (Hmin b' r' E'). cbn. lia.
Qed.



Lemma existsb_split (c : char) (s : str) :
  has c s = true -> exists a b, s = a ++ c :: b /\ has c a = false.
Proof.
  induction s as [|x s IH]; [discriminate|].
  rewrite has_cons. destruct (N.eqb_spec c x) as [->|Hx]; cbn [orb].
  - intros _. exists [], s. split; reflexivity.
  - intros H. destruct (IH H) as (a & b & -> & Ha).
    exists (x :: a), b. split; [reflexivity|].
    rewrite has_cons, Ha. apply N.eqb_neq in Hx. rewrite Hx. reflexivity.
Qed.

(** [marker_at] recognises exactly a bracketed tag of any name. *)
Lemma marker_at_spec (s : str) :
  marker_at s = true <->
  exists name rest,
    name <> [] /\ has 93 name = false /\ s = 91 :: name ++ 93 :: rest.
Proof.
  split.
  - destruct s as [|b [|c s]]; try discriminate. cbn [marker_at].
    rewrite !andb_true_iff, negb_true_iff, N.eqb_eq.
    intros [[-> Hc] Hs].
    destruct (existsb_split 93 s Hs) as (a & r & -> & Ha).
    exists (c :: a), r. split; [discriminate|]. split; [|reflexivity].
    rewrite has_cons, Ha, N.eqb_sym, Hc. reflexivity.
  - intros (name & rest & Hn & H93 & ->).
    destruct name as [|c name]; [congruence|].
    rewrite has_cons in H93. apply orb_false_iff in H93.
    destruct H93 as [Hc _]. cbn. rewrite N.eqb_sym, Hc. cbn.
    change (existsb (N.eqb 93) ?l) with (has 93 l).
    rewrite has_app, has_cons, N.eqb_refl. apply orb_true_r.
Qed.

(** [until_marker] ends immediately before the next bracketed tag, or at
    the end of the text, and no tag starts earlier. *)
Lemma until_marker_spec (r : str) :
  exists rest,
    r = until_marker r ++ rest
    /\ (rest = [] \/ marker_at rest = true)
    /\ forall n, (n < length (until_marker r))%nat ->
                 marker_at (skipn n r) = false.
Proof.
  induction r as [|c r IH].
  - exists []. cbn. repeat split; [tauto | intros; lia].
  - cbn [until_marker]. destruct (marker_at (c :: r)) eqn:E.
    + exists (c :: r). cbn. repeat split; [tauto | intros; lia].
    + destruct IH as (rest & E1 & E2 & E3). exists rest.
      split; [cbn; congruence|]. split; [exact E2|].
      intros [|n] Hn; [exact E|]. cbn in Hn. cbn [skipn].
      apply E3. lia.
Qed.

(** ** The claims about the analyzer *)

(** What holds of the record [parse_model_output] returns: the parse-error
    flag, read as the caller reads it, is true exactly when the text is
    empty or whitespace-only; the record is then the fixed all-defaults
    one; on every other text the record has no such key and the raw
    output is the text. *)
Lemma parse_model_output_flag (rt : Runtime) (raw_text : str) (r : analysis) :
  parse_model_output raw_text = Return r ->
  parse_error_flag r = blank raw_text
  /\ if blank raw_text
     then r = failure_record
          /\ _parse_error r = Some true
          /\ credibility_score r = 0%Z
          /\ risk_level r = lit "Misleading"
          /\ risk_reason r
             = lit "Model produced no output; check HF token and GPU memory."
          /\ logical_fallacies r = [] /\ key_misconceptions r = []
          /\ _raw_output r = lit "(empty)"
     else _parse_error r = None /\ _raw_output r = raw_text.
Proof.
  destruct (blank raw_text) eqn:E.
  - rewrite (parse_model_output_blank raw_text E). intros [= <-].
    repeat split; reflexivity.
  - intros H. destruct (parse_model_output_record raw_text r E H)
      as (score & _ & ->).
    repeat split; reflexivity.
Qed.

Lemma long_score_reply_section : score_section long_score_reply = long_number.
Proof. vm_compute. reflexivity. Qed.

Lemma extract_score_long_number (rt : Runtime) :
  extract_score long_number = Raise ValueError.
Proof.
  rewrite extract_score_ascii by (vm_compute; reflexivity).
  vm_compute. reflexivity.
Qed.

(** C1, the failing input: a reply whose Credibility Score section is a
    run of 4301 nines.  The reply is not blank and the section is found;
    its one integer token reaches [int], which refuses a string of more
    than 4300 digits, and nothing catches the [ValueError]:
    [parse_model_output] raises where the claim says it never does. *)
Theorem parse_model_output_raises_on_long_number (rt : Runtime) :
  blank long_score_reply = false
  /\ score_section long_score_reply = long_number
  /\ length long_number = 4301%nat
  /\ extract_score long_number = Raise ValueError
  /\ parse_model_output long_score_reply = Raise ValueError.
Proof.
  assert (B : blank long_score_reply = false) by reflexivity.
  split; [exact B|].
  split; [exact long_score_reply_section|].
  split; [apply repeat_length|].
  split; [apply extract_score_long_number|].
  rewrite (parse_model_output_text _ B), long_score_reply_section,
    extract_score_long_number.
  reflexivity.
Qed.

(** C7, the claim as stated fails: a reply of three spaces is not empty and
    every section of it extracts to empty, yet the record is the fixed
    failure record, whose risk reason is not "Not provided" and whose
    medical accuracy is not the head of the raw text. *)
Lemma parse_model_output_whitespace_reply :
  spaces_reply <> []
  /\ extract_section spaces_reply (lit "Risk Reason") = []
  /\ extract_section spaces_reply (lit "Medical Accuracy") = []
  /\ exists r,
       parse_model_output (rt := ascii_tables) spaces_reply = Return r
       /\ risk_reason r <> lit "Not provided"
       /\ medical_accuracy r <> firstn 500 spaces_reply.
Proof.
  split; [discriminate|].
  split; [reflexivity|].
  split; [reflexivity|].
  exists failure_record.
  split; [reflexivity|].
  split; discriminate.
Qed.

(** C7, amended: on every reply that is not blank (not empty and not
    whitespace-only), each scalar text field of the record returned is its
    own section where that section is not empty, and its own fallback
    where it is: the first 500 characters of the raw text for the medical
    accuracy, "Not provided" for the risk reason, "No evidence description
    found" for the evidence summary, and the professional-consultation
    sentences for the rebuttal and the recommendation.  The record is
    returned whenever no integer token of the score section has more than
    4300 digits. *)
Theorem parse_model_output_fallbacks (rt : Runtime) (raw_text : str) :
  blank raw_text = false ->
  (all_convertible (score_section raw_text) = true ->
   exists r, parse_model_output raw_text = Return r)
  /\ forall r,
       parse_model_output raw_text = Return r ->
       risk_reason r
       = with_fallback (extract_section raw_text (lit "Risk Reason"))
           (lit "Not provided")
       /\ medical_accuracy r
          = with_fallback (extract_section raw_text (lit "Medical Accuracy"))
              (firstn 500 raw_text)
       /\ evidence_summary r
          = with_fallback (extract_section raw_text (lit "Evidence Summary"))
              (lit "No evidence description found")
       /\ rebuttal r
          = with_fallback
              (extract_section raw_text (lit "Scientific Rebuttal"))
              (lit "Consult a healthcare professional for more information.")
       /\ recommendation r
          = with_fallback
              (extract_section raw_text (lit "Expert Recommendation"))
              (lit "For health-related information, consult a qualified healthcare provider.")
       /\ _parse_error r = None.
Proof.
  intros E. split.
  { intros Hc. rewrite (parse_model_output_converts raw_text E Hc). eauto. }
  intros r H.
  destruct (parse_model_output_record raw_text r E H) as (score & _ & ->).
  cbn [reply_record risk_reason medical_accuracy evidence_summary
    rebuttal recommendation _parse_error].
  unfold py_or, with_fallback, slice_to.
  repeat split;
    match goal with
    | |- (if truthy ?s then _ else _) = _ => destruct s; reflexivity
    end.
Qed.

Lemma parse_model_output_fallbacks_witness :
  blank (lit "[Risk Level] Safe [Risk Reason] ") = false
  /\ all_convertible (rt := ascii_tables)
       (score_section (lit "[Risk Level] Safe [Risk Reason] ")) = true
  /\ exists r,
       parse_model_output (rt := ascii_tables)
         (lit "[Risk Level] Safe [Risk Reason] ") = Return r
       /\ risk_reason r = lit "Not provided"
       /\ medical_accuracy r = lit "[Risk Level] Safe [Risk Reason] ".
Proof.
  split; [reflexivity|].
  split; [reflexivity|].
  destruct (parse_model_output_fallbacks ascii_tables
              (lit "[Risk Level] Safe [Risk Reason] ") eq_refl)
    as [A B].
  destruct (A eq_refl) as [r Hr].
  exists r. split; [exact Hr|].
  destruct (B r Hr) as (H1 & H2 & _).
  split; [exact H1 | exact H2].
Defined.



Lemma blank_has_bracket (s : str) : has 91 s = true -> blank s = false.
Proof.
  induction s as [|c s IH]; [discriminate|].
  rewrite has_cons. cbn [blank forallb].
  destruct (N.eqb_spec 91 c) as [<-|_]; [reflexivity|].
  cbn [orb]. intros H. fold (blank s). rewrite (IH H). apply andb_false_r.
Qed.

Lemma blank_tagged_text (preamble : str) (secs : list (str * str)) :
  secs <> [] -> blank (tagged_text preamble secs) = false.
Proof.
  intros H. apply blank_has_bracket. unfold tagged_text.
  destruct secs as [|sec secs]; [congruence|].
  rewrite has_app. cbn [List.map concat]. rewrite has_app.
  unfold render, bracketed. change (lit "[") with [91].
  rewrite <- !app_assoc. cbn [app]. rewrite has_cons, N.eqb_refl.
  cbn [orb]. apply orb_true_r.
Qed.



(** The score conversion is the one place where the normalizer raises: a
    well-formed reply of nine sections whose score is a run of 4301 nines
    has its nine contents extracted, and no record built. *)
Lemma parse_model_output_long_score_sections (rt : Runtime) :
  well_formed [] long_score_sections = true
  /\ extract_section (tagged_text [] long_score_sections)
       (lit "Credibility Score") = long_number
  /\ parse_model_output (tagged_text [] long_score_sections)
     = Raise ValueError.
Proof.
  assert (W : well_formed [] long_score_sections = true)
    by (vm_compute; reflexivity).
  assert (S1 : score_section (tagged_text [] long_score_sections)
               = long_number).
  { unfold score_section.
    rewrite (extract_section_well_formed [] long_score_sections
               (lit "Credibility Score") (lit " " ++ long_number) W)
      by (right; left; reflexivity).
    vm_compute. reflexivity. }
  split; [exact W|]. split; [exact S1|].
  rewrite parse_model_output_text
    by (apply blank_tagged_text; discriminate).
  rewrite S1, extract_score_long_number. reflexivity.
Qed.

(** C3, the claim as stated fails: the sign is no part of a token, so in
    "-5 but maybe 30" the first integer token is 5, which is in range. *)
Lemma extract_score_negative_token :
  extract_score (rt := ascii_tables) (lit "[Credibility Score] -5 but maybe 30")
  = Return 5%Z
  /\ extract_score (rt := ascii_tables)
       (lit "[Credibility Score] -5 but maybe 30")
     <> Return 30%Z.
Proof. split; [reflexivity | discriminate]. Qed.

(** C3, amended: on every section text none of whose integer tokens has
    more than 4300 digits, [extract_score] scans the integer tokens of the
    text, the maximal runs of decimal digits, in encounter order and
    returns the first whose value is within [0,100], or 50 if there is
    none.  So "[Credibility Score] 85/100" yields 85, "[Credibility Score]
    The score is 140" yields 50, and "[Credibility Score] -5 but maybe 30"
    yields 5: a sign is not part of a token. *)
Theorem extract_score_first_in_range (rt : Runtime) :
  (forall score_text,
      all_convertible score_text = true ->
      extract_score score_text
      = Return (first_in_range
                  (List.map token_value (integer_tokens score_text))))
  /\ extract_score (lit "[Credibility Score] 85/100") = Return 85%Z
  /\ extract_score (lit "[Credibility Score] The score is 140") = Return 50%Z
  /\ extract_score (lit "[Credibility Score] -5 but maybe 30") = Return 5%Z.
Proof.
  split; [exact extract_score_contract|].
  repeat split; rewrite extract_score_ascii; reflexivity.
Qed.

Lemma extract_score_first_in_range_witness :
  all_convertible (rt := ascii_tables) (lit "scores: 300, 200, 45 and 7")
  = true
  /\ integer_tokens (rt := ascii_tables) (lit "scores: 300, 200, 45 and 7")
     = [lit "300"; lit "200"; lit "45"; lit "7"]
  /\ extract_score (rt := ascii_tables) (lit "scores: 300, 200, 45 and 7")
     = Return 45%Z.
Proof.
  split; [reflexivity|].
  split; [reflexivity|].
  destruct (extract_score_first_in_range ascii_tables) as [H _].
  rewrite (H (lit "scores: 300, 200, 45 and 7") eq_refl). reflexivity.
Defined.

(** ** The list items *)

Lemma list_items_fold (rt : Runtime) (lines : list str) :
  forall items,
    fold_left list_items_step lines items
    = items ++ flat_map line_item lines.
Proof.
  induction lines as [|line lines IH]; intros items; cbn [fold_left flat_map].
  - rewrite app_nil_r. reflexivity.
  - rewrite IH. unfold list_items_step, line_item.
    destruct (startswith_any bullet_prefixes (strip line));
      [|reflexivity].
    destruct (truthy _ && negb _); [|reflexivity].
    rewrite <- app_assoc. reflexivity.
Qed.

(** What [extract_list_items] returns: the items of the bulleted lines, in
    order, where there is at least one; otherwise the whole trimmed section
    as one item, unless that is empty or a sentinel. *)
Lemma extract_list_items_kept (rt : Runtime) (section_text : str) :
  extract_list_items section_text
  = match flat_map line_item (splitlines section_text) with
    | [] =>
        if truthy (strip section_text)
           && negb (str_in (lower (strip section_text)) negation_sentinels)
        then [strip section_text]
        else []
    | kept => kept
    end.
Proof.
  unfold extract_list_items. rewrite list_items_fold. cbn [app].
  destruct (flat_map line_item (splitlines section_text)); reflexivity.
Qed.

(** The two list examples of the specification. *)
Lemma extract_list_items_examples (rt : Runtime) :
  extract_list_items (lit "- claim A
- claim B
None") = [lit "claim A"; lit "claim B"]
  /\ extract_list_items (lit "None") = [].
Proof. split; rewrite extract_list_items_ascii; reflexivity. Qed.

(** C9, where the code departs from the claim: a section whose only line is
    a bulleted sentinel.  The bulleted line is found and its item discarded,
    yet the whole section comes back as an item. *)
Theorem extract_list_items_bulleted_sentinel (rt : Runtime) :
  extract_list_items (lit "- None") = [lit "- None"]
  /\ extract_list_items (lit "* n/a") = [lit "* n/a"]
  /\ extract_list_items (lit "-") = [lit "-"].
Proof. repeat split; rewrite extract_list_items_ascii; reflexivity. Qed.

(** ** The claims about the generator *)

(** The check for an empty claim comes before any work: on a claim that is
    empty or whitespace-only the first resumption of the generator raises
    [ValueError] and has done nothing, no model load and no thread. *)
Lemma analyze_rejects_blank_claim (eng : engine) (claim : str) :
  blank claim = true ->
  next eng (analyze_health_claim_stream claim)
  = ([], Throw ValueError, Finished).
Proof.
  intros H. unfold analyze_health_claim_stream, next.
  rewrite blank_condition, H. reflexivity.
Qed.

(** Any other claim, whatever its length, goes whole (trimmed) into the
    messages once the model is loaded, and the thread is started. *)
Lemma analyze_runs_any_other_claim (eng : engine) (claim : str) :
  blank claim = false ->
  load_model eng = Return tt ->
  exists w r g,
    next eng (analyze_health_claim_stream claim)
    = (LoadModel :: BuildMessages (strip claim)
         :: ApplyChatTemplate (build_messages (strip claim))
         :: CreateStreamer :: ThreadStart :: w, r, g)
    /\ stream_step (fragments eng (build_messages (strip claim))) = (w, r, g).
Proof.
  intros H L. unfold analyze_health_claim_stream, next.
  rewrite blank_condition, H, L.
  destruct (stream_step (fragments eng (build_messages (strip claim))))
    as [[w r] g].
  exists w, r, g. split; reflexivity.
Qed.

(** C6, where the code departs from the claim: a claim of 5001 characters
    is neither rejected nor truncated.  The model is loaded, the whole
    claim goes into the messages, and the generation thread is started. *)
Theorem analyze_accepts_oversized_claim :
  N.of_nat (length long_claim) = 5001
  /\ blank long_claim = false
  /\ next echo_engine (analyze_health_claim_stream long_claim)
     = ([LoadModel; BuildMessages long_claim;
         ApplyChatTemplate (build_messages long_claim);
         CreateStreamer; ThreadStart],
        Yield (lit "ok"), Suspended []).
Proof. repeat split; vm_compute; reflexivity. Qed.

(** ** The records of a detail-fetch response *)

Lemma article_record_total (article : element) :
  exists r, article_record article = Return r.
Proof. unfold article_record. eexists. reflexivity. Qed.

Lemma parse_articles_fold (articles : list element) :
  forall results,
  exists rs,
    fold_left collect_article articles results = results ++ rs
    /\ Forall2 (fun a r => article_record a = Return r) articles rs.
Proof.
  induction articles as [|a articles IH]; intros results.
  - exists []. rewrite app_nil_r. split; [reflexivity | constructor].
  - destruct (article_record_total a) as (r & Hr).
    cbn [fold_left]. unfold collect_article at 2. rewrite Hr.
    destruct (IH (results ++ [r])) as (rs & E & F).
    exists (r :: rs). split.
    + rewrite E, <- app_assoc. reflexivity.
    + constructor; assumption.
Qed.

Lemma parse_articles_all (root : element) :
  Forall2 (fun a r => article_record a = Return r)
    (findall_deep (lit "PubmedArticle") root) (parse_articles root).
Proof.
  unfold parse_articles.
  destruct (parse_articles_fold (findall_deep (lit "PubmedArticle") root) [])
    as (rs & E & F).
  rewrite E. exact F.
Qed.

Lemma article_record_untitled (article : element) (r : paper) :
  article_record article = Return r ->
  findall_deep (lit "ArticleTitle") article = [] ->
  title r = lit "N/A".
Proof.
  unfold article_record. intros E H. rewrite H in E. injection E as <-.
  reflexivity.
Qed.

Lemma collect_article_fold (articles : list element) :
  forall results,
    fold_left collect_article articles results
    = results ++ kept_records articles.
Proof.
  induction articles as [|a articles IH]; intros results.
  - cbn. rewrite app_nil_r. reflexivity.
  - cbn [fold_left kept_records flat_map]. rewrite IH.
    unfold collect_article. fold (kept_records articles).
    destruct (article_record a) as [r|e]; [|reflexivity].
    rewrite <- app_assoc. reflexivity.
Qed.

Lemma parse_articles_kept (root : element) :
  parse_articles root
  = kept_records (findall_deep (lit "PubmedArticle") root).
Proof. unfold parse_articles. apply collect_article_fold. Qed.

Lemma parse_pubmed_xml_source (sv : services) (xml_data : list Byte.byte)
  (records : list paper) (r : paper) :
  parse_pubmed_xml sv xml_data = Return records ->
  In r records ->
  exists root article,
    fromstring sv xml_data = Return root
    /\ In article (findall_deep (lit "PubmedArticle") root)
    /\ article_record article = Return r.
Proof.
  unfold parse_pubmed_xml. intros E Hin.
  destruct (fromstring sv xml_data) as [root|e].
  - injection E as <-. exists root.
    pose proof (parse_articles_all root) as F.
    induction F as [|a r' l l' H _ IH]; [destruct Hin|].
    destruct Hin as [->|Hin].
    + exists a. split; [reflexivity|].
      split; [left; reflexivity | exact H].
    + destruct (IH Hin) as (a' & _ & Hin' & H'). exists a'.
      split; [reflexivity|]. split; [right; exact Hin' | exact H'].
  - destruct e; try discriminate E. injection E as <-. destruct Hin.
Qed.

(** C4, the claim as stated fails: of two records in one response, the one
    with no ArticleTitle element is not dropped; it is returned with the
    title "N/A". *)
Lemma parse_pubmed_xml_keeps_untitled :
  findall_deep (lit "ArticleTitle") untitled_article = []
  /\ exists records,
       parse_pubmed_xml (canned_services [] JNull) sample_xml = Return records
       /\ List.map (fun r => (pmid r, title r)) records
          = [ (Some (lit "111"), lit "Alkaline water and cancer");
              (Some (lit "222"), lit "N/A") ].
Proof. split; [reflexivity|]. eexists. split; reflexivity. Qed.

(** C4, amended: for every detail-fetch response that parses as XML, the
    records returned are, in document order, those of the PubmedArticle
    elements whose extraction does not raise: a record that fails is
    dropped individually, every other record of the batch is still
    returned, and nothing is raised to the caller.  A record missing its
    title tag is not dropped: it is returned with the title "N/A". *)
Theorem parse_pubmed_xml_one_record_each (sv : services)
  (xml_data : list Byte.byte) (root : element) :
  fromstring sv xml_data = Return root ->
  parse_pubmed_xml sv xml_data
  = Return (kept_records (findall_deep (lit "PubmedArticle") root))
  /\ forall article,
       In article (findall_deep (lit "PubmedArticle") root) ->
       findall_deep (lit "ArticleTitle") article = [] ->
       exists r,
         article_record article = Return r
         /\ title r = lit "N/A"
         /\ In r (kept_records (findall_deep (lit "PubmedArticle") root)).
Proof.
  intros E. unfold parse_pubmed_xml. rewrite E, parse_articles_kept.
  split; [reflexivity|].
  intros article Hin Ht.
  destruct (article_record_total article) as (r & Hr).
  exists r. split; [exact Hr|].
  split; [exact (article_record_untitled article r Hr Ht)|].
  unfold kept_records. apply in_flat_map. exists article.
  split; [exact Hin|]. rewrite Hr. left. reflexivity.
Qed.

Lemma parse_pubmed_xml_one_record_each_witness :
  fromstring (canned_services [] JNull) sample_xml = Return sample_response
  /\ findall_deep (lit "PubmedArticle") sample_response
     = [titled_article; untitled_article]
  /\ findall_deep (lit "ArticleTitle") untitled_article = []
  /\ exists r1 r2,
       parse_pubmed_xml (canned_services [] JNull) sample_xml
       = Return [r1; r2]
       /\ article_record untitled_article = Return r2
       /\ title r2 = lit "N/A".
Proof.
  split; [reflexivity|].
  split; [reflexivity|].
  split; [reflexivity|].
  destruct (parse_pubmed_xml_one_record_each (canned_services [] JNull)
              sample_xml sample_response eq_refl) as [E F].
  destruct (F untitled_article (or_intror (or_introl eq_refl)) eq_refl)
    as (r2 & H2 & T2 & _).
  destruct (article_record_total titled_article) as (r1 & H1).
  exists r1, r2. split; [|split; [exact H2 | exact T2]].
  rewrite E.
  change (findall_deep (lit "PubmedArticle") sample_response)
    with [titled_article; untitled_article].
  unfold kept_records. cbn [flat_map]. rewrite H1, H2. reflexivity.
Defined.

(** ** The authors of a record *)

Lemma authors_fold (l : list element) :
  forall acc,
    fold_left authors_step l acc
    = acc ++ List.map formatted_name (filter (fun a => truthy (surname a)) l).
Proof.
  induction l as [|a l IH]; intros acc; cbn [fold_left filter].
  - rewrite app_nil_r. reflexivity.
  - rewrite IH. unfold authors_step at 1. fold (surname a) (initials_of a).
    destruct (truthy (surname a)); [|reflexivity].
    cbn [List.map]. rewrite <- app_assoc. reflexivity.
Qed.

Lemma article_authors_names (article : element) :
  article_authors article
  = contributed_names article
      ++ (if (3 <? length (listed_authors article))%nat
          then [lit "et al."] else []).
Proof.
  unfold article_authors, contributed_names, listed_authors.
  rewrite authors_fold. cbn [app].
  destruct (3 <? length (findall_deep (lit "Author") article))%nat;
    [reflexivity | rewrite app_nil_r; reflexivity].
Qed.

Lemma article_record_authors (article : element) (r : paper) :
  article_record article = Return r -> authors r = authors_field article.
Proof.
  unfold article_record. intros E. injection E as <-. cbn [authors].
  rewrite article_authors_names. unfold authors_field.
  destruct (3 <? length (listed_authors article))%nat.
  - destruct (contributed_names article); reflexivity.
  - rewrite app_nil_r. reflexivity.
Qed.

(** C10: in every record returned by [parse_pubmed_xml], the names in the
    authors field are those of the first three Author elements that have a
    non-empty LastName, each as surname and initials; "et al." is appended
    exactly when the article lists more than three Author elements.  With
    at most three Author elements and no name the field is "Unknown"; with
    more than three and no name it is "et al." alone. *)
Theorem parse_pubmed_xml_authors (sv : services) (xml_data : list Byte.byte)
  (records : list paper) (r : paper) :
  parse_pubmed_xml sv xml_data = Return records ->
  In r records ->
  exists root article,
    fromstring sv xml_data = Return root
    /\ In article (findall_deep (lit "PubmedArticle") root)
    /\ article_record article = Return r
    /\ authors r
       = (if (3 <? length (listed_authors article))%nat
          then join (lit ", ") (contributed_names article ++ [lit "et al."])
          else
            match contributed_names article with
            | [] => lit "Unknown"
            | _ :: _ => join (lit ", ") (contributed_names article)
            end)
    /\ ((length (listed_authors article) <= 3)%nat ->
        contributed_names article = [] -> authors r = lit "Unknown")
    /\ ((3 < length (listed_authors article))%nat ->
        contributed_names article = [] -> authors r = lit "et al.").
Proof.
  intros Hp Hin.
  destruct (parse_pubmed_xml_source sv xml_data records r Hp Hin)
    as (root & article & Hroot & Hart & Hrec).
  exists root, article. split; [exact Hroot|]. split; [exact Hart|].
  split; [exact Hrec|].
  pose proof (article_record_authors article r Hrec) as E.
  unfold authors_field in E. split; [exact E|]. split.
  - intros Hn Hc. rewrite E, Hc.
    apply Nat.ltb_ge in Hn. rewrite Hn. reflexivity.
  - intros Hn Hc. rewrite E, Hc.
    apply Nat.ltb_lt in Hn. rewrite Hn. reflexivity.
Qed.

Lemma parse_pubmed_xml_authors_witness :
  exists records r,
    parse_pubmed_xml (canned_services [] JNull) sample_xml = Return records
    /\ article_record untitled_article = Return r
    /\ In r records
    /\ authors r = lit "et al."
    /\ exists root article,
         fromstring (canned_services [] JNull) sample_xml = Return root
         /\ In article (findall_deep (lit "PubmedArticle") root)
         /\ article_record article = Return r
         /\ authors r = authors_field article.
Proof.
  destruct (article_record_total untitled_article) as (r & Hr).
  exists (parse_articles sample_response), r.
  assert (Hp : parse_pubmed_xml (canned_services [] JNull) sample_xml
               = Return (parse_articles sample_response)) by reflexivity.
  split; [exact Hp|].
  split; [exact Hr|].
  assert (Hin : In r (parse_articles sample_response)).
  { unfold article_record in Hr. injection Hr as <-.
    right. left. reflexivity. }
  split; [exact Hin|].
  split; [unfold article_record in Hr; injection Hr as <-; reflexivity|].
  destruct (parse_pubmed_xml_authors (canned_services [] JNull) sample_xml
              _ r Hp Hin)
    as (root & article & H1 & H2 & H3 & H4 & _).
  exists root, article. repeat split; assumption.
Defined.

(** ** The two-phase search *)

Ltac io_unfold :=
  cbv [search_pubmed io_bind io_try urlopen io_emit io_lift io_ret].

Ltac io_step H := rewrite H; cbv beta iota; cbn [negb].

Lemma search_pubmed_encode_failure (sv : services) (query : str)
  (max_results : Z) (log : list net_event) (e : exn) :
  urlencode sv (search_fields query max_results) = Raise e ->
  search_pubmed sv query max_results log = (Raise e, log).
Proof.
  intros H. io_unfold. io_step H. reflexivity.
Qed.

Lemma search_pubmed_esearch_failure (sv : services) (query : str)
  (max_results : Z) (log : list net_event) (search_params : str) (e : exn) :
  urlencode sv (search_fields query max_results) = Return search_params ->
  urlopen_read sv (esearch_url search_params) 10 = Raise e ->
  search_pubmed sv query max_results log
  = (Return [], log ++ [Urlopen (esearch_url search_params) 10]).
Proof.
  intros H0 H. io_unfold. io_step H0. io_step H. reflexivity.
Qed.

Lemma search_pubmed_decode_failure (sv : services) (query : str)
  (max_results : Z) (log : list net_event) (search_params : str)
  (body : list Byte.byte) (e : exn) :
  urlencode sv (search_fields query max_results) = Return search_params ->
  urlopen_read sv (esearch_url search_params) 10 = Return body ->
  decode_loads sv body = Raise e ->
  search_pubmed sv query max_results log
  = (Return [], log ++ [Urlopen (esearch_url search_params) 10]).
Proof.
  intros H0 H1 H2. io_unfold. io_step H0. io_step H1. io_step H2.
  reflexivity.
Qed.

(** No identifier: the function returns the empty list and the only call
    logged is the id-search; the detail-fetch is not invoked. *)
Lemma search_pubmed_no_ids (sv : services) (query : str) (max_results : Z)
  (log : list net_event) (search_params : str) (body : list Byte.byte)
  (data result : json) :
  urlencode sv (search_fields query max_results) = Return search_params ->
  urlopen_read sv (esearch_url search_params) 10 = Return body ->
  decode_loads sv body = Return data ->
  json_get data (lit "esearchresult") (JDict []) = Return result ->
  json_get result (lit "idlist") (JList []) = Return (JList []) ->
  search_pubmed sv query max_results log
  = (Return [], log ++ [Urlopen (esearch_url search_params) 10]).
Proof.
  intros H0 H1 H2 H3 H4. io_unfold.
  io_step H0. io_step H1. io_step H2. io_step H3. io_step H4. reflexivity.
Qed.

Lemma search_pubmed_efetch_failure (sv : services) (query : str)
  (max_results : Z) (log : list net_event) (search_params : str)
  (body : list Byte.byte) (data result pmid_list : json)
  (ids fetch_params : str) (e : exn) :
  urlencode sv (search_fields query max_results) = Return search_params ->
  urlopen_read sv (esearch_url search_params) 10 = Return body ->
  decode_loads sv body = Return data ->
  json_get data (lit "esearchresult") (JDict []) = Return result ->
  json_get result (lit "idlist") (JList []) = Return pmid_list ->
  json_truthy pmid_list = true ->
  join_json (lit ",") pmid_list = Return ids ->
  urlencode sv (fetch_fields ids) = Return fetch_params ->
  urlopen_read sv (efetch_url fetch_params) 15 = Raise e ->
  search_pubmed sv query max_results log
  = (Return [],
     log ++ [Urlopen (esearch_url search_params) 10]
         ++ [Sleep 400] ++ [Urlopen (efetch_url fetch_params) 15]).
Proof.
  intros H0 H1 H2 H3 H4 H5 H6 H7 H8. io_unfold.
  io_step H0. io_step H1. io_step H2. io_step H3. io_step H4. io_step H5.
  io_step H6. io_step H7. io_step H8.
  f_equal. rewrite <- !app_assoc. reflexivity.
Qed.

(** A run with well-formed answers: two identifiers, one detail-fetch, two
    records. *)
Lemma search_pubmed_sample_run :
  exists r1 r2 url1 url2,
    search_pubmed (canned_services string_idlist_body string_idlist)
      (lit "aspirin") MAX_RESULTS []
    = (Return [r1; r2], [Urlopen url1 10; Sleep 400; Urlopen url2 15])
    /\ startswith ESEARCH_URL url1 = true
    /\ startswith EFETCH_URL url2 = true
    /\ pmid r1 = Some (lit "111") /\ pmid r2 = Some (lit "222").
Proof. do 4 eexists. vm_compute. repeat split; reflexivity. Qed.

(** C5, where the code departs from the claim: when the id-search answers
    with a list of identifiers in which one is not a string, the join of
    the identifiers, which no handler covers, raises [TypeError] to the
    caller. *)
Theorem search_pubmed_raises_on_numeric_id :
  decode_loads (canned_services numeric_idlist_body numeric_idlist)
    numeric_idlist_body = Return numeric_idlist
  /\ search_pubmed (canned_services numeric_idlist_body numeric_idlist)
       (lit "aspirin") MAX_RESULTS []
     = (Raise TypeError,
        [Urlopen
           (esearch_url
              (plain_urlencode (search_fields (lit "aspirin") MAX_RESULTS)))
           10;
         Sleep 400]).
Proof. split; vm_compute; reflexivity. Qed.

(** * Further properties of the code *)

(** ** Trimming *)

Lemma lstrip_by_split (p : char -> bool) (s : str) :
  exists a, s = a ++ lstrip_by p s.
Proof.
  induction s as [|c s (a & IH)]; [exists []; reflexivity|].
  cbn [lstrip_by]. destruct (p c).
  - exists (c :: a). cbn. congruence.
  - exists []. reflexivity.
Qed.

Lemma rstrip_by_split (p : char -> bool) (s : str) :
  exists b, s = rstrip_by p s ++ b.
Proof.
  induction s as [|c s (b & IH)]; [exists []; reflexivity|].
  cbn [rstrip_by]. destruct (rstrip_by p s) as [|x r].
  - destruct (p c).
    + exists (c :: s). reflexivity.
    + exists b. cbn. cbn in IH. congruence.
  - exists b. cbn. cbn in IH. congruence.
Qed.

Lemma strip_infix (s : str) : exists a b, s = a ++ strip s ++ b.
Proof.
  unfold strip, lstrip, rstrip.
  destruct (lstrip_by_split isspace s) as (a & Ha).
  destruct (rstrip_by_split isspace (lstrip_by isspace s)) as (b & Hb).
  exists a, b. rewrite <- Hb. exact Ha.
Qed.

Lemma lstrip_by_head (p : char -> bool) (s : str) (c : char) (t : str) :
  lstrip_by p s = c :: t -> p c = false.
Proof.
  induction s as [|x s IH]; [discriminate|]. cbn.
  destruct (p x) eqn:E; [exact IH|].
  intros H. injection H as <- _. exact E.
Qed.

Lemma rstrip_by_head (p : char -> bool) (c : char) (s : str) :
  rstrip_by p (c :: s) = [] \/ exists t, rstrip_by p (c :: s) = c :: t.
Proof.
  cbn. destruct (rstrip_by p s).
  - destruct (p c); [left; reflexivity | right; exists []; reflexivity].
  - right. eexists. reflexivity.
Qed.

Lemma rstrip_by_idem (p : char -> bool) (s : str) :
  rstrip_by p (rstrip_by p s) = rstrip_by p s.
Proof.
  induction s as [|c s IH]; [reflexivity|]. cbn [rstrip_by].
  destruct (rstrip_by p s) as [|x r] eqn:E.
  - destruct (p c) eqn:Ec; [reflexivity|]. cbn. rewrite Ec. reflexivity.
  - cbn [rstrip_by]. cbn [rstrip_by] in IH. rewrite IH. reflexivity.
Qed.

Lemma strip_idem (s : str) : strip (strip s) = strip s.
Proof.
  unfold strip, lstrip, rstrip.
  destruct (lstrip_by isspace s) as [|c t] eqn:E; [reflexivity|].
  pose proof (lstrip_by_head _ _ _ _ E) as Hc.
  destruct (rstrip_by_head isspace c t) as [H | (u & H)]; rewrite H.
  - reflexivity.
  - cbn [lstrip_by]. rewrite Hc. rewrite <- H. apply rstrip_by_idem.
Qed.

(** ** The field extractor *)

Lemma contains_find_after (p s : str) :
  contains p s = false -> find_after p s = None.
Proof.
  induction s as [|c s IH]; cbn [contains find_after]; unfold startswith;
    intros H; apply orb_false_iff in H; destruct H as [H1 H2].
  - destruct (strip_prefix p []); [discriminate | reflexivity].
  - destruct (strip_prefix p (c :: s)); [discriminate | exact (IH H2)].
Qed.

Lemma extract_section_absent (text tag : str) :
  contains (bracketed tag) text = false -> extract_section text tag = [].
Proof.
  intros H. rewrite extract_section_contract. unfold section_by_contract.
  rewrite (contains_find_after _ _ H). reflexivity.
Qed.

Lemma contains_no_bracket (p text : str) :
  has 91 text = false -> contains (91 :: p) text = false.
Proof.
  induction text as [|c text IH]; [reflexivity|].
  rewrite has_cons. intros H. apply orb_false_iff in H. destruct H as [Hc H].
  cbn [contains]. unfold startswith. cbn [strip_prefix]. rewrite Hc.
  exact (IH H).
Qed.

Lemma marker_at_app (s t : str) :
  marker_at s = true -> marker_at (s ++ t) = true.
Proof.
  intros H. apply marker_at_spec in H.
  destruct H as (name & rest & Hn & H93 & ->).
  apply marker_at_spec. exists name, (rest ++ t).
  split; [exact Hn|]. split; [exact H93|].
  cbn. rewrite <- app_assoc. reflexivity.
Qed.

(** What [extract_section] returns is a part of the text, in one piece,
    with no white space at either end, and no bracketed tag occurs in it. *)
Theorem extract_section_piece (text tag : str) :
  (exists before rest, text = before ++ extract_section text tag ++ rest)
  /\ strip (extract_section text tag) = extract_section text tag
  /\ (forall pre name post,
         extract_section text tag = pre ++ 91 :: name ++ 93 :: post ->
         name = [] \/ has 93 name = true).
Proof.
  rewrite extract_section_contract. unfold section_by_contract.
  destruct (find_after (bracketed tag) text) as [r|] eqn:E.
  2:{ split; [exists [], text; reflexivity|]. split; [reflexivity|].
      intros [|x pre] name post H; discriminate H. }
  destruct (find_after_first _ _ _ E) as (b & Eb & _).
  destruct (until_marker_spec r) as (rest & Er & _ & Hno).
  destruct (strip_infix (until_marker r)) as (a & c & Es).
  pose proof (strip_idem (until_marker r)) as Hidem.
  remember (strip (until_marker r)) as res eqn:Eres.
  remember (until_marker r) as u eqn:Eu. clear Eres Eu.
  subst u. subst r.
  split; [|split].
  - exists (b ++ bracketed tag ++ a), (c ++ rest).
    rewrite Eb, <- !app_assoc. reflexivity.
  - exact Hidem.
  - intros pre name post H.
    destruct name as [|x name]; [left; reflexivity|]. right.
    destruct (has 93 (x :: name)) eqn:Hn; [reflexivity|]. exfalso.
    subst res. unfold str, char in *.
    assert (L : lt (length (a ++ pre))
                  (length (a ++ (pre ++ 91 :: (x :: name) ++ 93 :: post)
                             ++ c))).
    { repeat (rewrite length_app || cbn [length]). lia. }
    specialize (Hno _ L).
    replace ((a ++ (pre ++ 91 :: (x :: name) ++ 93 :: post) ++ c) ++ rest)
      with ((a ++ pre)
              ++ (91 :: (x :: name) ++ 93 :: post) ++ c ++ rest) in Hno
      by (rewrite <- !app_assoc; reflexivity).
    rewrite skipn_app, Nat.sub_diag, skipn_all in Hno. cbn [skipn app] in Hno.
    assert (M : marker_at ((91 :: (x :: name) ++ 93 :: post) ++ c ++ rest)
                = true).
    { apply marker_at_app. apply marker_at_spec.
      exists (x :: name), post. split; [discriminate|].
      split; [exact Hn | reflexivity]. }
    cbn [app] in M. congruence.
Qed.

(** ** The list items *)

(** Every item of [extract_list_items] is non-empty and has no white space
    at either end. *)
Theorem extract_list_items_trimmed (rt : Runtime) (section_text : str) :
  Forall (fun item => item <> [] /\ strip item = item)
    (extract_list_items section_text).
Proof.
  rewrite extract_list_items_kept.
  assert (K : Forall (fun item => item <> [] /\ strip item = item)
                (flat_map line_item (splitlines section_text))).
  { apply Forall_flat_map. apply Forall_forall. intros line _.
    unfold line_item.
    destruct (startswith_any bullet_prefixes (strip line)); [|constructor].
    destruct (truthy (strip (lstrip_by is_bullet_char (strip line)))) eqn:T;
      cbn [andb]; [|constructor].
    destruct (negb _); constructor; [|constructor].
    split; [|apply strip_idem].
    intros H. rewrite H in T. discriminate. }
  destruct (flat_map line_item (splitlines section_text)) as [|i l];
    [|exact K].
  destruct (truthy (strip section_text)) eqn:T; cbn [andb]; [|constructor].
  destruct (negb _); constructor; [|constructor].
  split; [|apply strip_idem].
  intros H. rewrite H in T. discriminate.
Qed.

Lemma extract_section_piece_witness :
  extract_section (lit "[T] a [] b [U] c") (lit "T")
  = lit "a " ++ 91 :: [] ++ 93 :: lit " b"
  /\ ([] = ([] : str) \/ has 93 [] = true).
Proof.
  split; [reflexivity|].
  exact (proj2 (proj2 (extract_section_piece (lit "[T] a [] b [U] c")
                         (lit "T")))
           (lit "a ") [] (lit " b") eq_refl).
Defined.

(** ** The risk level *)

Lemma contains_app_r (p a b : str) :
  contains p b = true -> contains p (a ++ b) = true.
Proof.
  intros H. induction a as [|c a IH]; [exact H|].
  cbn [app contains]. rewrite IH. apply orb_true_r.
Qed.

Lemma contains_prefix (p b : str) : contains p (p ++ b) = true.
Proof.
  destruct (p ++ b) eqn:E; cbn [contains]; unfold startswith;
    rewrite <- E, strip_prefix_complete; reflexivity.
Qed.

Lemma startswith_app (p a b : str) :
  startswith p a = true -> startswith p (a ++ b) = true.
Proof.
  unfold startswith. destruct (strip_prefix p a) as [r|] eqn:E;
    [|discriminate].
  intros _. apply strip_prefix_sound in E. subst a.
  rewrite <- app_assoc, strip_prefix_complete. reflexivity.
Qed.

Lemma contains_app_l (p a b : str) :
  contains p a = true -> contains p (a ++ b) = true.
Proof.
  induction a as [|c a IH]; cbn [app contains]; intros H.
  - destruct p; [destruct b; reflexivity | discriminate H].
  - apply orb_true_iff in H. destruct H as [H|H].
    + pose proof (startswith_app p (c :: a) b H) as S.
      cbn [app] in S. rewrite S. reflexivity.
    + rewrite (IH H). apply orb_true_r.
Qed.

Lemma isascii_app (a b : str) :
  isascii (a ++ b) = isascii a && isascii b.
Proof. apply forallb_app. Qed.

Lemma resolve_risk_level_ascii (rt : Runtime) (t : str) :
  isascii t = true ->
  resolve_risk_level t
  = if contains (lit "safe") (List.map ascii_lower t) then lit "Safe"
    else if contains (lit "misleading") (List.map ascii_lower t)
         then lit "Misleading"
    else if contains (lit "dangerous") (List.map ascii_lower t)
         then lit "Dangerous"
    else lit "Misleading".
Proof.
  intros H. unfold resolve_risk_level, risk_levels. cbn [List.find].
  rewrite (lower_ascii t H).
  rewrite (lower_ascii (lit "Safe") eq_refl),
    (lower_ascii (lit "Misleading") eq_refl),
    (lower_ascii (lit "Dangerous") eq_refl).
  change (List.map ascii_lower (lit "Safe")) with (lit "safe").
  change (List.map ascii_lower (lit "Misleading")) with (lit "misleading").
  change (List.map ascii_lower (lit "Dangerous")) with (lit "dangerous").
  destruct (contains (lit "safe") (List.map ascii_lower t)); [reflexivity|].
  destruct (contains (lit "misleading") (List.map ascii_lower t));
    [reflexivity|].
  destruct (contains (lit "dangerous") (List.map ascii_lower t)); reflexivity.
Qed.

(** The risk level of an ASCII text is decided by which labels occur in it
    as substrings, whatever the case, in the order Safe, Misleading,
    Dangerous, and is Misleading where none occurs.  So a text in which
    "unsafe" occurs is Safe, whatever else it says. *)
Theorem resolve_risk_level_priority (rt : Runtime) (t : str) :
  isascii t = true ->
  resolve_risk_level t
  = (if contains (lit "safe") (List.map ascii_lower t) then lit "Safe"
     else if contains (lit "misleading") (List.map ascii_lower t)
          then lit "Misleading"
     else if contains (lit "dangerous") (List.map ascii_lower t)
          then lit "Dangerous"
     else lit "Misleading")
  /\ forall before after,
       t = before ++ lit "unsafe" ++ after ->
       resolve_risk_level t = lit "Safe".
Proof.
  intros H. split; [exact (resolve_risk_level_ascii rt t H)|].
  intros before after E. rewrite (resolve_risk_level_ascii rt t H).
  assert (C : contains (lit "safe") (List.map ascii_lower t) = true).
  { rewrite E, !map_app. apply contains_app_r, contains_app_l. reflexivity. }
  rewrite C. reflexivity.
Qed.

Lemma resolve_risk_level_priority_witness :
  isascii (lit "Unsafe and dangerous") = true
  /\ resolve_risk_level (rt := ascii_tables) (lit "unsafe and dangerous")
     = lit "Safe"
  /\ resolve_risk_level (rt := ascii_tables) (lit "Unsafe and dangerous")
     = lit "Safe".
Proof.
  split; [reflexivity|]. split.
  - exact (proj2 (resolve_risk_level_priority ascii_tables
                    (lit "unsafe and dangerous") eq_refl)
             [] (lit " and dangerous") eq_refl).
  - rewrite (proj1 (resolve_risk_level_priority ascii_tables
                      (lit "Unsafe and dangerous") eq_refl)).
    reflexivity.
Defined.

(** ** Replies that miss the format *)

Lemma lstrip_by_all (p : char -> bool) (s : str) :
  forallb p s = true -> lstrip_by p s = [].
Proof.
  induction s as [|c s IH]; [reflexivity|]. cbn.
  intros H. apply andb_true_iff in H. destruct H as [-> H]. exact (IH H).
Qed.

Lemma extract_score_no_digit (rt : Runtime) (s : str) :
  forallb (notp isdecimal) s = true -> extract_score s = Return 50%Z.
Proof.
  intros H. rewrite extract_score_scan. unfold integer_tokens.
  rewrite tokens_from_nil, (lstrip_by_all _ _ H). reflexivity.
Qed.

(** A text with no decimal digit scores the default 50, and so does every
    reply that is not blank and has no Credibility Score tag. *)
Theorem extract_score_default (rt : Runtime) :
  (forall score_text,
      forallb (notp isdecimal) score_text = true ->
      extract_score score_text = Return 50%Z)
  /\ (forall raw_text,
        blank raw_text = false ->
        contains (bracketed (lit "Credibility Score")) raw_text = false ->
        exists r,
          parse_model_output raw_text = Return r
          /\ credibility_score r = 50%Z).
Proof.
  split; [exact (extract_score_no_digit rt)|].
  intros raw_text B C. eexists.
  rewrite (parse_model_output_text raw_text B). unfold score_section.
  rewrite (extract_section_absent _ _ C).
  rewrite (extract_score_no_digit rt [] eq_refl).
  split; reflexivity.
Qed.

Lemma extract_score_default_witness :
  forallb (notp (isdecimal (rt := ascii_tables))) (lit "very high") = true
  /\ extract_score (rt := ascii_tables) (lit "very high") = Return 50%Z
  /\ blank (lit "[Risk Level] Safe, score 90") = false
  /\ contains (bracketed (lit "Credibility Score"))
       (lit "[Risk Level] Safe, score 90") = false
  /\ exists r,
       parse_model_output (rt := ascii_tables)
         (lit "[Risk Level] Safe, score 90") = Return r
       /\ credibility_score r = 50%Z.
Proof.
  split; [reflexivity|].
  split;
    [exact (proj1 (extract_score_default ascii_tables) (lit "very high")
              eq_refl)|].
  split; [reflexivity|]. split; [reflexivity|].
  exact (proj2 (extract_score_default ascii_tables)
           (lit "[Risk Level] Safe, score 90") eq_refl eq_refl).
Defined.

Lemma extract_section_no_bracket (text tag : str) :
  has 91 text = false -> extract_section text tag = [].
Proof.
  intros H. apply extract_section_absent.
  exact (contains_no_bracket (tag ++ lit "]") text H).
Qed.

(** A reply that is not blank and has no opening bracket gives the record
    of fallbacks: score 50, risk level Misleading, the placeholder texts,
    the first 500 characters of the reply as medical accuracy, no list
    item, and the reply itself as raw output. *)
Theorem parse_model_output_untagged (rt : Runtime) (raw_text : str) :
  blank raw_text = false ->
  has 91 raw_text = false ->
  parse_model_output raw_text = Return (fallback_record raw_text).
Proof.
  intros B H. rewrite (parse_model_output_text raw_text B).
  unfold score_section, reply_record.
  rewrite !(extract_section_no_bracket raw_text _ H).
  rewrite (extract_score_no_digit rt [] eq_refl).
  rewrite (resolve_risk_level_ascii rt [] eq_refl).
  rewrite (extract_list_items_ascii [] eq_refl).
  reflexivity.
Qed.

Lemma parse_model_output_untagged_witness :
  blank (lit "I cannot help with that.") = false
  /\ has 91 (lit "I cannot help with that.") = false
  /\ parse_model_output (rt := ascii_tables) (lit "I cannot help with that.")
     = Return (fallback_record (lit "I cannot help with that.")).
Proof.
  split; [reflexivity|]. split; [reflexivity|].
  exact (parse_model_output_untagged ascii_tables
           (lit "I cannot help with that.") eq_refl eq_refl).
Defined.

(** ** The prompt *)

(** The messages are a system message and a user message; the text of the
    user message holds the claim as it is, and asks for each of the nine
    tags that [parse_model_output] looks for. *)
Theorem build_messages_format (health_claim : str) :
  List.map (fun m => (role m, List.map ptext (content m)))
    (build_messages health_claim)
  = [ (lit "system", [system_text]);
      (lit "user", [user_text health_claim]) ]
  /\ (exists before after,
         user_text health_claim = before ++ health_claim ++ after)
  /\ Forall (fun tag => contains (bracketed tag) (user_text health_claim)
                        = true)
       section_tags.
Proof.
  split; [reflexivity|]. split.
  - unfold user_text.
    match goal with
    | |- exists before after,
           ?p1 ++ ?p2 ++ ?p3 ++ ?p4 ++ health_claim ++ ?r = _ =>
        exists (p1 ++ p2 ++ p3 ++ p4), r
    end.
    rewrite <- !app_assoc. reflexivity.
  - unfold user_text, section_tags.
    repeat (apply Forall_cons;
            [do 5 (apply contains_app_r); vm_compute; reflexivity|]).
    apply Forall_nil.
Qed.

(** ** Draining the generator *)

Lemma consume_suspended (eng : engine) (pending : list str) :
  forall fuel,
    (length pending < fuel)%nat ->
    consume fuel eng (Suspended pending) = ([ThreadJoin], pending, Completed).
Proof.
  induction pending as [|t rest IH]; intros [|fuel] H; cbn in H; try lia.
  - reflexivity.
  - cbn [consume next stream_step]. rewrite IH by lia. reflexivity.
Qed.

Lemma consume_created (eng : engine) (claim : str) (fuel : nat) :
  blank claim = false ->
  load_model eng = Return tt ->
  (length (fragments eng (build_messages (strip claim))) < fuel)%nat ->
  consume fuel eng (analyze_health_claim_stream claim)
  = ([LoadModel; BuildMessages (strip claim);
      ApplyChatTemplate (build_messages (strip claim));
      CreateStreamer; ThreadStart; ThreadJoin],
     fragments eng (build_messages (strip claim)), Completed).
Proof.
  intros B L F. destruct fuel as [|fuel]; [lia|].
  unfold analyze_health_claim_stream. cbn [consume next].
  rewrite blank_condition, B, L.
  destruct (fragments eng (build_messages (strip claim))) as [|t rest].
  - reflexivity.
  - cbn [stream_step]. cbn in F.
    rewrite consume_suspended by lia. reflexivity.
Qed.

(** A loop over the generator of a claim that is not blank, once the model
    is loaded, gets exactly the fragments of the streamer, in their order,
    and ends normally; the work done is the model load, the messages, the
    template, the streamer, one thread start and, after the last fragment,
    one join.  Any fuel above the number of fragments is enough. *)
Theorem consume_yields_fragments (eng : engine) (claim : str) (fuel : nat) :
  blank claim = false ->
  load_model eng = Return tt ->
  (length (fragments eng (build_messages (strip claim))) < fuel)%nat ->
  consume fuel eng (analyze_health_claim_stream claim)
  = ([LoadModel; BuildMessages (strip claim);
      ApplyChatTemplate (build_messages (strip claim));
      CreateStreamer; ThreadStart; ThreadJoin],
     fragments eng (build_messages (strip claim)), Completed)
  /\ exhaust eng (analyze_health_claim_stream claim)
     = consume fuel eng (analyze_health_claim_stream claim).
Proof.
  intros B L F. rewrite (consume_created eng claim fuel B L F).
  split; [reflexivity|].
  unfold exhaust. apply consume_created; [exact B | exact L|].
  unfold analyze_health_claim_stream, remaining. lia.
Qed.

Lemma consume_yields_fragments_witness :
  blank (lit " Garlic cures flu ") = false
  /\ load_model echo_engine = Return tt
  /\ consume 2 echo_engine (analyze_health_claim_stream (lit " Garlic cures flu "))
     = ([LoadModel; BuildMessages (lit "Garlic cures flu");
         ApplyChatTemplate (build_messages (lit "Garlic cures flu"));
         CreateStreamer; ThreadStart; ThreadJoin],
        [lit "ok"], Completed).
Proof.
  split; [reflexivity|]. split; [reflexivity|].
  exact (proj1 (consume_yields_fragments echo_engine (lit " Garlic cures flu ")
                  2 eq_refl eq_refl (le_n 2))).
Defined.

(** ** The analysis run of the page *)

Lemma strip_truthy_blank (s : str) : negb (truthy (strip s)) = blank s.
Proof.
  destruct (blank s) eqn:B.
  - apply strip_nil_iff in B. rewrite B. reflexivity.
  - destruct (strip s) eqn:E; [|reflexivity].
    apply strip_nil_iff in E. congruence.
Qed.

(** The run behind the Analyze button.  A blank input is answered with the
    warning and the generator is never resumed.  If the model fails to
    load, that error is shown and no thread has been started.  Otherwise
    the fragments are concatenated in order and parsed, the thread having
    been joined.  The call of the parser stands outside the [try] of the
    page: the page gets the record the parser returns, the fixed failure
    record for a stream with no text, and where the parser raises, which
    it does only with the [ValueError] of a number of more than 4300
    digits in the score section, the exception leaves the page
    unhandled. *)
Theorem analysis_run_outcomes (rt : Runtime) (eng : engine)
  (user_input : str) :
  (blank user_input = true -> analysis_run eng user_input = Warned)
  /\ (blank user_input = false ->
      forall e, load_model eng = Raise e ->
                analysis_run eng user_input = AnalysisFailed e [LoadModel])
  /\ (blank user_input = false ->
      load_model eng = Return tt ->
      analysis_run eng user_input
      = match parse_model_output (streamed_text eng user_input) with
        | Return r => Parsed r (stream_work user_input)
        | Raise e => Crashed e
        end
      /\ (blank (streamed_text eng user_input) = true ->
          analysis_run eng user_input
          = Parsed failure_record (stream_work user_input))
      /\ (all_convertible (score_section (streamed_text eng user_input))
          = true ->
          exists r,
            parse_model_output (streamed_text eng user_input) = Return r
            /\ analysis_run eng user_input
               = Parsed r (stream_work user_input))
      /\ (forall e,
            analysis_run eng user_input = Crashed e ->
            e = ValueError
            /\ parse_model_output (streamed_text eng user_input)
               = Raise ValueError
            /\ all_convertible (score_section (streamed_text eng user_input))
               = false)).
Proof.
  unfold analysis_run. rewrite strip_truthy_blank.
  split; [intros ->; reflexivity|]. split.
  - intros B e L. rewrite B. unfold exhaust, analyze_health_claim_stream.
    cbn [consume next]. rewrite blank_condition, B, L. reflexivity.
  - intros B L. rewrite B.
    unfold exhaust.
    rewrite (consume_created eng user_input _ B L)
      by (unfold analyze_health_claim_stream, remaining; lia).
    fold (streamed_text eng user_input). fold (stream_work user_input).
    split; [reflexivity|]. split; [|split].
    + intros Bc. rewrite (parse_model_output_blank _ Bc). reflexivity.
    + intros Hc.
      destruct (blank (streamed_text eng user_input)) eqn:Bc.
      * rewrite (parse_model_output_blank _ Bc). eauto.
      * rewrite (parse_model_output_converts _ Bc Hc). eauto.
    + intros e.
      destruct (parse_model_output (streamed_text eng user_input))
        as [r|e'] eqn:E; [discriminate|].
      intros [= ->].
      destruct (parse_model_output_exception _ _ E) as (-> & _ & Hc).
      repeat split. exact Hc.
Qed.

Lemma analysis_run_outcomes_witness :
  blank (lit "  ") = true
  /\ analysis_run (rt := ascii_tables) echo_engine (lit "  ") = Warned
  /\ blank (lit "Garlic cures flu") = false
  /\ load_model broken_engine = Raise (OtherException (lit "OSError"))
  /\ analysis_run (rt := ascii_tables) broken_engine (lit "Garlic cures flu")
     = AnalysisFailed (OtherException (lit "OSError")) [LoadModel]
  /\ load_model silent_engine = Return tt
  /\ blank (streamed_text silent_engine (lit "Garlic cures flu")) = true
  /\ analysis_run (rt := ascii_tables) silent_engine (lit "Garlic cures flu")
     = Parsed failure_record (stream_work (lit "Garlic cures flu"))
  /\ load_model echo_engine = Return tt
  /\ all_convertible (rt := ascii_tables)
       (score_section (streamed_text echo_engine (lit "Garlic cures flu")))
     = true
  /\ (exists r,
        parse_model_output (rt := ascii_tables)
          (streamed_text echo_engine (lit "Garlic cures flu")) = Return r
        /\ analysis_run (rt := ascii_tables) echo_engine
             (lit "Garlic cures flu")
           = Parsed r (stream_work (lit "Garlic cures flu")))
  /\ load_model long_number_engine = Return tt
  /\ analysis_run (rt := ascii_tables) long_number_engine
       (lit "Garlic cures flu")
     = Crashed ValueError
  /\ parse_model_output (rt := ascii_tables)
       (streamed_text long_number_engine (lit "Garlic cures flu"))
     = Raise ValueError.
Proof.
  destruct (analysis_run_outcomes ascii_tables echo_engine (lit "  "))
    as (W & _ & _).
  destruct (analysis_run_outcomes ascii_tables broken_engine
              (lit "Garlic cures flu")) as (_ & F & _).
  destruct (analysis_run_outcomes ascii_tables silent_engine
              (lit "Garlic cures flu")) as (_ & _ & P).
  destruct (analysis_run_outcomes ascii_tables echo_engine
              (lit "Garlic cures flu")) as (_ & _ & Q).
  destruct (analysis_run_outcomes ascii_tables long_number_engine
              (lit "Garlic cures flu")) as (_ & _ & R).
  split; [reflexivity|]. split; [exact (W eq_refl)|].
  split; [reflexivity|]. split; [reflexivity|].
  split; [exact (F eq_refl _ eq_refl)|].
  split; [reflexivity|]. split; [reflexivity|].
  split; [exact (proj1 (proj2 (P eq_refl eq_refl)) eq_refl)|].
  split; [reflexivity|]. split; [reflexivity|].
  split; [exact (proj1 (proj2 (proj2 (Q eq_refl eq_refl))) eq_refl)|].
  split; [reflexivity|].
  assert (C : analysis_run (rt := ascii_tables) long_number_engine
                (lit "Garlic cures flu") = Crashed ValueError)
    by (vm_compute; reflexivity).
  split; [exact C|].
  exact (proj1 (proj2 (proj2 (proj2 (proj2 (R eq_refl eq_refl))) _ C))).
Defined.

(** ** The fields of a record *)

Lemma article_record_abstract (article : element) (r : paper) :
  article_record article = Return r ->
  abstract r
  = if (length (abstract_text article) <? 300)%nat
    then abstract_text article
    else firstn 300 (abstract_text article) ++ lit "...".
Proof.
  intros E.
  assert (A : abstract r
              = let a := slice_to 300 (abstract_text article) in
                if (length a =? 300)%nat then a ++ lit "..." else a).
  { unfold article_record in E. injection E as <-. reflexivity. }
  rewrite A. clear A E. cbv zeta. unfold slice_to.
  destruct (length (abstract_text article) <? 300)%nat eqn:L.
  - apply Nat.ltb_lt in L.
    rewrite (firstn_all2 (n := 300) (abstract_text article)) by lia.
    destruct (length (abstract_text article) =? 300)%nat eqn:L2;
      [apply Nat.eqb_eq in L2; lia | reflexivity].
  - apply Nat.ltb_ge in L.
    rewrite (length_firstn 300 (abstract_text article)), Nat.min_l
      by exact L.
    reflexivity.
Qed.

(** The abstract of every record returned is the joined text of the
    AbstractText elements where that has fewer than 300 characters, and
    otherwise its first 300 characters followed by "...", also where it
    has exactly 300; so it never has more than 303 characters. *)
Theorem parse_pubmed_xml_abstract (sv : services)
  (xml_data : list Byte.byte) (records : list paper) (r : paper) :
  parse_pubmed_xml sv xml_data = Return records ->
  In r records ->
  exists article,
    article_record article = Return r
    /\ abstract r
       = (if (length (abstract_text article) <? 300)%nat
          then abstract_text article
          else firstn 300 (abstract_text article) ++ lit "...")
    /\ (length (abstract r) <= 303)%nat.
Proof.
  intros Hp Hin.
  destruct (parse_pubmed_xml_source sv xml_data records r Hp Hin)
    as (root & article & _ & _ & Hr).
  exists article. split; [exact Hr|].
  pose proof (article_record_abstract article r Hr) as E.
  split; [exact E|]. rewrite E.
  destruct (length (abstract_text article) <? 300)%nat eqn:L.
  - apply Nat.ltb_lt in L. lia.
  - rewrite length_app, length_firstn.
    change (length (lit "...")) with 3%nat. lia.
Qed.

Lemma parse_pubmed_xml_abstract_witness :
  exists records r,
    parse_pubmed_xml (document_services dated_response)
      (encode_ascii (to_xml dated_response)) = Return records
    /\ In r records
    /\ N.of_nat (length (abstract_text dated_article)) = 401
    /\ abstract r = firstn 300 (abstract_text dated_article) ++ lit "..."
    /\ (length (abstract r) <= 303)%nat.
Proof.
  destruct (article_record_total dated_article) as (r & Hr).
  exists (parse_articles dated_response), r.
  assert (Hp : parse_pubmed_xml (document_services dated_response)
                 (encode_ascii (to_xml dated_response))
               = Return (parse_articles dated_response)) by reflexivity.
  assert (Hin : In r (parse_articles dated_response)).
  { unfold article_record in Hr. injection Hr as <-. left. reflexivity. }
  split; [exact Hp|].
  split; [exact Hin|]. split; [vm_compute; reflexivity|].
  destruct (parse_pubmed_xml_abstract _ _ _ r Hp Hin)
    as (article & Ha & _ & L).
  split; [|exact L].
  rewrite (article_record_abstract dated_article r Hr). reflexivity.
Defined.

(** In every record returned the year is not empty: it is the text of the
    first PubDate/Year where that is not empty, and otherwise has at most
    four characters (the head of the MedlineDate, or "N/A").  The link is
    empty exactly when the identifier is missing or empty, and otherwise
    the identifier can be read back from it. *)
Theorem parse_pubmed_xml_year_and_link (sv : services)
  (xml_data : list Byte.byte) (records : list paper) (r : paper) :
  parse_pubmed_xml sv xml_data = Return records ->
  In r records ->
  exists article,
    article_record article = Return r
    /\ year r <> []
    /\ match findtext_opt
               (findall_deep2 (lit "PubDate") (lit "Year") article) with
       | Some (c :: y) => year r = c :: y
       | _ => (length (year r) <= 4)%nat
       end
    /\ match pmid r with
       | Some (c :: p) =>
           strip_prefix (lit "https://pubmed.ncbi.nlm.nih.gov/") (url r)
           = Some ((c :: p) ++ lit "/")
       | _ => url r = []
       end.
Proof.
  intros Hp Hin.
  destruct (parse_pubmed_xml_source sv xml_data records r Hp Hin)
    as (root & article & _ & _ & Hr).
  exists article. split; [exact Hr|].
  unfold article_record in Hr. injection Hr as <-. cbn [year pmid url].
  split; [|split].
  - destruct (findtext_opt _) as [[|c y]|];
      try discriminate; apply py_or_nonempty; discriminate.
  - destruct (findtext_opt _) as [[|c y]|]; try reflexivity;
      unfold py_or, slice_to;
      match goal with
      | |- context [truthy ?m] =>
          pose proof (firstn_le_length 4
                        (findtext
                           (findall_deep2 (lit "PubDate") (lit "MedlineDate")
                              article) []));
          destruct (truthy m); [assumption | cbn; lia]
      end.
  - destruct (match hd_error (findall_deep (lit "PMID") article) with
              | Some el => etext el
              | None => Some []
              end) as [[|c p]|]; reflexivity.
Qed.

Lemma parse_pubmed_xml_year_and_link_witness :
  exists records r,
    parse_pubmed_xml (document_services dated_response)
      (encode_ascii (to_xml dated_response)) = Return records
    /\ In r records
    /\ year r = lit "2021"
    /\ pmid r = Some (lit "333")
    /\ strip_prefix (lit "https://pubmed.ncbi.nlm.nih.gov/") (url r)
       = Some (lit "333/").
Proof.
  destruct (article_record_total dated_article) as (r & Hr).
  exists (parse_articles dated_response), r.
  assert (Hp : parse_pubmed_xml (document_services dated_response)
                 (encode_ascii (to_xml dated_response))
               = Return (parse_articles dated_response)) by reflexivity.
  assert (Hin : In r (parse_articles dated_response)).
  { unfold article_record in Hr. injection Hr as <-. left. reflexivity. }
  split; [exact Hp|].
  split; [exact Hin|].
  destruct (parse_pubmed_xml_year_and_link _ _ _ r Hp Hin)
    as (article & _ & _ & _ & Hl).
  assert (Hy : year r = lit "2021")
    by (unfold article_record in Hr; injection Hr as <-; reflexivity).
  assert (Hi : pmid r = Some (lit "333"))
    by (unfold article_record in Hr; injection Hr as <-; reflexivity).
  split; [exact Hy|]. split; [exact Hi|].
  rewrite Hi in Hl. exact Hl.
Defined.

(** An article with none of the elements that are looked up gives the
    record of defaults: title "N/A", authors "Unknown", journal "Unknown
    Journal", year "N/A", and an empty identifier, abstract and link. *)
Theorem article_record_defaults (article : element) :
  findall_deep (lit "ArticleTitle") article = [] ->
  findall_deep (lit "Author") article = [] ->
  findall_deep (lit "Journal") article = [] ->
  findall_deep (lit "PubDate") article = [] ->
  findall_deep (lit "PMID") article = [] ->
  findall_deep (lit "AbstractText") article = [] ->
  article_record article
  = Return {| title := lit "N/A";
              authors := lit "Unknown";
              journal := lit "Unknown Journal";
              year := lit "N/A";
              pmid := Some [];
              abstract := [];
              url := [] |}.
Proof.
  intros H1 H2 H3 H4 H5 H6.
  unfold article_record, article_authors, findall_deep2.
  rewrite H1, H2, H3, H4, H5, H6. reflexivity.
Qed.

Lemma article_record_defaults_witness :
  findall_deep (lit "ArticleTitle") empty_article = []
  /\ article_record empty_article
     = Return {| title := lit "N/A";
                 authors := lit "Unknown";
                 journal := lit "Unknown Journal";
                 year := lit "N/A";
                 pmid := Some [];
                 abstract := [];
                 url := [] |}.
Proof.
  split; [reflexivity|].
  apply article_record_defaults; reflexivity.
Defined.

(** ** The requests of a search *)

Ltac io_case t := destruct t eqn:?; cbv beta iota; cbn [negb].

Lemma all_strings_error (l : list json) (e : exn) :
  all_strings l = Raise e -> e = TypeError.
Proof.
  induction l as [|x l IH]; [discriminate|].
  destruct x; cbn; try congruence.
  destruct (all_strings l); cbn; [discriminate|].
  intros H. injection H as <-. apply IH. reflexivity.
Qed.

Lemma join_json_error (sep : str) (v : json) (e : exn) :
  join_json sep v = Raise e -> e = TypeError.
Proof.
  destruct v; cbn; try congruence.
  destruct (all_strings l) eqn:E; cbn; [discriminate|].
  intros H. injection H as <-. exact (all_strings_error l e0 E).
Qed.

Lemma search_pubmed_shape (sv : services) (query : str) (max_results : Z)
  (log : list net_event) :
  exists out evs,
    search_pubmed sv query max_results log = (out, log ++ evs)
    /\ ((exists e,
           urlencode sv (search_fields query max_results) = Raise e
           /\ evs = [] /\ out = Raise e)
        \/ exists search_params,
             urlencode sv (search_fields query max_results)
             = Return search_params
             /\ ((evs = [esearch_request search_params] /\ out = Return [])
                 \/ (evs = [esearch_request search_params; Sleep 400]
                     /\ (out = Raise TypeError
                         \/ exists ids e,
                              urlencode sv (fetch_fields ids) = Raise e
                              /\ out = Raise e))
                 \/ (exists ids fetch_params,
                        urlencode sv (fetch_fields ids) = Return fetch_params
                        /\ evs = [esearch_request search_params; Sleep 400;
                                  efetch_request fetch_params]
                        /\ out
                           = match urlopen_read sv (efetch_url fetch_params)
                                     15 with
                             | Return xml_data => parse_pubmed_xml sv xml_data
                             | Raise _ => Return []
                             end))).
Proof.
  unfold esearch_request, efetch_request. io_unfold.
  io_case (urlencode sv (search_fields query max_results));
    [|exists (Raise e), []; split; [rewrite app_nil_r; reflexivity|];
      left; exists e; repeat split].
  assert (Stop : forall out : outcome (list paper),
             out = Return [] ->
             exists out' evs,
               (out, log ++ [Urlopen (esearch_url a) 10]) = (out', log ++ evs)
               /\ ((exists e, Return a = Raise e /\ evs = [] /\ out' = Raise e)
                   \/ exists search_params,
                        Return a = Return search_params
                        /\ ((evs = [Urlopen (esearch_url search_params) 10]
                             /\ out' = Return [])
                            \/ (evs = [Urlopen (esearch_url search_params) 10;
                                       Sleep 400]
                                /\ (out' = Raise TypeError
                                    \/ exists ids e,
                                         urlencode sv (fetch_fields ids)
                                         = Raise e /\ out' = Raise e))
                            \/ (exists ids fetch_params,
                                   urlencode sv (fetch_fields ids)
                                   = Return fetch_params
                                   /\ evs
                                      = [Urlopen (esearch_url search_params) 10;
                                         Sleep 400;
                                         Urlopen (efetch_url fetch_params) 15]
                                   /\ out'
                                      = match urlopen_read sv
                                                (efetch_url fetch_params) 15
                                        with
                                        | Return xml_data =>
                                            parse_pubmed_xml sv xml_data
                                        | Raise _ => Return []
                                        end)))).
  { intros out ->. eexists _, _. split; [reflexivity|].
    right. exists a. split; [reflexivity|]. left. split; reflexivity. }
  io_case (urlopen_read sv (esearch_url a) 10); [|apply Stop; reflexivity].
  io_case (decode_loads sv a0); [|apply Stop; reflexivity].
  io_case (json_get a1 (lit "esearchresult") (JDict []));
    [|apply Stop; reflexivity].
  io_case (json_get a2 (lit "idlist") (JList []));
    [|apply Stop; reflexivity].
  io_case (json_truthy a3); [|apply Stop; reflexivity].
  clear Stop.
  io_case (join_json (lit ",") a3).
  - io_case (urlencode sv (fetch_fields a4)).
    + destruct (urlopen_read sv (efetch_url a5) 15) as [xml|e'] eqn:F;
        cbv beta iota;
        (eexists _, _; split; [rewrite <- !app_assoc; reflexivity|];
         right; exists a; split; [reflexivity|]; right; right;
         exists a4, a5; split; [assumption|]; split; [reflexivity|];
         rewrite F; reflexivity).
    + eexists _, _. split; [rewrite <- !app_assoc; reflexivity|].
      right. exists a. split; [reflexivity|]. right. left.
      split; [reflexivity|]. right. exists a4, e. split; [assumption|].
      reflexivity.
  - eexists _, _. split; [rewrite <- !app_assoc; reflexivity|].
    right. exists a. split; [reflexivity|]. right. left.
    split; [reflexivity|]. left. f_equal.
    eapply join_json_error. eassumption.
Qed.

(** Whatever the network and the libraries do, [search_pubmed], and with it
    [get_evidence_for_claim], sends nothing where the encoding of the
    search parameters raises, and that exception leaves the function;
    otherwise it sends the id-search first and at most one more request,
    the detail-fetch, which always comes after the pause of 0.4 s.  With
    the id-search alone the result is the empty list.  After the pause and
    before any detail-fetch, the [TypeError] of the join and the exception
    of the second encoding leave the function.  After the detail-fetch the
    result is the empty list where that request failed, and otherwise what
    [parse_pubmed_xml] returns or raises.  A query that is a lone
    surrogate raises [UnicodeEncodeError] with nothing sent, and an answer
    in an unknown encoding raises [LookupError] after both requests. *)
Theorem search_pubmed_requests (rt : Runtime) (sv : services)
  (log : list net_event) :
  (forall query max_results,
      exists out evs,
        search_pubmed sv query max_results log = (out, log ++ evs)
        /\ ((exists e,
               urlencode sv (search_fields query max_results) = Raise e
               /\ evs = [] /\ out = Raise e)
            \/ exists search_params,
                 urlencode sv (search_fields query max_results)
                 = Return search_params
                 /\ ((evs = [esearch_request search_params]
                      /\ out = Return [])
                     \/ (evs = [esearch_request search_params; Sleep 400]
                         /\ (out = Raise TypeError
                             \/ exists ids e,
                                  urlencode sv (fetch_fields ids) = Raise e
                                  /\ out = Raise e))
                     \/ (exists ids fetch_params,
                            urlencode sv (fetch_fields ids)
                            = Return fetch_params
                            /\ evs = [esearch_request search_params;
                                      Sleep 400;
                                      efetch_request fetch_params]
                            /\ out
                               = match urlopen_read sv
                                         (efetch_url fetch_params) 15 with
                                 | Return xml_data =>
                                     parse_pubmed_xml sv xml_data
                                 | Raise _ => Return []
                                 end))))
  /\ (forall health_claim,
        exists out evs,
          get_evidence_for_claim sv health_claim log = (out, log ++ evs)
          /\ (length evs <= 3)%nat
          /\ match urlencode sv
                     (search_fields (extract_keywords health_claim) 5) with
             | Return search_params =>
                 hd_error evs = Some (esearch_request search_params)
             | Raise e => evs = [] /\ out = Raise e
             end)
  /\ search_pubmed (canned_services string_idlist_body string_idlist)
       surrogate_query 5 []
     = (Raise UnicodeEncodeError, [])
  /\ (exists url1 url2,
         search_pubmed
           (unknown_encoding
              (canned_services string_idlist_body string_idlist))
           (lit "aspirin") 5 []
         = (Raise LookupError, [Urlopen url1 10; Sleep 400; Urlopen url2 15])).
Proof.
  split; [intros; apply search_pubmed_shape|].
  split.
  - intros health_claim. unfold get_evidence_for_claim, MAX_RESULTS.
    destruct (search_pubmed_shape sv (extract_keywords health_claim) 5 log)
      as (out & evs & E
          & [(e & He & -> & Ho)
            | (sp & Hsp
               & [[-> _] | [[-> _] | (ids & fp & _ & -> & _)]])]);
      exists out; eexists; (split; [exact E|]);
      (split; [cbn; lia|]);
      first [rewrite He; split; [reflexivity | exact Ho]
            | rewrite Hsp; reflexivity].
  - split; [vm_compute; reflexivity|].
    do 2 eexists. vm_compute. reflexivity.
Qed.

Lemma all_strings_map (l : list str) : all_strings (List.map JStr l) = Return l.
Proof.
  induction l as [|x l IH]; [reflexivity|]. cbn. rewrite IH. reflexivity.
Qed.

(** Where the encoding of the search parameters raises, [search_pubmed]
    raises the same having sent nothing.  Where it returns, unless the
    id-search yields an idlist that is truthy (a network or decoding
    failure, an answer that is not a dict, a missing key, an empty list,
    null), [search_pubmed] returns the empty list having sent the
    id-search only: no pause, no detail-fetch. *)
Theorem search_pubmed_without_ids (sv : services) (query : str)
  (max_results : Z) (log : list net_event) :
  (forall e,
      urlencode sv (search_fields query max_results) = Raise e ->
      search_pubmed sv query max_results log = (Raise e, log))
  /\ (forall search_params,
        urlencode sv (search_fields query max_results)
        = Return search_params ->
        match idlist_phase sv search_params with
        | Return v => json_truthy v = false
        | Raise _ => True
        end ->
        search_pubmed sv query max_results log
        = (Return [], log ++ [esearch_request search_params])).
Proof.
  split; [intros e; apply search_pubmed_encode_failure|].
  intros search_params Hsp.
  unfold idlist_phase, esearch_request. io_unfold. io_step Hsp. intros H.
  io_case (urlopen_read sv (esearch_url search_params) 10);
    [|reflexivity].
  cbn [obind] in H.
  io_case (decode_loads sv a); [|reflexivity]. cbn [obind] in H.
  io_case (json_get a0 (lit "esearchresult") (JDict [])); [|reflexivity].
  cbn [obind] in H.
  io_case (json_get a1 (lit "idlist") (JList [])); [|reflexivity].
  rewrite H. reflexivity.
Qed.

Lemma search_pubmed_without_ids_witness :
  urlencode (canned_services [] (JDict [])) (search_fields (lit "aspirin") 5)
  = Return (plain_urlencode (search_fields (lit "aspirin") 5))
  /\ idlist_phase (canned_services [] (JDict []))
       (plain_urlencode (search_fields (lit "aspirin") 5))
     = Return (JList [])
  /\ search_pubmed (canned_services [] (JDict [])) (lit "aspirin") 5 []
     = (Return [],
        [] ++ [esearch_request
                 (plain_urlencode (search_fields (lit "aspirin") 5))])
  /\ urlencode (canned_services [] (JDict [])) (search_fields surrogate_query 5)
     = Raise UnicodeEncodeError
  /\ search_pubmed (canned_services [] (JDict [])) surrogate_query 5 []
     = (Raise UnicodeEncodeError, []).
Proof.
  split; [reflexivity|].
  split; [reflexivity|].
  split.
  - apply (proj2 (search_pubmed_without_ids (canned_services [] (JDict []))
                    (lit "aspirin") 5 [])
             (plain_urlencode (search_fields (lit "aspirin") 5)));
      reflexivity.
  - split; [reflexivity|].
    apply (proj1 (search_pubmed_without_ids (canned_services [] (JDict []))
                    surrogate_query 5 [])).
    reflexivity.
Defined.

(** When the search parameters are encoded and the id-search yields a
    non-empty list of identifiers that are strings, [search_pubmed] pauses
    and encodes the parameters of the detail-fetch, the identifiers joined
    by commas; where that encoding raises, the exception leaves the
    function and no detail-fetch is sent.  Otherwise it fetches the
    details of all of them in one request and ends as [parse_pubmed_xml]
    does on the answer, with its records or with the exception it lets
    through, or with the empty list if that request fails. *)
Theorem search_pubmed_detail_fetch (sv : services) (query : str)
  (max_results : Z) (log : list net_event) (ids : list str)
  (search_params : str) :
  ids <> [] ->
  urlencode sv (search_fields query max_results) = Return search_params ->
  idlist_phase sv search_params = Return (JList (List.map JStr ids)) ->
  search_pubmed sv query max_results log
  = match urlencode sv (fetch_fields (join (lit ",") ids)) with
    | Raise e =>
        (Raise e, log ++ [esearch_request search_params; Sleep 400])
    | Return fetch_params =>
        (match urlopen_read sv (efetch_url fetch_params) 15 with
         | Return xml_data => parse_pubmed_xml sv xml_data
         | Raise _ => Return []
         end,
         log ++ [esearch_request search_params; Sleep 400;
                 efetch_request fetch_params])
    end.
Proof.
  unfold idlist_phase, esearch_request, efetch_request. io_unfold.
  intros Hne Hsp H. io_step Hsp.
  io_case (urlopen_read sv (esearch_url search_params) 10);
    [|discriminate H].
  cbn [obind] in H.
  io_case (decode_loads sv a); [|discriminate H]. cbn [obind] in H.
  io_case (json_get a0 (lit "esearchresult") (JDict [])); [|discriminate H].
  cbn [obind] in H. rewrite H. cbv beta iota.
  destruct ids as [|i ids]; [congruence|]. cbn [List.map json_truthy negb].
  cbv beta iota.
  change (JStr i :: List.map JStr ids) with (List.map JStr (i :: ids)).
  cbn [join_json]. rewrite all_strings_map. cbn [obind]. cbv beta iota.
  io_case (urlencode sv (fetch_fields (join (lit ",") (i :: ids))));
    [|rewrite <- !app_assoc; reflexivity].
  io_case (urlopen_read sv (efetch_url a2) 15);
    rewrite <- !app_assoc; [|reflexivity].
  destruct (parse_pubmed_xml sv a3); reflexivity.
Qed.

Lemma search_pubmed_detail_fetch_witness :
  [lit "111"; lit "222"] <> []
  /\ urlencode (canned_services string_idlist_body string_idlist)
       (search_fields (lit "aspirin") 5)
     = Return (plain_urlencode (search_fields (lit "aspirin") 5))
  /\ idlist_phase (canned_services string_idlist_body string_idlist)
       (plain_urlencode (search_fields (lit "aspirin") 5))
     = Return (JList (List.map JStr [lit "111"; lit "222"]))
  /\ (exists r1 r2,
         fst (search_pubmed (canned_services string_idlist_body string_idlist)
                (lit "aspirin") 5 []) = Return [r1; r2])
  /\ fst (search_pubmed
            (offline_fetch (canned_services string_idlist_body string_idlist))
            (lit "aspirin") 5 []) = Return []
  /\ fst (search_pubmed
            (unknown_encoding
               (canned_services string_idlist_body string_idlist))
            (lit "aspirin") 5 []) = Raise LookupError.
Proof.
  split; [discriminate|]. split; [reflexivity|]. split; [reflexivity|].
  split; [|split].
  - rewrite (search_pubmed_detail_fetch
               (canned_services string_idlist_body string_idlist)
               (lit "aspirin") 5 [] [lit "111"; lit "222"]
               (plain_urlencode (search_fields (lit "aspirin") 5)));
      [|discriminate | reflexivity | reflexivity].
    do 2 eexists. vm_compute. reflexivity.
  - rewrite (search_pubmed_detail_fetch
               (offline_fetch
                  (canned_services string_idlist_body string_idlist))
               (lit "aspirin") 5 [] [lit "111"; lit "222"]
               (plain_urlencode (search_fields (lit "aspirin") 5)));
      [|discriminate | reflexivity | reflexivity].
    reflexivity.
  - rewrite (search_pubmed_detail_fetch
               (unknown_encoding
                  (canned_services string_idlist_body string_idlist))
               (lit "aspirin") 5 [] [lit "111"; lit "222"]
               (plain_urlencode (search_fields (lit "aspirin") 5)));
      [|discriminate | reflexivity | reflexivity].
    reflexivity.
Defined.

(** ** The keywords of a claim *)

Lemma takewhile_prefix (p : char -> bool) (s : str) :
  s = takewhile p s ++ lstrip_by p s.
Proof.
  induction s as [|c s IH]; [reflexivity|]. cbn.
  destruct (p c); [cbn; congruence | reflexivity].
Qed.

Lemma forallb_firstn (p : char -> bool) (n : nat) (s : str) :
  forallb p s = true -> forallb p (firstn n s) = true.
Proof.
  revert n. induction s as [|c s IH]; intros [|n] H; try reflexivity.
  cbn in *. apply andb_true_iff in H. destruct H as [-> H]. exact (IH n H).
Qed.

Lemma skipn_prefix (m t : str) : skipn (length m) (m ++ t) = t.
Proof. induction m as [|c m IH]; [reflexivity | exact IH]. Qed.

Lemma bounded_run_spec (p : char -> bool) (lo : nat) (hi : option nat)
  (s m rest : str) :
  bounded_run p lo hi s = Some (m, rest) ->
  s = m ++ rest
  /\ (lo <= length m)%nat
  /\ forallb p m = true
  /\ match hi with Some h => (length m <= h)%nat | None => True end.
Proof.
  unfold bounded_run.
  set (m0 := match hi with
             | Some h => firstn h (takewhile p s)
             | None => takewhile p s
             end).
  destruct (lo <=? length m0)%nat eqn:L; [|discriminate].
  intros H. injection H as <- <-. apply Nat.leb_le in L.
  assert (P : exists t, s = m0 ++ t).
  { destruct hi as [h|]; subst m0.
    - exists (skipn h (takewhile p s) ++ lstrip_by p s).
      rewrite app_assoc, firstn_skipn. apply takewhile_prefix.
    - exists (lstrip_by p s). apply takewhile_prefix. }
  destruct P as (t & P). split.
  - rewrite P at 2. rewrite skipn_prefix. exact P.
  - split; [exact L|]. split.
    + destruct hi; subst m0; [apply forallb_firstn|]; apply takewhile_all.
    + destruct hi as [h|]; [|exact I]. subst m0.
      rewrite length_firstn. lia.
Qed.

Lemma keyword_match_spec (s w rest : str) :
  keyword_match s = Some (w, rest) -> s = w ++ rest /\ keyword_shape w.
Proof.
  unfold keyword_match, keyword_shape.
  destruct (bounded_run is_letter 3 None s) as [[m r]|] eqn:E.
  - intros H. injection H as <- <-.
    apply bounded_run_spec in E. destruct E as (E1 & E2 & E3 & _).
    split; [exact E1 | left; split; assumption].
  - intros H. apply bounded_run_spec in H.
    destruct H as (E1 & E2 & E3 & E4).
    split; [exact E1 | right; repeat split; assumption].
Qed.

Lemma keyword_search_spec (s w rest : str) :
  keyword_search s = Some (w, rest) ->
  exists pre, s = pre ++ w ++ rest /\ keyword_shape w.
Proof.
  induction s as [|c s IH]; cbn [keyword_search].
  - destruct (keyword_match []) as [[w' r']|] eqn:E; [|discriminate].
    intros H. injection H as <- <-. exists [].
    exact (keyword_match_spec _ _ _ E).
  - destruct (keyword_match (c :: s)) as [[w' r']|] eqn:E.
    + intros H. injection H as <- <-. exists [].
      exact (keyword_match_spec _ _ _ E).
    + intros H. destruct (IH H) as (pre & E1 & E2).
      exists (c :: pre). split; [cbn; congruence | exact E2].
Qed.

Lemma keyword_shape_length (w : str) : keyword_shape w -> (2 <= length w)%nat.
Proof. intros [[H _]|[H _]]; lia. Qed.

Lemma keyword_findall_spec (fuel : nat) :
  forall s,
    Forall (fun w => keyword_shape w /\ exists pre post, s = pre ++ w ++ post)
      (keyword_findall fuel s).
Proof.
  induction fuel as [|fuel IH]; intros s; [constructor|].
  cbn [keyword_findall].
  destruct (keyword_search s) as [[w rest]|] eqn:E; [|constructor].
  destruct (keyword_search_spec _ _ _ E) as (pre & E1 & E2).
  constructor.
  - split; [exact E2 | exists pre, rest; exact E1].
  - eapply Forall_impl; [|apply (IH rest)].
    intros w' (S' & pre' & post' & E').
    split; [exact S'|]. exists (pre ++ w ++ pre'), post'.
    rewrite E1, E'. rewrite <- !app_assoc. reflexivity.
Qed.

Lemma keyword_findall_fuel (fuel : nat) :
  forall fuel' s,
    (length s < fuel)%nat -> (length s < fuel')%nat ->
    keyword_findall fuel s = keyword_findall fuel' s.
Proof.
  induction fuel as [|fuel IH]; intros [|fuel'] s H H'; try lia.
  cbn [keyword_findall].
  destruct (keyword_search s) as [[w rest]|] eqn:E; [|reflexivity].
  destruct (keyword_search_spec _ _ _ E) as (pre & E1 & E2).
  apply keyword_shape_length in E2.
  assert (L : (length rest < length s)%nat).
  { rewrite E1. unfold str, char in *. rewrite !length_app. lia. }
  f_equal. apply IH; lia.
Qed.

Lemma keyword_findall_in_order (fuel : nat) :
  forall s, in_order (keyword_findall fuel s) s.
Proof.
  induction fuel as [|fuel IH]; intros s; [constructor|].
  cbn [keyword_findall].
  destruct (keyword_search s) as [[w rest]|] eqn:E; [|constructor].
  destruct (keyword_search_spec _ _ _ E) as (pre & -> & _).
  constructor. apply IH.
Qed.

Lemma takewhile_app_stop (p : char -> bool) (a t : str) :
  head_in p t = false -> takewhile p (a ++ t) = takewhile p a.
Proof.
  intros H. induction a as [|c a IH].
  - destruct t as [|x t]; [reflexivity|]. cbn in H |- *. rewrite H.
    reflexivity.
  - cbn. destruct (p c); [rewrite IH|]; reflexivity.
Qed.

Lemma takewhile_whole (p : char -> bool) (w t : str) :
  forallb p w = true -> head_in p t = false -> takewhile p (w ++ t) = w.
Proof.
  intros Hw Ht. induction w as [|c w IH].
  - apply (takewhile_app_stop p [] t Ht).
  - cbn in Hw |- *. apply andb_true_iff in Hw. destruct Hw as [-> Hw].
    rewrite (IH Hw). reflexivity.
Qed.

Lemma last_in_app (p : char -> bool) (m t : str) :
  t <> [] -> last_in p (m ++ t) = last_in p t.
Proof.
  intros H. unfold last_in. rewrite rev_app_distr.
  destruct (rev t) as [|c r] eqn:E; [|reflexivity].
  apply (f_equal (@rev char)) in E. rewrite rev_involutive in E.
  cbn in E. congruence.
Qed.

Lemma last_in_suffix (p : char -> bool) (m t : str) :
  last_in p (m ++ t) = false -> last_in p t = false.
Proof.
  destruct t as [|c t]; [reflexivity|].
  rewrite last_in_app by discriminate. auto.
Qed.

Lemma last_in_split (p : char -> bool) (s : str) :
  s <> [] -> last_in p s = false ->
  exists a c, s = a ++ [c] /\ p c = false.
Proof.
  intros Hne H. destruct (exists_last Hne) as (a & c & ->).
  exists a, c. split; [reflexivity|].
  rewrite last_in_app in H by discriminate. exact H.
Qed.

Lemma letter_not_cjk (c : char) : is_letter c = true -> is_cjk c = false.
Proof.
  unfold is_letter, is_cjk, between. intros H.
  apply orb_true_iff in H.
  destruct H as [H|H]; apply andb_true_iff in H; destruct H as [H1 H2];
    apply N.leb_le in H1, H2;
    apply andb_false_iff; left; apply N.leb_gt; lia.
Qed.

Lemma bounded_run_prefix (p : char -> bool) (lo : nat) (hi : option nat)
  (s m rest : str) :
  bounded_run p lo hi s = Some (m, rest) ->
  exists t, takewhile p s = m ++ t.
Proof.
  unfold bounded_run.
  destruct (lo <=? length _)%nat; [|discriminate].
  intros H. injection H as <- _. destruct hi as [h|].
  - exists (skipn h (takewhile p s)). symmetry. apply firstn_skipn.
  - exists []. symmetry. apply app_nil_r.
Qed.

(** A match that starts before a word ends before it. *)
Lemma keyword_match_within (pre w post m r : str) :
  pre <> [] ->
  word_between pre w post ->
  keyword_match (pre ++ w ++ post) = Some (m, r) ->
  exists pre', pre = m ++ pre' /\ r = pre' ++ w ++ post.
Proof.
  intros Hne (Hl & Hw & Hpre & Hpost) H.
  destruct (keyword_match_spec _ _ _ H) as [Es _].
  assert (P : exists pre', pre = m ++ pre').
  { unfold keyword_match in H.
    destruct (bounded_run is_letter 3 None (pre ++ w ++ post))
      as [[m' r']|] eqn:E.
    - injection H as -> ->.
      destruct (bounded_run_prefix _ _ _ _ _ _ E) as (t & Et).
      destruct (last_in_split is_letter pre Hne Hpre) as (a & c & -> & Hc).
      rewrite <- app_assoc in Et.
      rewrite takewhile_app_stop in Et by exact Hc.
      exists (t ++ lstrip_by is_letter a ++ [c]).
      rewrite (takewhile_prefix is_letter a) at 1. rewrite Et.
      rewrite <- !app_assoc. reflexivity.
    - destruct (bounded_run_prefix _ _ _ _ _ _ H) as (t & Et).
      rewrite takewhile_app_stop in Et.
      + exists (t ++ lstrip_by is_cjk pre).
        rewrite (takewhile_prefix is_cjk pre) at 1. rewrite Et.
        rewrite <- app_assoc. reflexivity.
      + destruct w as [|x w]; [cbn in Hl; lia|].
        cbn in Hw |- *. apply andb_true_iff in Hw.
        apply letter_not_cjk. tauto. }
  destruct P as (pre' & ->). exists pre'. split; [reflexivity|].
  rewrite <- app_assoc in Es. apply app_inv_head in Es. congruence.
Qed.

Lemma keyword_match_word (w post : str) :
  word_between [] w post -> keyword_match (w ++ post) = Some (w, post).
Proof.
  intros (Hl & Hw & _ & Hpost). unfold keyword_match, bounded_run.
  rewrite (takewhile_whole is_letter w post Hw Hpost).
  apply Nat.leb_le in Hl. rewrite Hl, skipn_prefix. reflexivity.
Qed.

Lemma keyword_search_match (s : str) (r : str * str) :
  keyword_match s = Some r -> keyword_search s = Some r.
Proof. intros H. destruct s; cbn [keyword_search]; rewrite H; reflexivity. Qed.

(** The leftmost match in a text that holds a word is that word, or ends
    before it. *)
Lemma keyword_search_reaches (w post : str) :
  forall pre,
    word_between pre w post ->
    exists m r,
      keyword_search (pre ++ w ++ post) = Some (m, r)
      /\ ((m = w /\ r = post)
          \/ exists pre',
               word_between pre' w post
               /\ r = pre' ++ w ++ post
               /\ (length pre' < length pre)%nat).
Proof.
  induction pre as [|c pre IH]; intros W.
  - exists w, post. split; [|left; split; reflexivity].
    change ([] ++ w ++ post) with (w ++ post).
    apply keyword_search_match. exact (keyword_match_word w post W).
  - change ((c :: pre) ++ w ++ post) with (c :: pre ++ w ++ post).
    cbn [keyword_search].
    destruct (keyword_match (c :: pre ++ w ++ post)) as [[m r]|] eqn:E.
    + exists m, r. split; [reflexivity|]. right.
      destruct (keyword_match_within (c :: pre) w post m r
                  ltac:(discriminate) W E) as (pre' & Ep & Er).
      exists pre'. destruct W as (Hl & Hw & Hpre & Hpost).
      split; [|split; [exact Er|]].
      * repeat split; try assumption. rewrite Ep in Hpre.
        exact (last_in_suffix _ _ _ Hpre).
      * destruct (keyword_match_spec _ _ _ E) as [_ Hm].
        apply keyword_shape_length in Hm.
        apply (f_equal (@length char)) in Ep.
        rewrite length_app in Ep. unfold str, char in *. lia.
    + assert (W' : word_between pre w post).
      { destruct W as (Hl & Hw & Hpre & Hpost).
        repeat split; try assumption.
        exact (last_in_suffix is_letter [c] pre Hpre). }
      destruct (IH W') as (m & r & Es & [[-> ->] | (pre' & Wp & Er & L)]).
      * exists w, post. split; [exact Es | left; split; reflexivity].
      * exists m, r. split; [exact Es|]. right. exists pre'.
        split; [exact Wp|]. split; [exact Er|]. cbn [length]. lia.
Qed.

(** Every word of the text is found by the scan. *)
Lemma keyword_findall_reaches (w post : str) (fuel : nat) :
  forall pre,
    word_between pre w post ->
    (length (pre ++ w ++ post) < fuel)%nat ->
    In w (keyword_findall fuel (pre ++ w ++ post)).
Proof.
  induction fuel as [|fuel IH]; intros pre W L; [lia|].
  cbn [keyword_findall].
  destruct (keyword_search_reaches w post pre W)
    as (m & r & E & [[-> ->] | (pre' & Wp & -> & Lp)]); rewrite E.
  - left. reflexivity.
  - right. apply IH; [exact Wp|].
    unfold str, char in *. rewrite !length_app in *. lia.
Qed.

Lemma keyword_tokens_complete (pre w post : str) :
  word_between pre w post -> In w (keyword_tokens (pre ++ w ++ post)).
Proof.
  intros W. unfold keyword_tokens. apply keyword_findall_reaches; [exact W|].
  lia.
Qed.

(** [extract_keywords] returns the first five kept tokens of the text
    joined by single spaces, or the first 50 characters of the text where
    no token is kept.  The tokens are found in the order of the text, one
    after the other; each is a run of at least three ASCII letters or of
    two to four ideographs, and a kept one has a lower-case form that is
    no stopword.  Every word of the text, a run of at least three ASCII
    letters with no letter around it, is a token; so a text with a word
    that is no stopword never gets the fallback.  The scan of the text is
    complete: more fuel finds the same tokens. *)
Theorem extract_keywords_shape (rt : Runtime) (text : str) :
  extract_keywords text
  = match kept_keywords text with
    | [] => firstn 50 text
    | _ :: _ => join (lit " ") (firstn 5 (kept_keywords text))
    end
  /\ in_order (keyword_tokens text) text
  /\ Forall keyword_shape (keyword_tokens text)
  /\ (forall w,
        In w (kept_keywords text)
        <-> In w (keyword_tokens text)
            /\ str_in (lower w) stopwords = false)
  /\ (forall pre w post,
        text = pre ++ w ++ post ->
        word_between pre w post ->
        In w (keyword_tokens text))
  /\ (forall pre w post,
        text = pre ++ w ++ post ->
        word_between pre w post ->
        str_in (lower w) stopwords = false ->
        In w (kept_keywords text)
        /\ kept_keywords text <> []
        /\ extract_keywords text
           = join (lit " ") (firstn 5 (kept_keywords text)))
  /\ forall fuel,
       (length text < fuel)%nat ->
       keyword_findall fuel text = keyword_tokens text.
Proof.
  assert (E : extract_keywords text
              = match kept_keywords text with
                | [] => firstn 50 text
                | _ :: _ => join (lit " ") (firstn 5 (kept_keywords text))
                end).
  { unfold extract_keywords. fold (kept_keywords text).
    destruct (kept_keywords text); reflexivity. }
  assert (K : forall w,
             In w (kept_keywords text)
             <-> In w (keyword_tokens text)
                 /\ str_in (lower w) stopwords = false).
  { intros w. unfold kept_keywords. rewrite filter_In, negb_true_iff.
    reflexivity. }
  split; [exact E|].
  split; [apply keyword_findall_in_order|].
  split.
  { eapply Forall_impl; [|apply (keyword_findall_spec (S (length text)))].
    intros w [H _]. exact H. }
  split; [exact K|].
  split; [intros pre w post ->; apply keyword_tokens_complete|].
  split.
  - intros pre w post -> W Hs.
    assert (Hin : In w (kept_keywords (pre ++ w ++ post))).
    { apply K. split; [apply keyword_tokens_complete, W | exact Hs]. }
    split; [exact Hin|].
    rewrite E. destruct (kept_keywords (pre ++ w ++ post));
      [destruct Hin|].
    split; [discriminate | reflexivity].
  - intros fuel H. unfold keyword_tokens.
    apply keyword_findall_fuel; [exact H | lia].
Qed.

Lemma extract_keywords_shape_witness :
  water_claim = lit "The " ++ lit "alkaline" ++ lit " water can cure cancer"
  /\ word_between (lit "The ") (lit "alkaline") (lit " water can cure cancer")
  /\ str_in (lower (Runtime := ascii_tables) (lit "alkaline")) stopwords
     = false
  /\ In (lit "alkaline") (keyword_tokens water_claim)
  /\ keyword_tokens water_claim
     = [lit "The"; lit "alkaline"; lit "water"; lit "can"; lit "cure";
        lit "cancer"]
  /\ extract_keywords (rt := ascii_tables) water_claim
     = lit "alkaline water cure cancer".
Proof.
  assert (W : word_between (lit "The ") (lit "alkaline")
                (lit " water can cure cancer"))
    by (split; [cbn; lia | repeat split]).
  destruct (extract_keywords_shape ascii_tables water_claim)
    as (_ & _ & _ & _ & C & R & _).
  split; [reflexivity|].
  split; [exact W|].
  split; [reflexivity|].
  assert (E : water_claim
              = lit "The " ++ lit "alkaline" ++ lit " water can cure cancer")
    by reflexivity.
  split; [exact (C _ _ _ E W)|].
  split; [reflexivity|].
  destruct (R _ _ _ E W eq_refl) as (_ & _ & ->).
  reflexivity.
Defined.

(** ** Brackets inside a section *)

Lemma until_marker_stop (body m : str) :
  has 91 body = false -> marker_at m = true -> until_marker (body ++ m) = body.
Proof.
  intros Hb Hm. induction body as [|c body IH].
  - destruct m as [|x m]; [discriminate Hm|].
    cbn [app until_marker]. rewrite Hm. reflexivity.
  - rewrite has_cons in Hb. apply orb_false_iff in Hb. destruct Hb as [Hc Hb].
    cbn [app until_marker].
    assert (M : marker_at (c :: body ++ m) = false).
    { unfold marker_at. destruct (body ++ m); [reflexivity|].
      rewrite N.eqb_sym, Hc. reflexivity. }
    rewrite M, (IH Hb). reflexivity.
Qed.

(** A section ends at the first bracketed group of any content, not only at
    one of the nine tags: where the text before the tag and the content up
    to that group hold no opening bracket, what follows the group, and the
    group itself (a reference such as "[1]", say), is not part of the
    section. *)
Theorem extract_section_ends_at_bracket (before tag body name rest : str) :
  has 91 before = false ->
  has 91 body = false ->
  name <> [] ->
  has 93 name = false ->
  extract_section (before ++ bracketed tag ++ body ++ bracketed name ++ rest)
    tag
  = strip body.
Proof.
  intros Hp Hb Hn H93. rewrite extract_section_contract.
  unfold section_by_contract.
  assert (F : find_after (bracketed tag)
                (before ++ bracketed tag ++ body ++ bracketed name ++ rest)
              = Some (body ++ bracketed name ++ rest)).
  { transitivity (find_after (bracketed tag)
                    (bracketed tag ++ body ++ bracketed name ++ rest)).
    - exact (find_after_skip (tag ++ lit "]") before _ Hp).
    - destruct (bracketed tag ++ body ++ bracketed name ++ rest) eqn:E;
        cbn [find_after]; rewrite <- E, strip_prefix_complete; reflexivity. }
  rewrite F. rewrite until_marker_stop; [reflexivity | exact Hb|].
  apply marker_at_spec. exists name, rest.
  split; [exact Hn|]. split; [exact H93|].
  unfold bracketed. cbn. rewrite <- app_assoc. reflexivity.
Qed.

Lemma extract_section_ends_at_bracket_witness :
  has 91 (lit "Reply: ") = false
  /\ has 91 (lit " Trials show no effect ") = false
  /\ lit "1" <> []
  /\ has 93 (lit "1") = false
  /\ extract_section
       (lit "Reply: " ++ bracketed (lit "Evidence Summary")
        ++ lit " Trials show no effect " ++ bracketed (lit "1")
        ++ lit ", and reviews agree.")
       (lit "Evidence Summary")
     = lit "Trials show no effect".
Proof.
  split; [reflexivity|]. split; [reflexivity|]. split; [discriminate|].
  split; [reflexivity|].
  rewrite (extract_section_ends_at_bracket (lit "Reply: ")
             (lit "Evidence Summary") (lit " Trials show no effect ")
             (lit "1") (lit ", and reviews agree.") eq_refl eq_refl);
    [reflexivity | discriminate | reflexivity].
Defined.
